(** * Dashboard control plane: process lifecycle, runtime state, logs, config

    A shallow embedding of the dashboard's service layer:

    - [src/services/stateService.js]   ([loadState], [saveState],
      [getProjectState], [setProjectState]);
    - [src/utils/logging.js] and [src/services/logService.js]
      ([appendLog], [readLog], [clearLogs]);
    - [src/services/projectLifecycle.js] and
      [src/services/tunnelLifecycle.js] (start / stop / liveness reads);
    - [src/routes/projects.js] ([buildProjectStatus] and the handlers of
      the routes, as functions from the server's state to the response
      sent; query parameters are strings when present);
    - [src/config/validator.js] ([validateConfig], [validateProject]);
    - [src/services/configService.js] ([loadConfig], [reloadConfig],
      [getProject], [getAllProjects]) and [getPort] of
      [src/config/index.js].

    Stateful code is written in a small state-and-exception monad over an
    explicit [world]: the state file, the log directory, the operating
    system's process table, the wall clock and a trace of the system calls
    performed.  A thrown JavaScript exception keeps the side effects made
    before it, as in the source.

    Environment model.  The file system is an in-memory store: creating a
    directory and writing or appending to a file inside an existing
    directory always succeed; reading a missing file fails with [ENOENT]
    and parsing a state file that is not JSON fails with a [SyntaxError].
    JavaScript strings are represented by the bytes of their UTF-8
    encoding, objects used as records by Rocq records whose fields are
    three-valued (absent, [null], value), and objects used as dictionaries
    by finite maps over their own keys (names inherited from
    [Object.prototype] are not project identifiers here).  Each operation
    runs to its end before the next one starts, and the clock does not
    advance inside an operation. *)

From Stdlib Require Import ZArith Lia Bool Ascii String List.
From Stdlib Require Import Strings.Byte.
From stdpp Require Import base option list strings gmap.

Local Open Scope string_scope.
Local Open Scope Z_scope.
Local Set Warnings "-register-all".

(** ** JavaScript values and exceptions *)

Module Js.

(** A property of a record-like object: absent ([undefined]), [null], or
    a value of the property's type. *)
Inductive field (A : Type) : Type :=
| Undefined
| Null
| Val (a : A).
Arguments Undefined {A}.
Arguments Null {A}.
Arguments Val {A} a.

(** [!!x] for a number-typed property: [undefined], [null] and [0] are
    falsy. *)
Definition truthyZ (x : field Z) : bool :=
  match x with
  | Val n => negb (n =? 0)
  | _ => false
  end.

(** [!!s] for a string: only the empty string is falsy. *)
Definition truthyS (s : string) : bool :=
  match s with
  | EmptyString => false
  | String _ _ => true
  end.

(** [!!x] for a string-typed property. *)
Definition truthySF (x : field string) : bool :=
  match x with
  | Val s => truthyS s
  | _ => false
  end.

(** [x || null], with [null] rendered as [None]. *)
Definition orNullZ (x : field Z) : option Z :=
  match x with
  | Val n => if n =? 0 then None else Some n
  | _ => None
  end.

Definition orNullS (x : field string) : option string :=
  match x with
  | Val s => if truthyS s then Some s else None
  | _ => None
  end.

(** The exceptions the modelled code throws or catches. *)
Inductive exn : Type :=
| Error (message : string)                  (* new Error(message) *)
| SyntaxError (message : string)            (* JSON.parse *)
| RangeError (message : string)             (* Buffer.alloc *)
| SystemError (code : string) (message : string).  (* fs / process.kill *)

Definition message (e : exn) : string :=
  match e with
  | Error m | SyntaxError m | RangeError m | SystemError _ m => m
  end.

Inductive outcome (A : Type) : Type :=
| Ok (a : A)
| Throw (e : exn).
Arguments Ok {A} a.
Arguments Throw {A} e.

(** The string ["\n"]. *)
Definition newline : string := String "010"%char EmptyString.

(** [s.endsWith("\n")] *)
Fixpoint endsWithNewline (s : string) : bool :=
  match s with
  | EmptyString => false
  | String c EmptyString => Ascii.eqb c "010"%char
  | String _ rest => endsWithNewline rest
  end.

(** Decimal rendering of an integer, as in a template literal. *)
Fixpoint showPos_fuel (fuel : nat) (n : Z) (acc : string) : string :=
  match fuel with
  | O => acc
  | S fuel' =>
      let d := ascii_of_nat (48 + Z.to_nat (n mod 10)) in
      if n <? 10 then String d acc
      else showPos_fuel fuel' (n / 10) (String d acc)
  end.

Definition showNat (n : Z) : string :=
  showPos_fuel (S (Z.to_nat (Z.log2 n))) n "".

Definition showZ (n : Z) : string :=
  if n <? 0 then "-" ++ showNat (- n) else showNat n.

(** Left-pad a non-negative integer with zeros to [width] digits. *)
Fixpoint zeros (k : nat) : string :=
  match k with
  | O => ""
  | S k' => String "0"%char (zeros k')
  end.

Definition pad (width : nat) (n : Z) : string :=
  let s := showNat n in
  zeros (width - String.length s) ++ s.

End Js.
Export Js.

(** ** [buffer.toString("utf8")]

    Modelled from the WHATWG UTF-8 decoder, which Node follows: a
    well-formed sequence is decoded, and every maximal ill-formed part
    (a byte that cannot start a sequence, or a sequence cut short by a
    byte that cannot continue it or by the end of the buffer) gives one
    U+FFFD.  Strings are represented here by their UTF-8 bytes, so that
    the decoded text is the buffer with [EF BF BD] in the place of each
    ill-formed part. *)

Module Utf8.

Definition code (b : byte) : Z := Z.of_N (Byte.to_N b).

(** U+FFFD in UTF-8. *)
Definition replacement : list byte := [xef; xbf; xbd].

(** What a byte starts when no sequence is open: a character of its
    own, a sequence of [more] further bytes of which the next one lies
    in [lo..hi], or nothing. *)
Inductive start : Type :=
| Single
| Lead (more : nat) (lo hi : Z)
| Bad.

Definition classify (n : Z) : start :=
  if n <=? 127 then Single
  else if (194 <=? n) && (n <=? 223) then Lead 0 128 191
  else if (224 <=? n) && (n <=? 239) then
    Lead 1 (if n =? 224 then 160 else 128) (if n =? 237 then 159 else 191)
  else if (240 <=? n) && (n <=? 244) then
    Lead 2 (if n =? 240 then 144 else 128) (if n =? 244 then 143 else 191)
  else Bad.

(** The decoder.  [pending] holds the bytes of the open sequence, which
    needs [S more] further bytes when [needed] is [Some more], the next
    of them in [lo..hi]. *)
Fixpoint decode (bytes : list byte) (pending : list byte) (needed : option nat)
    (lo hi : Z) : list byte :=
  match bytes with
  | [] =>
      match needed with
      | None => []
      | Some _ => replacement
      end
  | b :: rest =>
      let fresh :=
        match classify (code b) with
        | Single => b :: decode rest [] None 128 191
        | Lead more lo' hi' => decode rest [b] (Some more) lo' hi'
        | Bad => replacement ++ decode rest [] None 128 191
        end in
      match needed with
      | None => fresh
      | Some more =>
          if (lo <=? code b) && (code b <=? hi) then
            match more with
            | O => pending ++ b :: decode rest [] None 128 191
            | S more' => decode rest (pending ++ [b]) (Some more') 128 191
            end
          else replacement ++ fresh
      end
  end%list.

Definition toString (buffer : list byte) : string :=
  string_of_list_byte (decode buffer [] None 128 191).

End Utf8.

(** ** [Date.prototype.toISOString]

    Modelled from ECMAScript: the receiver is a time value in milliseconds
    since the epoch, the result is [YYYY-MM-DDTHH:mm:ss.sssZ] in UTC, with
    the expanded signed six-digit year outside 0..9999. *)

Module IsoDate.

Definition msPerDay : Z := 86400000.

(** Proleptic Gregorian (year, month, day) of a day number counted from
    1970-01-01. *)
Definition civilFromDays (days : Z) : Z * Z * Z :=
  let z := days + 719468 in
  let era := z / 146097 in
  let doe := z - era * 146097 in
  let yoe := (doe - doe / 1460 + doe / 36524 - doe / 146096) / 365 in
  let doy := doe - (365 * yoe + yoe / 4 - yoe / 100) in
  let mp := (5 * doy + 2) / 153 in
  let d := doy - (153 * mp + 2) / 5 + 1 in
  let m := if mp <? 10 then mp + 3 else mp - 9 in
  let y := yoe + era * 400 + (if m <=? 2 then 1 else 0) in
  (y, m, d).

Definition showYear (y : Z) : string :=
  if (0 <=? y) && (y <=? 9999) then pad 4 y
  else if y <? 0 then "-" ++ pad 6 (- y)
  else "+" ++ pad 6 y.

Definition toISOString (t : Z) : string :=
  let days := t / msPerDay in
  let ms := t mod msPerDay in
  let '(y, m, d) := civilFromDays days in
  showYear y ++ "-" ++ pad 2 m ++ "-" ++ pad 2 d ++ "T"
    ++ pad 2 (ms / 3600000) ++ ":" ++ pad 2 (ms / 60000 mod 60) ++ ":"
    ++ pad 2 (ms / 1000 mod 60) ++ "." ++ pad 3 (ms mod 1000) ++ "Z".

End IsoDate.

(** ** The environment *)

Module Env.

(** ProjectRuntimeState: one record per project identifier in
    [state.json].  A stopped project keeps its record with [null]
    fields; a project never started has no record, or has a record in
    which the fields are absent. *)
Record ProjectRuntimeState : Type := mkState {
  pid : field Z;
  startedAt : field Z;
  tunnelPid : field Z;
  tunnelStartedAt : field Z;
  tunnelUrl : field string;
  tunnelUrlDiscoveredAt : field Z;
}.

(** The object literal [{}]. *)
Definition emptyState : ProjectRuntimeState :=
  mkState Undefined Undefined Undefined Undefined Undefined Undefined.

(** StateDocument: [{ "projects": { "<id>": { ... } } }].  The
    [projects] key itself may be missing from a hand-written file. *)
Record StateDocument : Type := mkDoc {
  projects : option (gmap string ProjectRuntimeState);
}.

(** What is at STATE_PATH. *)
Inductive stateFile : Type :=
| Missing
| NotJson (text : string)
| Json (doc : StateDocument).

(** A process known to the operating system: its process group, and
    whether the dashboard's user may signal it. *)
Record process : Type := mkProcess {
  pgid : Z;
  signalable : bool;
}.

Inductive signal : Type := Sig0 | SIGTERM.

(** System calls and writes that the claims count. *)
Inductive event : Type :=
| EvKill (target : Z) (sig : signal) (delivered : bool)
| EvSpawn (command : string) (args : list string) (child : Z)
| EvWriteState (doc : StateDocument).

(** What [path.resolve(config.dirs.root, project.dir)] is on disk. *)
Inductive dirStatus : Type :=
| IsDirectory
| NoSuchDirectory
| NotADirectory.

Record world : Type := World {
  state_file : stateFile;
  (** [config.dirs.logs]: [None] while the directory does not exist,
      otherwise its files by name.  The directory holds regular files
      only: nothing in the modelled code creates a sub-directory. *)
  logs : option (gmap string (list byte));
  procs : gmap Z process;
  (** [Date.now()] *)
  now : Z;
  trace : list event;
  (** The working directories: what each [dir] of a project resolves to. *)
  dirs : string -> dirStatus;
}.

(** A world in which every project directory exists. *)
Definition mkWorld (f : stateFile) (l : option (gmap string (list byte)))
    (p : gmap Z process) (n : Z) (t : list event) : world :=
  World f l p n t (fun _ => IsDirectory).

Definition set_state_file (f : stateFile) (w : world) : world :=
  World f (logs w) (procs w) (now w) (trace w) (dirs w).
Definition set_logs (l : option (gmap string (list byte))) (w : world) : world :=
  World (state_file w) l (procs w) (now w) (trace w) (dirs w).
Definition set_procs (p : gmap Z process) (w : world) : world :=
  World (state_file w) (logs w) p (now w) (trace w) (dirs w).
Definition set_dirs (d : string -> dirStatus) (w : world) : world :=
  World (state_file w) (logs w) (procs w) (now w) (trace w) d.
Definition record (e : event) (w : world) : world :=
  World (state_file w) (logs w) (procs w) (now w) (trace w ++ [e]) (dirs w).

(** *** The monad: state passing with exceptions *)

Definition IO (A : Type) : Type := world -> outcome A * world.

Definition ret {A} (a : A) : IO A := fun w => (Ok a, w).

Definition throw {A} (e : exn) : IO A := fun w => (Throw e, w).

Definition bind {A B} (c : IO A) (k : A -> IO B) : IO B :=
  fun w =>
    match c w with
    | (Ok a, w') => k a w'
    | (Throw e, w') => (Throw e, w')
    end.

(** [try { c } catch (e) { handler(e) }] *)
Definition tryCatch {A} (c : IO A) (handler : exn -> IO A) : IO A :=
  fun w =>
    match c w with
    | (Ok a, w') => (Ok a, w')
    | (Throw e, w') => handler e w'
    end.

(** The outcome of [c] as a value: what a [try] block leaves for the code
    after it, which still sees the assignments made before the throw. *)
Definition attempt {A} (c : IO A) : IO (outcome A) :=
  fun w =>
    match c w with
    | (r, w') => (Ok r, w')
    end.

Definition gets {A} (f : world -> A) : IO A := fun w => (Ok (f w), w).

Definition modify (f : world -> world) : IO unit := fun w => (Ok tt, f w).

End Env.
Export Env.

Notation "'let*' x := c 'in' k" := (bind c (fun x => k))
  (at level 10, x name, c at level 100, k at level 200).
Notation "c ;; k" := (bind c (fun _ => k))
  (at level 100, k at level 200, right associativity).

(** ** [src/services/stateService.js] *)

Module StateService.

(** [fs.readFileSync(STATE_PATH, "utf8")] followed by [JSON.parse]. *)
Definition readAndParse : IO StateDocument :=
  fun w =>
    match state_file w with
    | Missing =>
        (Throw (SystemError "ENOENT" "ENOENT: no such file or directory"), w)
    | NotJson _ => (Throw (SyntaxError "Unexpected token"), w)
    | Json doc => (Ok doc, w)
    end.

Definition isENOENT (e : exn) : bool :=
  match e with
  | SystemError code _ => String.eqb code "ENOENT"
  | _ => false
  end.

Definition loadState : IO StateDocument :=
  tryCatch readAndParse (fun error =>
    if isENOENT error then ret (mkDoc (Some ∅))
    else match error with
         | SyntaxError m => throw (Error ("Invalid JSON in state file: " ++ m))
         | _ => throw error
         end).

(** [fs.writeFileSync(STATE_PATH, JSON.stringify(state, null, 2))]:
    properties whose value is [undefined] are dropped by
    [JSON.stringify] and read back as absent, which is what
    [Undefined] stands for. *)
Definition writeFileSync (state : StateDocument) : IO unit :=
  modify (fun w => record (EvWriteState state) (set_state_file (Json state) w)).

Definition saveState (state : StateDocument) : IO unit :=
  tryCatch (writeFileSync state) (fun error =>
    throw (Error ("Failed to save state: " ++ message error))).

(** [if (!state.projects) state.projects = {}] on the loaded copy. *)
Definition projectsOf (state : StateDocument) : gmap string ProjectRuntimeState :=
  match projects state with
  | Some ps => ps
  | None => ∅
  end.

(** The in-memory copy after the lazy insertion of [{}], and the record
    it holds for [projectId].  The copy is dropped on return. *)
Definition withProject (projectId : string)
    (ps : gmap string ProjectRuntimeState) : gmap string ProjectRuntimeState :=
  match ps !! projectId with
  | Some _ => ps
  | None => <[projectId := emptyState]> ps
  end.

Definition getProjectState (projectId : string) : IO ProjectRuntimeState :=
  let* state := loadState in
  let ps := withProject projectId (projectsOf state) in
  ret (default emptyState (ps !! projectId)).

(** [projects[projectId] = stateObject] on an object that [JSON.parse]
    or [{}] made.  Every name becomes or stays an own key, except
    [__proto__] when the object does not have it as an own key (a parsed
    file can): the assignment then sets the prototype and adds no key, so
    [JSON.stringify] writes the object without the record. *)
Definition assign (projectId : string) (stateObject : ProjectRuntimeState)
    (ps : gmap string ProjectRuntimeState) : gmap string ProjectRuntimeState :=
  if String.eqb projectId "__proto__" && bool_decide (ps !! projectId = None)
  then ps
  else <[projectId := stateObject]> ps.

Definition setProjectState (projectId : string)
    (stateObject : ProjectRuntimeState) : IO unit :=
  let* state := loadState in
  let ps := projectsOf state in
  saveState (mkDoc (Some (assign projectId stateObject ps))).

End StateService.

(** ** Log files *)

Module LogFs.

(** [ensureLogDir]: [mkdirSync(config.dirs.logs, { recursive: true })]
    unless the directory exists. *)
Definition ensureLogDir : IO unit :=
  modify (fun w =>
    match logs w with
    | Some _ => w
    | None => set_logs (Some ∅) w
    end).

(** A path that [path.join(config.dirs.logs, ...)] returns: the name of
    a file directly inside the log directory, or any other path (below a
    sub-directory, outside the log directory, or not a name the file
    system takes). *)
Inductive path : Type :=
| FileName (name : string)
| NoFileName.

(** The segments of a path: the text between the separators. *)
Fixpoint segments (s : string) : list string :=
  match s with
  | EmptyString => [EmptyString]
  | String c rest =>
      if Ascii.eqb c "/" then EmptyString :: segments rest
      else
        match segments rest with
        | seg :: others => String c seg :: others
        | [] => [String c EmptyString]
        end
  end.

(** [path.normalize] on the segments that follow the log directory:
    empty segments and [.] are dropped, [..] removes the segment before
    it.  [up] is the path walked so far below the log directory, last
    segment first; the answer is [None] when the path leaves the log
    directory. *)
Fixpoint below (up : list string) (segs : list string) : option (list string) :=
  match segs with
  | [] => Some (rev up)
  | seg :: rest =>
      if String.eqb seg "" || String.eqb seg "." then below up rest
      else if String.eqb seg ".." then
        match up with
        | [] => None
        | _ :: up' => below up' rest
        end
      else below (seg :: up) rest
  end.

Fixpoint hasNul (s : string) : bool :=
  match s with
  | EmptyString => false
  | String c rest => Ascii.eqb c "000"%char || hasNul rest
  end.

(** The longest file name, in bytes, of the common file systems. *)
Definition NAME_MAX : nat := 255.

(** [path.join(config.dirs.logs, name)] *)
Definition join (name : string) : path :=
  if hasNul name then NoFileName
  else
    match below [] (segments name) with
    | Some [file] =>
        if (String.length file <=? NAME_MAX)%nat then FileName file else NoFileName
    | _ => NoFileName
    end.

Definition getLogFilePath (projectId logType : string) : path :=
  join (projectId ++ "." ++ logType ++ ".log").

Definition ENOENT : exn := SystemError "ENOENT" "ENOENT: no such file or directory".

(** [fs.appendFileSync(logPath, content)]: creates the file when it is
    absent; fails when the directory that should hold it is absent, which
    is the case of every path that is not a file name of the log
    directory. *)
Definition appendFileSync (logPath : path) (content : string) : IO unit :=
  fun w =>
    match logs w, logPath with
    | Some files, FileName name =>
        let old := default [] (files !! name) in
        (Ok tt,
         set_logs (Some (<[name := (old ++ list_byte_of_string content)%list]> files)) w)
    | _, _ => (Throw ENOENT, w)
    end.

(** [new Date().toISOString()] *)
Definition timestamp : IO string :=
  gets (fun w => IsoDate.toISOString (now w)).

(** The bytes of the file at [logPath], when there is one. *)
Definition content (logPath : path) (w : world) : option (list byte) :=
  match logs w, logPath with
  | Some files, FileName name => files !! name
  | _, _ => None
  end.

(** [fs.statSync(logPath).size] *)
Definition statSize (logPath : path) : IO Z :=
  fun w =>
    match content logPath w with
    | None => (Throw ENOENT, w)
    | Some bytes => (Ok (Z.of_nat (List.length bytes)), w)
    end.

(** [Buffer.alloc(n)] followed by
    [fs.readSync(fd, buffer, 0, buffer.length, start)]: the [n] bytes of
    the file from offset [start]. *)
Definition readBuffer (logPath : path) (n start : Z) : IO (list byte) :=
  fun w =>
    if n <? 0 then
      (Throw (RangeError "The value of size is out of range."), w)
    else
      let bytes := default [] (content logPath w) in
      (Ok (take (Z.to_nat n) (drop (Z.to_nat start) bytes)), w).

End LogFs.

(** ** [src/utils/logging.js]: the logger the lifecycle managers import *)

Module Logging.
Import LogFs.

Definition appendLog (projectId type message : string) : IO unit :=
  ensureLogDir ;;
  let logPath := getLogFilePath projectId type in
  let* timestamp := timestamp in
  let line := "[" ++ timestamp ++ "] " ++ message in
  let content := if endsWithNewline line then line else line ++ newline in
  tryCatch (appendFileSync logPath content) (fun error => throw error).

End Logging.

(** ** [src/services/logService.js] *)

Module LogService.
Import LogFs.

Definition appendLog (projectId logType message : string) : IO unit :=
  if negb (truthyS projectId) || negb (truthyS logType) || negb (truthyS message)
  then throw (Error "projectId, logType, and message are required")
  else
    ensureLogDir ;;
    let logPath := getLogFilePath projectId logType in
    let* timestamp := timestamp in
    let line := "[" ++ timestamp ++ "] " ++ message in
    let content := if endsWithNewline line then line else line ++ newline in
    tryCatch (appendFileSync logPath content) (fun error => throw error).

(** [maxBytes = 20000] when the argument is omitted. *)
Definition readLog (projectId logType : string) (maxBytes : option Z) : IO string :=
  let maxBytes := default 20000 maxBytes in
  if negb (truthyS projectId) || negb (truthyS logType)
  then throw (Error "projectId and logType are required")
  else
    ensureLogDir ;;
    let logPath := getLogFilePath projectId logType in
    tryCatch
      (let* size := statSize logPath in
       let start := Z.max 0 (size - maxBytes) in
       let* buffer := readBuffer logPath (size - start) start in
       ret (Utf8.toString buffer))
      (fun error =>
         if StateService.isENOENT error then ret "" else throw error).

End LogService.

(** ** The operating system: [process.kill] and [child_process.spawn] *)

Module Os.

(** Whether the process [p] with table entry [pr] is addressed by
    [process.kill(target, _)]: a positive target is a process id, a
    negative one the process group [-target]. *)
Definition addressed (target : Z) (p : Z) (pr : process) : bool :=
  if 0 <? target then p =? target
  else if target <? 0 then pgid pr =? - target
  else false.

Definition receivers (target : Z) (table : gmap Z process) : gmap Z process :=
  filter (fun kv => (addressed target kv.1 kv.2 && signalable kv.2) = true) table.

Definition survivors (target : Z) (table : gmap Z process) : gmap Z process :=
  filter (fun kv => (addressed target kv.1 kv.2 && signalable kv.2) = false) table.

(** The signal can be delivered when it reaches some process the caller
    may signal. *)
Definition deliverable (target : Z) (table : gmap Z process) : bool :=
  negb (bool_decide (receivers target table = ∅)).

Definition killError (target : Z) (table : gmap Z process) : exn :=
  if bool_decide (filter (fun kv => addressed target kv.1 kv.2 = true) table = ∅)
  then SystemError "ESRCH" "kill ESRCH"
  else SystemError "EPERM" "kill EPERM".

(** [process.kill(target, sig)]: throws when nothing can be signalled;
    SIGTERM terminates the processes it reaches, signal 0 only probes.
    The modelled code never passes a zero target: every caller tests the
    pid for truthiness first. *)
Definition kill (target : Z) (sig : signal) : IO unit :=
  fun w =>
    if deliverable target (procs w) then
      let table :=
        match sig with
        | Sig0 => procs w
        | SIGTERM => survivors target (procs w)
        end in
      (Ok tt, record (EvKill target sig true) (set_procs table w))
    else
      (Throw (killError target (procs w)), record (EvKill target sig false) w).

(** The process id the system hands out next (always positive). *)
Definition freshPid (table : gmap Z process) : Z :=
  1 + Z.max 0 (map_fold (fun p _ acc => Z.max p acc) 0 table).

(** [spawn(command, args, { cwd, shell: true, detached: true, ... }).pid]:
    the shell is started in [cwd] (the dashboard's own directory when no
    [cwd] is given) and leads a process group of its own.  When [cwd]
    does not exist no process is made, the failure is reported later by
    an event and [pid] is [undefined]; when [cwd] is not a directory the
    call itself throws. *)
Definition spawn (command : string) (args : list string) (cwd : option string)
    : IO (field Z) :=
  fun w =>
    match from_option (dirs w) IsDirectory cwd with
    | IsDirectory =>
        let child := freshPid (procs w) in
        (Ok (Val child),
         record (EvSpawn command args child)
           (set_procs (<[child := mkProcess child true]> (procs w)) w))
    | NoSuchDirectory => (Ok Undefined, w)
    | NotADirectory => (Throw (SystemError "ENOTDIR" "spawn ENOTDIR"), w)
    end.

Definition dateNow : IO Z := gets now.

(** The number held by a truthy number-typed property. *)
Definition numberOf (x : field Z) : Z :=
  match x with
  | Val n => n
  | _ => 0
  end.

(** [isProcessAlive], the same function in both lifecycle modules. *)
Definition isProcessAlive (pid : field Z) : IO bool :=
  if negb (truthyZ pid) then ret false
  else tryCatch (kill (numberOf pid) Sig0 ;; ret true) (fun _ => ret false).

(** [`${x}`] for a number-typed property. *)
Definition showField (x : field Z) : string :=
  match x with
  | Undefined => "undefined"
  | Null => "null"
  | Val n => showZ n
  end.

End Os.

(** ** [src/services/projectLifecycle.js] *)

(** A project definition as the lifecycle managers receive it: the config
    entry, plus [tunnelPort] which the tunnel route adds.  A missing
    property is falsy like the empty string it is modelled by. *)
Record Project : Type := mkProject {
  id : string;
  name : string;
  dir : string;
  start : string;
  port : Z;
  tunnelPort : field Z;
}.

Module ProjectLifecycle.
Import StateService Logging Os.

Definition startProject (project : Project) : IO (field Z) :=
  if negb (truthyS (id project)) || negb (truthyS (start project))
     || negb (truthyS (dir project))
  then throw (Error "Invalid project object: missing id, start command, or dir")
  else
    let* projectState := getProjectState (id project) in
    let* alive := isProcessAlive (pid projectState) in
    if alive then
      appendLog (id project) "app"
        ("Project already running with PID " ++ showField (pid projectState)) ;;
      ret (pid projectState)
    else
      appendLog (id project) "app" ("START: " ++ start project) ;;
      let* child := spawn (start project) [] (Some (dir project)) in
      let* startedAt := dateNow in
      let* old := getProjectState (id project) in
      setProjectState (id project)
        (mkState child (Val startedAt) (tunnelPid old)
           (tunnelStartedAt old) (tunnelUrl old) (tunnelUrlDiscoveredAt old)) ;;
      appendLog (id project) "app"
        ("Process started with PID " ++ showField child) ;;
      ret child.

(** The two nested [try] blocks of [stopProject] and [stopTunnel]: the
    process group first, the single process as the fallback.  Returns
    the value [killed] has after them: [killed = true] is assigned right
    after a [process.kill] that returned, before the log line of the same
    [try] block, so a failure of that log line leaves it set. *)
Definition killGroupThenProcess (projectId logType : string)
    (groupMsg processMsg failMsg : string) (pid : Z) : IO bool :=
  let failed (killed : bool) (err : exn) : IO bool :=
    appendLog projectId logType (failMsg ++ message err) ;;
    ret killed in
  let fallback (killed : bool) : IO bool :=
    let* signalled := attempt (kill pid SIGTERM) in
    match signalled with
    | Ok _ =>
        let* logged := attempt (appendLog projectId logType processMsg) in
        match logged with
        | Ok _ => ret true
        | Throw err => failed true err
        end
    | Throw err => failed killed err
    end in
  let* signalled := attempt (kill (- pid) SIGTERM) in
  match signalled with
  | Ok _ =>
      let* logged := attempt (appendLog projectId logType groupMsg) in
      match logged with
      | Ok _ => ret true
      | Throw _ => fallback true
      end
  | Throw _ => fallback false
  end.

Definition stopProject (project : Project) : IO bool :=
  if negb (truthyS (id project))
  then throw (Error "Invalid project object: missing id")
  else
    let* projectState := getProjectState (id project) in
    let pid := pid projectState in
    if negb (truthyZ pid) then
      appendLog (id project) "app" "No running process to stop" ;;
      ret false
    else
      appendLog (id project) "app"
        ("STOP: Killing process group for PID " ++ showField pid) ;;
      let* killed :=
        killGroupThenProcess (id project) "app"
          "Process group killed (SIGTERM)" "Process killed (SIGTERM)"
          "Failed to kill process: " (numberOf pid) in
      let* old := getProjectState (id project) in
      setProjectState (id project)
        (mkState Null Null (tunnelPid old) (tunnelStartedAt old)
           (tunnelUrl old) (tunnelUrlDiscoveredAt old)) ;;
      ret killed.

Definition isProjectRunning (projectId : string) : IO bool :=
  if negb (truthyS projectId) then throw (Error "Project ID is required")
  else
    let* projectState := getProjectState projectId in
    isProcessAlive (pid projectState).

(** Returns the pid, or [null] (here [None]). *)
Definition getProjectPid (projectId : string) : IO (option Z) :=
  if negb (truthyS projectId) then throw (Error "Project ID is required")
  else
    let* projectState := getProjectState projectId in
    let pid := pid projectState in
    let* alive := isProcessAlive pid in
    if alive then
      ret (match pid with Val n => Some n | _ => None end)
    else ret None.

End ProjectLifecycle.

(** ** [src/services/tunnelLifecycle.js] *)

Module TunnelLifecycle.
Import StateService Logging Os ProjectLifecycle.

(** The character class [[a-zA-Z0-9-]]. *)
Definition isNameChar (c : ascii) : bool :=
  let n := Z.of_nat (nat_of_ascii c) in
  ((97 <=? n) && (n <=? 122)) || ((65 <=? n) && (n <=? 90))
  || ((48 <=? n) && (n <=? 57)) || (n =? 45).

(** The longest run of name characters at the head of [s], and the rest. *)
Fixpoint spanName (s : string) : string * string :=
  match s with
  | String c rest =>
      if isNameChar c then
        let '(run, tail) := spanName rest in (String c run, tail)
      else ("", s)
  | EmptyString => ("", "")
  end.

(** [s] without its prefix [p], when it has that prefix. *)
Fixpoint stripPrefix (p s : string) : option string :=
  match p, s with
  | EmptyString, _ => Some s
  | String a p', String b s' =>
      if Ascii.eqb a b then stripPrefix p' s' else None
  | String _ _, EmptyString => None
  end.

(** A match of the pattern
    [https:\/\/([a-zA-Z0-9-]+\.trycloudflare\.com)] anchored at the
    head of [s].  The greedy [+] takes the longest run: a shorter run
    would be followed by a name character, not by the dot. *)
Definition matchHere (s : string) : option string :=
  match stripPrefix "https://" s with
  | Some afterScheme =>
      let '(run, tail) := spanName afterScheme in
      if truthyS run && bool_decide (is_Some (stripPrefix ".trycloudflare.com" tail))
      then Some ("https://" ++ run ++ ".trycloudflare.com")
      else None
  | None => None
  end.

(** [output.match(re)[0]]: the leftmost match. *)
Fixpoint matchTunnelUrl (output : string) : option string :=
  match matchHere output with
  | Some url => Some url
  | None =>
      match output with
      | String _ rest => matchTunnelUrl rest
      | EmptyString => None
      end
  end.

(** The ["data"] listener attached to [child.stdout]; [urlCaptured] is
    the closure variable, passed in and returned. *)
Definition onStdoutData (project : Project) (urlCaptured : bool)
    (output : string) : IO bool :=
  appendLog (id project) "tunnel" output ;;
  if negb urlCaptured then
    match matchTunnelUrl output with
    | Some tunnelUrl =>
        appendLog (id project) "tunnel" ("URL discovered: " ++ tunnelUrl) ;;
        let* old := getProjectState (id project) in
        let* discoveredAt := dateNow in
        setProjectState (id project)
          (mkState (pid old) (startedAt old) (tunnelPid old)
             (tunnelStartedAt old) (Val tunnelUrl) (Val discoveredAt)) ;;
        ret true
    | None => ret urlCaptured
    end
  else ret urlCaptured.

(** The listener run on the chunks of one output stream, in order. *)
Fixpoint onStdoutStream (project : Project) (urlCaptured : bool)
    (chunks : list string) : IO bool :=
  match chunks with
  | [] => ret urlCaptured
  | output :: rest =>
      let* captured := onStdoutData project urlCaptured output in
      onStdoutStream project captured rest
  end.

Definition startTunnel (project : Project) : IO (field Z) :=
  if negb (truthyS (id project)) || negb (truthyZ (tunnelPort project))
  then throw (Error "Invalid project object: missing id or tunnelPort")
  else
    let* projectState := getProjectState (id project) in
    let* alive := isProcessAlive (tunnelPid projectState) in
    if alive then
      appendLog (id project) "tunnel"
        ("Tunnel already running with PID " ++ showField (tunnelPid projectState)) ;;
      ret (tunnelPid projectState)
    else
      appendLog (id project) "tunnel"
        ("START: cloudflared tunnel on port " ++ showField (tunnelPort project)) ;;
      let* child :=
        spawn "cloudflared"
          ["tunnel"; "--url"; "localhost:" ++ showField (tunnelPort project)] None in
      let* old := getProjectState (id project) in
      let* startedAt := dateNow in
      setProjectState (id project)
        (mkState (pid old) (Env.startedAt old) child (Val startedAt)
           (tunnelUrl old) (tunnelUrlDiscoveredAt old)) ;;
      appendLog (id project) "tunnel"
        ("Tunnel process started with PID " ++ showField child) ;;
      ret child.

Definition stopTunnel (project : Project) : IO bool :=
  if negb (truthyS (id project))
  then throw (Error "Invalid project object: missing id")
  else
    let* projectState := getProjectState (id project) in
    let pid := tunnelPid projectState in
    if negb (truthyZ pid) then
      appendLog (id project) "tunnel" "No running tunnel process to stop" ;;
      ret false
    else
      appendLog (id project) "tunnel"
        ("STOP: Killing tunnel process group for PID " ++ showField pid) ;;
      let* killed :=
        killGroupThenProcess (id project) "tunnel"
          "Tunnel process group killed (SIGTERM)"
          "Tunnel process killed (SIGTERM)"
          "Failed to kill tunnel process: " (numberOf pid) in
      let* old := getProjectState (id project) in
      setProjectState (id project)
        (mkState (Env.pid old) (startedAt old) Null Null Null Null) ;;
      ret killed.

Definition isTunnelRunning (projectId : string) : IO bool :=
  if negb (truthyS projectId) then throw (Error "Project ID is required")
  else
    let* projectState := getProjectState projectId in
    isProcessAlive (tunnelPid projectState).

(** Returns the URL, or [null] (here [None]). *)
Definition getTunnelUrl (projectId : string) : IO (option string) :=
  if negb (truthyS projectId) then throw (Error "Project ID is required")
  else
    let* projectState := getProjectState projectId in
    let* running := isTunnelRunning projectId in
    if running then ret (orNullS (tunnelUrl projectState))
    else ret None.

End TunnelLifecycle.

(** ** [src/routes/projects.js] *)

Module Routes.
Import StateService.

Record ProjectStatus : Type := mkStatus {
  st_id : string;
  st_name : string;
  st_dir : string;
  st_start : string;
  st_port : Z;
  st_tunnelPort : Z;
  st_running : bool;
  st_pid : option Z;
  st_startedAt : option Z;
  st_tunnelRunning : bool;
  st_tunnelPid : option Z;
  st_tunnelUrl : option string;
  st_tunnelStartedAt : option Z;
}.

Definition buildProjectStatus (project : Project) : IO ProjectStatus :=
  let projectId := id project in
  let* projectState := getProjectState projectId in
  let* running := ProjectLifecycle.isProjectRunning projectId in
  let* tunnelRunning := TunnelLifecycle.isTunnelRunning projectId in
  let* tunnelUrl := TunnelLifecycle.getTunnelUrl projectId in
  ret (mkStatus (id project) (name project) (dir project) (start project)
         (port project) (port project)
         running
         (orNullZ (pid projectState))
         (orNullZ (startedAt projectState))
         tunnelRunning
         (orNullZ (tunnelPid projectState))
         tunnelUrl
         (orNullZ (tunnelStartedAt projectState))).

End Routes.


(** ** [src/config/validator.js] *)

Module Validator.

(** A JavaScript number as far as the validator looks at it: an
    integral value, or any other number (a fraction, [NaN], an
    infinity), which carries the text a template literal renders it
    as. *)
Inductive number : Type :=
| Integral (z : Z)
| NonIntegral (shown : string).

(** The values [JSON.parse] produces, and [undefined]. *)
Inductive value : Type :=
| VUndefined
| VNull
| VBool (b : bool)
| VNumber (n : number)
| VString (s : string)
| VArray (items : list value)
| VObject (props : gmap string value).

Definition typeof (v : value) : string :=
  match v with
  | VUndefined => "undefined"
  | VNull => "object"
  | VBool _ => "boolean"
  | VNumber _ => "number"
  | VString _ => "string"
  | VArray _ => "object"
  | VObject _ => "object"
  end.

(** [v[key]] for a non-index [key]; an array has none of the validated
    keys. *)
Definition get (v : value) (key : string) : value :=
  match v with
  | VObject props => default VUndefined (props !! key)
  | _ => VUndefined
  end.

Definition isUndefined (v : value) : bool :=
  match v with
  | VUndefined => true
  | _ => false
  end.

(** [!v] *)
Definition falsy (v : value) : bool :=
  match v with
  | VUndefined | VNull => true
  | VBool b => negb b
  | VNumber (Integral z) => z =? 0
  | VNumber (NonIntegral shown) => String.eqb shown "NaN"
  | VString s => negb (truthyS s)
  | VArray _ | VObject _ => false
  end.

(** [`${n}`]; an integral value is shown in decimal digits, which is what
    JavaScript prints below 1e21. *)
Definition showNumber (n : number) : string :=
  match n with
  | Integral z => showZ z
  | NonIntegral shown => shown
  end.

(** [!Number.isInteger(n) || n < 0 || n > 65535] *)
Definition badPort (n : number) : bool :=
  match n with
  | Integral z => (z <? 0) || (65535 <? z)
  | NonIntegral _ => true
  end.

(** One white-space or line-terminator character of ECMAScript at the
    head of a UTF-8 string, removed. *)
Definition dropWhite (s : string) : option string :=
  match s with
  | String c rest =>
      let n := nat_of_ascii c in
      if ((9 <=? n) && (n <=? 13) || (n =? 32))%nat then Some rest
      else
        match rest with
        | String c2 rest2 =>
            let n2 := nat_of_ascii c2 in
            if ((n =? 194) && (n2 =? 160))%nat then Some rest2        (* U+00A0 *)
            else
              match rest2 with
              | String c3 rest3 =>
                  let n3 := nat_of_ascii c3 in
                  if ((n =? 239) && (n2 =? 187) && (n3 =? 191)        (* U+FEFF *)
                      || (n =? 225) && (n2 =? 154) && (n3 =? 128)     (* U+1680 *)
                      || (n =? 226) && (n2 =? 128)
                         && ((128 <=? n3) && (n3 <=? 138)             (* U+2000..200A *)
                             || (n3 =? 168) || (n3 =? 169)            (* U+2028, U+2029 *)
                             || (n3 =? 175))                          (* U+202F *)
                      || (n =? 226) && (n2 =? 129) && (n3 =? 159)     (* U+205F *)
                      || (n =? 227) && (n2 =? 128) && (n3 =? 128))%nat (* U+3000 *)
                  then Some rest3
                  else None
              | EmptyString => None
              end
        | EmptyString => None
        end
  | EmptyString => None
  end.

(** [s.trim() === ""]: every character of [s] is white space. *)
Fixpoint blank_fuel (fuel : nat) (s : string) : bool :=
  match s with
  | EmptyString => true
  | String _ _ =>
      match fuel, dropWhite s with
      | S fuel', Some rest => blank_fuel fuel' rest
      | _, _ => false
      end
  end.

Definition blank (s : string) : bool := blank_fuel (String.length s) s.

(** [typeof v !== "string" || v.trim() === ""] *)
Definition notNonEmptyString (v : value) : bool :=
  match v with
  | VString s => blank s
  | _ => true
  end.

Definition dq : string := String (ascii_of_nat 34) EmptyString.

(** The field name between double quotes, as the messages show it. *)
Definition quoted (field : string) : string := dq ++ field ++ dq.

Definition atIndex (index : nat) : string :=
  "Invalid configuration: project at index " ++ showNat (Z.of_nat index).

Definition requiredFields : list string := ["id"; "name"; "dir"; "start"; "port"].

(** The [for (const field of requiredFields)] loop. *)
Fixpoint checkRequired (project : value) (index : nat) (fields : list string)
    : outcome unit :=
  match fields with
  | [] => Ok tt
  | field :: rest =>
      if isUndefined (get project field) then
        Throw (Error (atIndex index ++ " missing required field: " ++ quoted field))
      else checkRequired project index rest
  end.

Definition checkString (project : value) (index : nat) (field : string)
    (next : outcome unit) : outcome unit :=
  if notNonEmptyString (get project field) then
    Throw (Error (atIndex index ++ " " ++ quoted field ++ " must be a non-empty string"))
  else next.

Definition validateProject (project : value) (index : nat) : outcome unit :=
  if falsy project || negb (String.eqb (typeof project) "object") then
    Throw (Error (atIndex index ++ " must be a valid object"))
  else
    match checkRequired project index requiredFields with
    | Throw e => Throw e
    | Ok _ =>
        checkString project index "id" (
        checkString project index "name" (
        checkString project index "dir" (
        checkString project index "start" (
        match get project "port" with
        | VNumber n =>
            if badPort n then
              Throw (Error (atIndex index ++ " " ++ quoted "port"
                            ++ " must be a valid port number (0-65535), got "
                            ++ showNumber n))
            else Ok tt
        | other =>
            Throw (Error (atIndex index ++ " " ++ quoted "port"
                          ++ " must be a number, got " ++ typeof other))
        end))))
    end.

(** [config.projects.forEach((project, index) => validateProject(project, index))] *)
Fixpoint forEachProject (projects : list value) (index : nat) : outcome unit :=
  match projects with
  | [] => Ok tt
  | project :: rest =>
      match validateProject project index with
      | Throw e => Throw e
      | Ok _ => forEachProject rest (S index)
      end
  end.

Definition validateConfig (config : value) : outcome unit :=
  match config with
  | VObject _ =>
      match get config "port" with
      | VUndefined =>
          Throw (Error ("Configuration missing required field: " ++ quoted "port"))
      | VNumber n =>
          if badPort n then
            Throw (Error ("Invalid configuration: " ++ quoted "port"
                          ++ " must be a valid port number (0-65535), got "
                          ++ showNumber n))
          else
            match get config "projects" with
            | VArray projects => forEachProject projects 0
            | other =>
                Throw (Error ("Invalid configuration: " ++ quoted "projects"
                              ++ " must be an array, got " ++ typeof other))
            end
      | other =>
          Throw (Error ("Invalid configuration: " ++ quoted "port"
                        ++ " must be a number, got " ++ typeof other))
      end
  | _ => Throw (Error "Configuration must be a valid JSON object")
  end.

End Validator.

(** ** What the persisted state holds, and when a pid is alive

    These are the notions the properties below are stated with; they are
    read off the world, not computed by the modelled code. *)

Module Observe.

(** The state file can be loaded: it is absent, or holds a document. *)
Definition readable (w : world) : Prop :=
  match state_file w with
  | NotJson _ => False
  | _ => True
  end.

(** The document [loadState] yields. *)
Definition currentDoc (w : world) : StateDocument :=
  match state_file w with
  | Json doc => doc
  | _ => mkDoc (Some ∅)
  end.

(** The record persisted for [projectId], if any. *)
Definition persisted (w : world) (projectId : string) : option ProjectRuntimeState :=
  StateService.projectsOf (currentDoc w) !! projectId.

(** The runtime state of [projectId]: its record, or the empty one. *)
Definition stored (w : world) (projectId : string) : ProjectRuntimeState :=
  default emptyState (persisted w projectId).

(** The pid is recorded (truthy) and a signal can be delivered to it. *)
Definition alive (w : world) (pid : field Z) : bool :=
  truthyZ pid && Os.deliverable (Os.numberOf pid) (procs w).

(** The world after the liveness probe of [pid]. *)
Definition probed (pid : field Z) (w : world) : world :=
  if truthyZ pid
  then record (EvKill (Os.numberOf pid) Sig0
                 (Os.deliverable (Os.numberOf pid) (procs w))) w
  else w.

(** The bytes of the file [name] of the log directory, when the
    directory and the file exist. *)
Definition fileAt (w : world) (name : string) : option (list byte) :=
  logs w ≫= (fun files => files !! name).


(** The line [appendLog] writes for [message] at the world's time. *)
Definition logLine (w : world) (message : string) : string :=
  let line := "[" ++ IsoDate.toISOString (now w) ++ "] " ++ message in
  if endsWithNewline line then line else line ++ newline.

(** The world after [content] was appended to the log file [name]. *)
Definition appended (name content : string) (w : world) : world :=
  let files := default ∅ (logs w) in
  set_logs
    (Some (<[name := (default [] (files !! name) ++ list_byte_of_string content)%list]>
             files)) w.

(** The world after [setProjectState projectId s] stored the record. *)
Definition written (projectId : string) (s : ProjectRuntimeState) (w : world) : world :=
  let doc := mkDoc (Some (<[projectId := s]> (StateService.projectsOf (currentDoc w)))) in
  record (EvWriteState doc) (set_state_file (Json doc) w).

(** A record can be stored under [projectId]: under every name but
    [__proto__], and under that one when the state file has it as a
    key. *)
Definition assignable (w : world) (projectId : string) : Prop :=
  projectId <> "__proto__" \/ is_Some (persisted w projectId).

(** The world after [setProjectState projectId s], whatever the name. *)
Definition saved (projectId : string) (s : ProjectRuntimeState) (w : world) : world :=
  let doc :=
    mkDoc (Some (StateService.assign projectId s (StateService.projectsOf (currentDoc w)))) in
  record (EvWriteState doc) (set_state_file (Json doc) w).


(** The log lines of [projectId] of type [type] go to the file [name] of
    the log directory. *)
Definition logsTo (projectId type name : string) : Prop :=
  LogFs.getLogFilePath projectId type = LogFs.FileName name.

(** The log path of [projectId] and [type] does not leave the log
    directory: no [..] takes it above. *)
Definition insideLogDir (projectId type : string) : Prop :=
  LogFs.below [] (LogFs.segments (projectId ++ "." ++ type ++ ".log")) <> None.



(** The log directory after [ensureLogDir]. *)
Definition ensured (w : world) : world :=
  match logs w with
  | Some _ => w
  | None => set_logs (Some ∅) w
  end.

Definition isKill (e : event) : bool :=
  match e with EvKill _ _ _ => true | _ => false end.

Definition isSpawn (e : event) : bool :=
  match e with EvSpawn _ _ _ => true | _ => false end.

Definition isWrite (e : event) : bool :=
  match e with EvWriteState _ => true | _ => false end.

Definition delivered (e : event) : bool :=
  match e with EvKill _ _ ok => ok | _ => false end.

(** The number of newline characters [s] ends with. *)
Fixpoint trailingNewlines (s : string) : nat :=
  match s with
  | EmptyString => O
  | String c rest =>
      let k := trailingNewlines rest in
      if Ascii.eqb c "010"%char && Nat.eqb k (String.length rest) then S k else k
  end.

(** [w'] holds the same state file as [w], and no write of the state file
    was recorded between them. *)
Definition sameStore (w w' : world) : Prop :=
  state_file w' = state_file w
  /\ List.filter isWrite (trace w') = List.filter isWrite (trace w).

(** A computation is read-only when it never writes the state file,
    whether it returns or throws. *)
Definition readOnly {A} (c : IO A) : Prop :=
  forall w, sameStore w (c w).2.

End Observe.
Import Observe.

Create HintDb readonly.



(** [url] has the form the pattern describes. *)
Definition tunnelUrlForm (url : string) : Prop :=
  exists name,
    url = "https://" ++ name ++ ".trycloudflare.com"
    /\ name <> ""
    /\ Forall (fun c => TunnelLifecycle.isNameChar c = true) (list_ascii_of_string name).


(** [url] occurs in [output] after [pre]. *)
Definition occursAfter (pre url output : string) : Prop :=
  tunnelUrlForm url /\ exists post, output = pre ++ url ++ post.


(** [url] is the leftmost text of the form in [output]. *)
Definition firstUrl (output url : string) : Prop :=
  exists pre,
    occursAfter pre url output
    /\ forall pre' url', occursAfter pre' url' output ->
                         (String.length pre <= String.length pre')%nat.

(** ** The configuration schema, and the errors of the validator *)

Module ConfigSchema.
Import Validator.

(** The schema in the specification's words: a port is an integer in
    0..65535; [id], [name], [dir] and [start] are strings that are not
    empty once trimmed. *)
Definition validPort (v : value) : Prop :=
  exists z, v = VNumber (Integral z) /\ 0 <= z <= 65535.

Definition nonEmptyString (v : value) : Prop :=
  exists s, v = VString s /\ blank s = false.

Definition validEntry (e : value) : Prop :=
  (exists props, e = VObject props)
  /\ nonEmptyString (get e "id") /\ nonEmptyString (get e "name")
  /\ nonEmptyString (get e "dir") /\ nonEmptyString (get e "start")
  /\ validPort (get e "port").

Definition wellFormed (c : value) : Prop :=
  (exists props, c = VObject props)
  /\ validPort (get c "port")
  /\ exists items, get c "projects" = VArray items /\ Forall validEntry items.

(** The ways a document can be malformed. *)
Inductive kind : Type :=
| ConfigNotObject
| PortMissing
| PortNotNumber
| PortOutOfRange
| ProjectsNotArray
| EntryNotObject
| FieldMissing (field : string)
| FieldNotString (field : string)
| EntryPortNotNumber
| EntryPortOutOfRange.

Definition stringFields : list string := ["id"; "name"; "dir"; "start"].

(** What is wrong with the entry [e], for the kinds that concern one. *)
Definition entryMalformed (e : value) (k : kind) : Prop :=
  match k with
  | EntryNotObject =>
      (forall props, e <> VObject props) /\ (forall items, e <> VArray items)
  | FieldMissing f => In f requiredFields /\ get e f = VUndefined
  | FieldNotString f => In f stringFields /\ ~ nonEmptyString (get e f)
  | EntryPortNotNumber => forall n, get e "port" <> VNumber n
  | EntryPortOutOfRange =>
      (exists n, get e "port" = VNumber n) /\ ~ validPort (get e "port")
  | _ => False
  end.

(** What is wrong with the document [c]; [index] is the position of the
    entry for the kinds that concern one. *)
Definition malformed (c : value) (k : kind) (index : nat) : Prop :=
  match k with
  | ConfigNotObject => forall props, c <> VObject props
  | PortMissing => get c "port" = VUndefined
  | PortNotNumber =>
      get c "port" <> VUndefined /\ forall n, get c "port" <> VNumber n
  | PortOutOfRange =>
      (exists n, get c "port" = VNumber n) /\ ~ validPort (get c "port")
  | ProjectsNotArray => forall items, get c "projects" <> VArray items
  | _ =>
      exists items e,
        get c "projects" = VArray items /\ items !! index = Some e
        /\ entryMalformed e k
  end.

(** The message of each kind of error: the field is named between
    double quotes, the entry by its index; [detail] is what follows
    [got]. *)
Definition template (k : kind) (index : nat) (detail : string) : string :=
  let entry := "Invalid configuration: project at index " ++ showNat (Z.of_nat index) in
  match k with
  | ConfigNotObject => "Configuration must be a valid JSON object"
  | PortMissing => "Configuration missing required field: " ++ quoted "port"
  | PortNotNumber =>
      "Invalid configuration: " ++ quoted "port" ++ " must be a number, got " ++ detail
  | PortOutOfRange =>
      "Invalid configuration: " ++ quoted "port"
        ++ " must be a valid port number (0-65535), got " ++ detail
  | ProjectsNotArray =>
      "Invalid configuration: " ++ quoted "projects" ++ " must be an array, got " ++ detail
  | EntryNotObject => entry ++ " must be a valid object"
  | FieldMissing f => entry ++ " missing required field: " ++ quoted f
  | FieldNotString f => entry ++ " " ++ quoted f ++ " must be a non-empty string"
  | EntryPortNotNumber =>
      entry ++ " " ++ quoted "port" ++ " must be a number, got " ++ detail
  | EntryPortOutOfRange =>
      entry ++ " " ++ quoted "port"
        ++ " must be a valid port number (0-65535), got " ++ detail
  end.

(** The field a kind of error is about. *)
Definition fieldOf (k : kind) : option string :=
  match k with
  | ConfigNotObject | EntryNotObject => None
  | PortMissing | PortNotNumber | PortOutOfRange => Some "port"
  | ProjectsNotArray => Some "projects"
  | FieldMissing f | FieldNotString f => Some f
  | EntryPortNotNumber | EntryPortOutOfRange => Some "port"
  end.

Definition aboutEntry (k : kind) : bool :=
  match k with
  | EntryNotObject | FieldMissing _ | FieldNotString _
  | EntryPortNotNumber | EntryPortOutOfRange => true
  | _ => false
  end.

(** [part] occurs in [s]. *)
Definition occursIn (part s : string) : Prop :=
  exists pre post, s = pre ++ part ++ post.

(** The kinds the claim is about carry a known field name. *)
Definition knownField (k : kind) : Prop :=
  match k with
  | FieldMissing f => In f requiredFields
  | FieldNotString f => In f stringFields
  | _ => True
  end.

End ConfigSchema.
Import Validator ConfigSchema.

(** Decimal digits, to tell the index of an entry apart from the text
    after it. *)

Definition isDigit (c : ascii) : bool :=
  (48 <=? nat_of_ascii c)%nat && (nat_of_ascii c <=? 57)%nat.

Fixpoint allDigits (s : string) : bool :=
  match s with
  | EmptyString => true
  | String c rest => isDigit c && allDigits rest
  end.

Definition headNotDigit (s : string) : Prop :=
  match s with
  | EmptyString => True
  | String c _ => isDigit c = false
  end.

(** The message of an entry kind: a fixed prefix, the index, and a rest
    that starts with a blank. *)
Definition entryRest (k : kind) (detail : string) : string :=
  match k with
  | EntryNotObject => " must be a valid object"
  | FieldMissing f => " missing required field: " ++ quoted f
  | FieldNotString f => " " ++ quoted f ++ " must be a non-empty string"
  | EntryPortNotNumber => " " ++ quoted "port" ++ " must be a number, got " ++ detail
  | EntryPortOutOfRange =>
      " " ++ quoted "port" ++ " must be a valid port number (0-65535), got " ++ detail
  | _ => ""
  end.

(** ** Notions for the further properties *)




(** The events recorded between [w] and [w'] are exactly [events]. *)
Definition recorded (w w' : world) (events : list event) : Prop :=
  trace w' = (trace w ++ events)%list.

(** Between [w] and [w'] no record but the one of [projectId] changed. *)
Definition touchesOnly (projectId : string) (w w' : world) : Prop :=
  forall other, other <> projectId -> persisted w' other = persisted w other.

(** A computation that, from any world and whether it returns or throws,
    changes no record but the one of [projectId]. *)
Definition framed {A} (projectId : string) (c : IO A) : Prop :=
  forall w, touchesOnly projectId w (c w).2.

(** The error [loadState] raises for a state file that is not JSON. *)
Definition corruptStateError (e : exn) : Prop :=
  exists m, e = Error ("Invalid JSON in state file: " ++ m).

(** ** [src/services/logService.js], continued: [clearLogs] *)

Module LogClear.
Import LogFs.






End LogClear.

(** ** [src/utils/logging.js], continued: [readLog] *)

Module LoggingRead.
Import LogFs.

(** Every failure, not only a missing file, yields the empty string. *)
Definition readLog (projectId type : string) (maxBytes : option Z) : IO string :=
  let maxBytes := default 20000 maxBytes in
  ensureLogDir ;;
  let logPath := getLogFilePath projectId type in
  tryCatch
    (let* size := statSize logPath in
     let start := Z.max 0 (size - maxBytes) in
     let* buffer := readBuffer logPath (size - start) start in
     ret (Utf8.toString buffer))
    (fun _ => ret "").

End LoggingRead.

(** ** [src/services/configService.js] *)

Module ConfigService.
Import Validator.

(** What is at CONFIG_PATH. *)
Inductive configFile : Type :=
| NoFile
| NotJsonFile (text : string)
| JsonFile (document : value).

(** The module's state: the file it reads, and [cachedConfig] ([null]
    until a document has been parsed). *)
Record service : Type := mkService {
  config_path : string;
  config_file : configFile;
  cachedConfig : value;
}.

Definition set_cachedConfig (v : value) (s : service) : service :=
  mkService (config_path s) (config_file s) v.

Definition set_config_file (f : configFile) (s : service) : service :=
  mkService (config_path s) f (cachedConfig s).

(** State passing with exceptions, over [service]. *)
Definition CS (A : Type) : Type := service -> outcome A * service.

Definition cret {A} (a : A) : CS A := fun s => (Ok a, s).

Definition cthrow {A} (e : exn) : CS A := fun s => (Throw e, s).

Definition cbind {A B} (c : CS A) (k : A -> CS B) : CS B :=
  fun s =>
    match c s with
    | (Ok a, s') => k a s'
    | (Throw e, s') => (Throw e, s')
    end.

Definition ctryCatch {A} (c : CS A) (handler : exn -> CS A) : CS A :=
  fun s =>
    match c s with
    | (Ok a, s') => (Ok a, s')
    | (Throw e, s') => handler e s'
    end.

(** [JSON.parse(fs.readFileSync(CONFIG_PATH, "utf8"))] *)
Definition readAndParse : CS value :=
  fun s =>
    match config_file s with
    | NoFile => (Throw (SystemError "ENOENT" "ENOENT: no such file or directory"), s)
    | NotJsonFile _ => (Throw (SyntaxError "Unexpected token"), s)
    | JsonFile document => (Ok document, s)
    end.

(** [validateConfig(cachedConfig)], as a step of the monad. *)
Definition validate (config : value) : CS unit :=
  fun s =>
    match validateConfig config with
    | Ok _ => (Ok tt, s)
    | Throw e => (Throw e, s)
    end.

(** The parsed document is stored in [cachedConfig] before it is
    validated. *)
Definition loadConfig : CS value :=
  ctryCatch
    (cbind readAndParse (fun document =>
     cbind (fun s => (Ok tt, set_cachedConfig document s)) (fun _ =>
     cbind (validate document) (fun _ =>
     fun s => (Ok (cachedConfig s), s)))))
    (fun error =>
       if StateService.isENOENT error then
         fun s => (Throw (Error ("Configuration file not found at " ++ config_path s)), s)
       else
         match error with
         | SyntaxError m => cthrow (Error ("Invalid JSON in configuration file: " ++ m))
         | _ => cthrow error
         end).

Definition reloadConfig : CS value :=
  cbind (fun s => (Ok tt, set_cachedConfig VNull s)) (fun _ => loadConfig).

(** [if (!cachedConfig) loadConfig()] *)
Definition ensureLoaded : CS unit :=
  fun s =>
    if falsy (cachedConfig s) then cbind loadConfig (fun _ => cret tt) s
    else (Ok tt, s).

(** [projects.find((p) => p.id === id)]: reading [id] off [null] throws
    a [TypeError], of which only the message is modelled. *)
Fixpoint find (id : string) (projects : list value) : outcome (option value) :=
  match projects with
  | [] => Ok None
  | p :: rest =>
      match p with
      | VNull | VUndefined =>
          Throw (Error "Cannot read properties of null (reading 'id')")
      | _ =>
          match get p "id" with
          | VString s => if String.eqb s id then Ok (Some p) else find id rest
          | _ => find id rest
          end
      end
  end.

(** Returns the project, or [null] (here [None]). *)
Definition getProject (id : string) : CS (option value) :=
  cbind ensureLoaded (fun _ =>
    fun s =>
      match get (cachedConfig s) "projects" with
      | VArray projects =>
          match find id projects with
          | Ok found => (Ok found, s)
          | Throw e => (Throw e, s)
          end
      | _ => (Ok None, s)
      end).

Definition getAllProjects : CS (list value) :=
  cbind ensureLoaded (fun _ =>
    fun s =>
      match get (cachedConfig s) "projects" with
      | VArray projects => (Ok projects, s)
      | _ => (Ok [], s)
      end).

Definition getConfig : CS value := fun s => (Ok (cachedConfig s), s).

End ConfigService.

(** [result] is the first of [projects] whose [id] is the string [id], or
    [None] when there is none. *)
Definition firstMatch (id : string) (projects : list Validator.value)
    (result : option Validator.value) : Prop :=
  (result = None
   /\ Forall (fun p => Validator.get p "id" <> Validator.VString id) projects)
  \/ (exists before p after,
        result = Some p
        /\ projects = (before ++ p :: after)%list
        /\ Validator.get p "id" = Validator.VString id
        /\ Forall (fun q => Validator.get q "id" <> Validator.VString id) before).

(** The entries of a document: its [projects] when that is an array. *)
Definition entriesOf (document : Validator.value) : list Validator.value :=
  match Validator.get document "projects" with
  | Validator.VArray projects => projects
  | _ => []
  end.

(** ** [parseInt(string, 10)] and [getPort] of [src/config/index.js] *)

Module Parse.

(** Leading white space removed. *)
Fixpoint trimStart_fuel (fuel : nat) (s : string) : string :=
  match fuel with
  | O => s
  | S fuel' =>
      match Validator.dropWhite s with
      | Some rest => trimStart_fuel fuel' rest
      | None => s
      end
  end.

Definition trimStart (s : string) : string := trimStart_fuel (String.length s) s.

Definition digitValue (c : ascii) : option Z :=
  let n := nat_of_ascii c in
  if ((48 <=? n) && (n <=? 57))%nat then Some (Z.of_nat n - 48) else None.

(** The value of the longest prefix of decimal digits of [s], continuing
    from [acc]; [None] when no digit has been read. *)
Fixpoint digitsPrefix (s : string) (acc : option Z) : option Z :=
  match s with
  | String c rest =>
      match digitValue c with
      | Some d => digitsPrefix rest (Some (10 * default 0 acc + d))
      | None => acc
      end
  | EmptyString => acc
  end.

(** Modelled from ECMAScript [parseInt] with radix 10: white space is
    skipped, one sign is read, then the longest run of digits; [None] is
    [NaN].  The value is exact, as it is in JavaScript below [2^53]. *)
Definition parseInt10 (s : string) : option Z :=
  match trimStart s with
  | String c rest =>
      if Ascii.eqb c "-" then option_map Z.opp (digitsPrefix rest None)
      else if Ascii.eqb c "+" then digitsPrefix rest None
      else digitsPrefix (String c rest) None
  | EmptyString => None
  end.

(** [getPort()], given [process.env.PORT]. *)
Definition getPort (envPort : option string) : Z :=
  match envPort with
  | Some port =>
      if truthyS port then
        match parseInt10 port with
        | Some parsed => if (parsed <? 0) || (65535 <? parsed) then 3000 else parsed
        | None => 3000
        end
      else 3000
  | None => 3000
  end.

End Parse.

(** ** [src/routes/projects.js]: the handlers *)

Module Handlers.
Import Validator.

(** The server: the configuration service's state and the world. *)
Record server : Type := mkServer {
  cfg : ConfigService.service;
  env : world;
}.

(** The JSON bodies the routes send. *)
Inductive body : Type :=
| ProjectsBody (projects : list Routes.ProjectStatus)
| ProjectBody (project : Routes.ProjectStatus)
| LogsBody (logs : string)
| ErrorBody (error : string) (message : option string).

Record response : Type := mkResponse {
  status : Z;
  payload : body;
}.

(** State passing with exceptions, over [server]. *)
Definition H (A : Type) : Type := server -> outcome A * server.

Definition hret {A} (a : A) : H A := fun s => (Ok a, s).

Definition hbind {A B} (c : H A) (k : A -> H B) : H B :=
  fun s =>
    match c s with
    | (Ok a, s') => k a s'
    | (Throw e, s') => (Throw e, s')
    end.

(** A call into the configuration service. *)
Definition inConfig {A} (c : ConfigService.CS A) : H A :=
  fun s =>
    match c (cfg s) with
    | (r, cfg') => (r, mkServer cfg' (env s))
    end.

(** A call into the services that act on the world. *)
Definition inWorld {A} (c : IO A) : H A :=
  fun s =>
    match c (env s) with
    | (r, env') => (r, mkServer (cfg s) env')
    end.

(** [try { ... } catch (err) { res.status(500).json({ error, message: err.message }) }] *)
Definition respond (c : H response) (error : string) : server -> response * server :=
  fun s =>
    match c s with
    | (Ok r, s') => (r, s')
    | (Throw e, s') => (mkResponse 500 (ErrorBody error (Some (message e))), s')
    end.

Definition stringOf (v : value) : string :=
  match v with
  | VString s => s
  | _ => ""
  end.

Definition integerOf (v : value) : field Z :=
  match v with
  | VNumber (Integral z) => Val z
  | VNull => Null
  | _ => Undefined
  end.

(** The config entry as the project object the services receive.  The
    reading is exact for an entry that satisfies the schema and whose
    [tunnelPort], if any, is an integer. *)
Definition toProject (entry : value) : Project :=
  mkProject (stringOf (get entry "id")) (stringOf (get entry "name"))
    (stringOf (get entry "dir")) (stringOf (get entry "start"))
    (Os.numberOf (integerOf (get entry "port")))
    (integerOf (get entry "tunnelPort")).

(** [{ ...project, tunnelPort: project.port || project.tunnelPort }] *)
Definition withTunnelPort (project : Project) : Project :=
  mkProject (id project) (name project) (dir project) (start project) (port project)
    (if port project =? 0 then tunnelPort project else Val (port project)).

Definition notFound : response :=
  mkResponse 404 (ErrorBody "Project not found" None).

(** [getAllProjects().map(buildProjectStatus)] *)
Fixpoint buildAll (entries : list value) : IO (list Routes.ProjectStatus) :=
  match entries with
  | [] => ret []
  | entry :: rest =>
      let* first := Routes.buildProjectStatus (toProject entry) in
      let* others := buildAll rest in
      ret (first :: others)
  end.

(** GET /api/projects *)
Definition listProjects : server -> response * server :=
  respond
    (hbind (inConfig ConfigService.getAllProjects) (fun entries =>
     hbind (inWorld (buildAll entries)) (fun projects =>
     hret (mkResponse 200 (ProjectsBody projects)))))
    "Failed to load projects".

(** The common shape of the routes on one project: look the project up,
    answer 404 when it is unknown, otherwise run [action] and answer 200
    with the project's status. *)
Definition onProject (id : string) (action : Project -> IO unit) (error : string)
    : server -> response * server :=
  respond
    (hbind (inConfig (ConfigService.getProject id)) (fun found =>
       match found with
       | None => hret notFound
       | Some entry =>
           hbind (inWorld (action (toProject entry))) (fun _ =>
           hbind (inWorld (Routes.buildProjectStatus (toProject entry))) (fun projectStatus =>
           hret (mkResponse 200 (ProjectBody projectStatus))))
       end))
    error.

(** GET /api/projects/:id *)
Definition getOne (id : string) : server -> response * server :=
  onProject id (fun _ => ret tt) "Failed to load project".

(** POST /api/projects/:id/start *)
Definition postStart (id : string) : server -> response * server :=
  onProject id (fun project => ProjectLifecycle.startProject project ;; ret tt)
    "Failed to start project".

(** POST /api/projects/:id/stop *)
Definition postStop (id : string) : server -> response * server :=
  onProject id (fun project => ProjectLifecycle.stopProject project ;; ret tt)
    "Failed to stop project".

(** POST /api/projects/:id/tunnel-start *)
Definition postTunnelStart (id : string) : server -> response * server :=
  onProject id
    (fun project => TunnelLifecycle.startTunnel (withTunnelPort project) ;; ret tt)
    "Failed to start tunnel".

(** POST /api/projects/:id/tunnel-stop *)
Definition postTunnelStop (id : string) : server -> response * server :=
  onProject id (fun project => TunnelLifecycle.stopTunnel project ;; ret tt)
    "Failed to stop tunnel".

(** GET /api/projects/:id/logs?type=...&maxBytes=...; the two query
    parameters are strings when present. *)
Definition getLogs (id : string) (type maxBytes : option string)
    : server -> response * server :=
  respond
    (hbind (inConfig (ConfigService.getProject id)) (fun found =>
       match found with
       | None => hret notFound
       | Some _ =>
           let logType :=
             match type with
             | Some t => if truthyS t then t else "app"
             | None => "app"
             end in
           let maxBytes :=
             match maxBytes with
             | Some m => if truthyS m then Parse.parseInt10 m else Some 20000
             | None => Some 20000
             end in
           if negb (String.eqb logType "app" || String.eqb logType "tunnel") then
             hret (mkResponse 400
                     (ErrorBody "Invalid log type. Must be 'app' or 'tunnel'." None))
           else
             match maxBytes with
             | None =>
                 hret (mkResponse 400
                         (ErrorBody "maxBytes must be a non-negative number" None))
             | Some n =>
                 if n <? 0 then
                   hret (mkResponse 400
                           (ErrorBody "maxBytes must be a non-negative number" None))
                 else
                   hbind (inWorld (LogService.readLog id logType (Some n))) (fun logContent =>
                   hret (mkResponse 200 (LogsBody logContent)))
             end
       end))
    "Failed to read logs".

End Handlers.

(** ** The routes, seen from outside *)

(** The configuration the routes work from: [document] satisfies the
    schema, and it is cached or it is what the first load will read. *)
Definition configured (s : Handlers.server) (document : Validator.value) : Prop :=
  ConfigSchema.wellFormed document
  /\ (ConfigService.cachedConfig (Handlers.cfg s) = document
      \/ (Validator.falsy (ConfigService.cachedConfig (Handlers.cfg s)) = true
          /\ ConfigService.config_file (Handlers.cfg s) = ConfigService.JsonFile document)).

(** The server once [document] is cached, in the world [w]. *)
Definition serving (document : Validator.value) (w : world) (s : Handlers.server)
    : Handlers.server :=
  Handlers.mkServer (ConfigService.set_cachedConfig document (Handlers.cfg s)) w.

(** No entry of [document] has the id. *)
Definition unknownIn (document : Validator.value) (id : string) : Prop :=
  Forall (fun p => Validator.get p "id" <> Validator.VString id) (entriesOf document).

(** [entry] is the first entry of [document] with the id. *)
Definition entryOf (document : Validator.value) (id : string) (entry : Validator.value)
    : Prop :=
  firstMatch id (entriesOf document) (Some entry).

(** The status [buildProjectStatus] reports for [project] in the world [w]. *)
Definition statusOf (project : Project) (w : world) : Routes.ProjectStatus :=
  let st := stored w (id project) in
  Routes.mkStatus (id project) (name project) (dir project) (start project)
    (port project) (port project)
    (alive w (pid st))
    (orNullZ (pid st))
    (orNullZ (startedAt st))
    (alive w (tunnelPid st))
    (orNullZ (tunnelPid st))
    (if alive w (tunnelPid st) then orNullS (tunnelUrl st) else None)
    (orNullZ (tunnelStartedAt st)).

(** The world after the three liveness probes of [buildProjectStatus]. *)
Definition inspected (projectId : string) (w : world) : world :=
  let st := stored w projectId in
  probed (tunnelPid st) (probed (tunnelPid st) (probed (pid st) w)).

(** A configuration with one project, which listens on [port]. *)
Definition sampleEntry (port : Z) : Validator.value :=
  Validator.VObject
    {[ "id" := Validator.VString "web"; "name" := Validator.VString "Web";
       "dir" := Validator.VString "apps/web"; "start" := Validator.VString "npm start";
       "port" := Validator.VNumber (Validator.Integral port) ]}.

Definition sampleDocument (port : Z) : Validator.value :=
  Validator.VObject
    {[ "port" := Validator.VNumber (Validator.Integral 3000);
       "projects" := Validator.VArray [sampleEntry port] ]}.

(** The server before its first request, in the world [w]. *)
Definition sampleServer (port : Z) (w : world) : Handlers.server :=
  Handlers.mkServer
    (ConfigService.mkService "dashboard.config.json"
       (ConfigService.JsonFile (sampleDocument port)) Validator.VNull)
    w.

(** [answer] is the 500 a route sends, under the label [error], when the
    state file is not JSON. *)
Definition stateFailure (error : string) (answer : Handlers.response) : Prop :=
  Handlers.status answer = 500
  /\ exists m,
       Handlers.payload answer
       = Handlers.ErrorBody error (Some ("Invalid JSON in state file: " ++ m)).

(** * The model on concrete inputs *)

Example iso_epoch : IsoDate.toISOString 0 = "1970-01-01T00:00:00.000Z".
Proof. reflexivity. Qed.

Example iso_2023 :
  IsoDate.toISOString 1700000000123 = "2023-11-14T22:13:20.123Z".
Proof. reflexivity. Qed.

Example iso_leap_day :
  IsoDate.toISOString 951782400000 = "2000-02-29T00:00:00.000Z".
Proof. reflexivity. Qed.

Example iso_before_epoch :
  IsoDate.toISOString (-1) = "1969-12-31T23:59:59.999Z".
Proof. reflexivity. Qed.

Example match_in_banner :
  TunnelLifecycle.matchTunnelUrl "INF |  https://abc-def.trycloudflare.com  |"
  = Some "https://abc-def.trycloudflare.com".
Proof. reflexivity. Qed.

Example match_is_leftmost :
  TunnelLifecycle.matchTunnelUrl
    "https://.trycloudflare.com https://a.trycloudflare.com https://b.trycloudflare.com"
  = Some "https://a.trycloudflare.com".
Proof. reflexivity. Qed.

Example match_needs_the_domain :
  TunnelLifecycle.matchTunnelUrl "https://example.com/trycloudflare.com" = None.
Proof. reflexivity. Qed.

Example blank_spaces : Validator.blank "  " = true.
Proof. reflexivity. Qed.

Example blank_no_break_space :
  Validator.blank (String (ascii_of_nat 194) (String (ascii_of_nat 160) " ")) = true.
Proof. reflexivity. Qed.

Example blank_letter : Validator.blank " a " = false.
Proof. reflexivity. Qed.

Example validate_sample_config :
  Validator.validateConfig
    (Validator.VObject
       {[ "port" := Validator.VNumber (Validator.Integral 3000);
          "projects" :=
            Validator.VArray
              [Validator.VObject
                 {[ "id" := Validator.VString "web";
                    "name" := Validator.VString "Web";
                    "dir" := Validator.VString "web";
                    "start" := Validator.VString "npm start";
                    "port" := Validator.VNumber (Validator.Integral 8000) ]}] ]})
  = Ok tt.
Proof. vm_compute. reflexivity. Qed.

Example validate_fractional_port :
  Validator.validateConfig
    (Validator.VObject
       {[ "port" := Validator.VNumber (Validator.NonIntegral "3000.5");
          "projects" := Validator.VArray [] ]})
  = Throw (Error ("Invalid configuration: " ++ Validator.quoted "port"
                  ++ " must be a valid port number (0-65535), got 3000.5")).
Proof. vm_compute. reflexivity. Qed.

Example validate_second_entry_without_dir :
  Validator.validateConfig
    (Validator.VObject
       {[ "port" := Validator.VNumber (Validator.Integral 3000);
          "projects" :=
            Validator.VArray
              [Validator.VObject
                 {[ "id" := Validator.VString "web";
                    "name" := Validator.VString "Web";
                    "dir" := Validator.VString "web";
                    "start" := Validator.VString "npm start";
                    "port" := Validator.VNumber (Validator.Integral 8000) ]};
               Validator.VObject
                 {[ "id" := Validator.VString "api";
                    "name" := Validator.VString "Api";
                    "start" := Validator.VString "npm start";
                    "port" := Validator.VNumber (Validator.Integral 8001) ]}] ]})
  = Throw (Error ("Invalid configuration: project at index 1 missing required field: "
                  ++ Validator.quoted "dir")).
Proof. vm_compute. reflexivity. Qed.

Example start_then_stop :
  let project := mkProject "web" "Web" "web" "npm start" 3000 Undefined in
  let w0 := mkWorld Missing None ∅ 1700000000123 [] in
  let '(started, w1) := ProjectLifecycle.startProject project w0 in
  let '(stopped, w2) := ProjectLifecycle.stopProject project w1 in
  started = Ok (Val 1)
  /\ stopped = Ok true
  /\ stored w1 "web" = mkState (Val 1) (Val 1700000000123) Undefined Undefined Undefined Undefined
  /\ stored w2 "web" = mkState Null Null Undefined Undefined Undefined Undefined
  /\ List.filter (fun e => negb (isWrite e)) (trace w2)
     = [EvSpawn "npm start" [] 1; EvKill (-1) SIGTERM true].
Proof. vm_compute. repeat split; reflexivity. Qed.

Example stop_log_of_vanished_process :
  let project := mkProject "web" "Web" "web" "npm start" 3000 Undefined in
  let w0 :=
    mkWorld (Json (mkDoc (Some {[ "web" := mkState (Val 77) (Val 5) Null Null Null Null ]})))
      None ∅ 0 [] in
  let '(stopped, w1) := ProjectLifecycle.stopProject project w0 in
  stopped = Ok false
  /\ option_map string_of_list_byte (fileAt w1 "web.app.log")
     = Some ("[1970-01-01T00:00:00.000Z] STOP: Killing process group for PID 77" ++ newline
             ++ "[1970-01-01T00:00:00.000Z] Failed to kill process: kill ESRCH" ++ newline).
Proof. vm_compute. split; reflexivity. Qed.

(** ** Running the monad *)

Section Running.
Context {A B : Type}.

Lemma bind_ok (c : IO A) (k : A -> IO B) w a w' :
  c w = (Ok a, w') -> bind c k w = k a w'.
Proof. intros H. unfold bind. now rewrite H. Qed.

Lemma bind_throw (c : IO A) (k : A -> IO B) w e w' :
  c w = (Throw e, w') -> bind c k w = (Throw e, w').
Proof. intros H. unfold bind. now rewrite H. Qed.

Lemma tryCatch_ok (c : IO A) (h : exn -> IO A) w a w' :
  c w = (Ok a, w') -> tryCatch c h w = (Ok a, w').
Proof. intros H. unfold tryCatch. now rewrite H. Qed.

Lemma tryCatch_throw (c : IO A) (h : exn -> IO A) w e w' :
  c w = (Throw e, w') -> tryCatch c h w = h e w'.
Proof. intros H. unfold tryCatch. now rewrite H. Qed.
End Running.

(** ** The state store *)

Lemma truthyS_true (s : string) : truthyS s = true <-> s <> "".
Proof. destruct s; simpl; split; congruence. Qed.

Lemma loadState_readable w :
  readable w -> StateService.loadState w = (Ok (currentDoc w), w).
Proof.
  unfold readable, StateService.loadState, tryCatch, StateService.readAndParse, currentDoc.
  destruct (state_file w); simpl; intros H; [reflexivity | contradiction | reflexivity].
Qed.

Lemma loadState_world {w} : (StateService.loadState w).2 = w.
Proof.
  unfold StateService.loadState, tryCatch, StateService.readAndParse.
  destruct (state_file w); reflexivity.
Qed.

Lemma withProject_lookup projectId (ps : gmap string ProjectRuntimeState) :
  default emptyState (StateService.withProject projectId ps !! projectId)
  = default emptyState (ps !! projectId).
Proof.
  unfold StateService.withProject.
  destruct (ps !! projectId) eqn:E; cbn.
  - now rewrite E.
  - now rewrite lookup_insert_eq.
Qed.

Lemma getProjectState_readable projectId w :
  readable w ->
  StateService.getProjectState projectId w = (Ok (stored w projectId), w).
Proof.
  intros H. unfold StateService.getProjectState.
  rewrite (bind_ok _ _ _ _ _ (loadState_readable w H)).
  unfold ret, stored, persisted. now rewrite withProject_lookup.
Qed.

Lemma getProjectState_world projectId w :
  (StateService.getProjectState projectId w).2 = w.
Proof.
  unfold StateService.getProjectState, bind.
  pose proof (@loadState_world w) as H.
  destruct (StateService.loadState w) as [[doc|e] w']; simpl in *; congruence.
Qed.

Lemma setProjectState_run projectId s w :
  readable w ->
  StateService.setProjectState projectId s w = (Ok tt, saved projectId s w).
Proof.
  intros H. unfold StateService.setProjectState.
  rewrite (bind_ok _ _ _ _ _ (loadState_readable w H)).
  reflexivity.
Qed.







(** ** The logger and the process table *)

Lemma appendLog_run projectId type message name w :
  LogFs.getLogFilePath projectId type = LogFs.FileName name ->
  Logging.appendLog projectId type message w
  = (Ok tt, appended name (logLine w message) w).
Proof.
  intros Hname.
  unfold Logging.appendLog, LogFs.ensureLogDir, LogFs.timestamp, LogFs.appendFileSync,
    bind, tryCatch, modify, gets, appended, logLine.
  rewrite Hname. destruct w as [sf lg pr nw tr ds]; destruct lg; reflexivity.
Qed.

(** A log line that cannot be written: the directory has been made, and
    the error of [appendFileSync] is thrown again. *)
Lemma appendLog_fails projectId type message w :
  LogFs.getLogFilePath projectId type = LogFs.NoFileName ->
  Logging.appendLog projectId type message w = (Throw LogFs.ENOENT, ensured w).
Proof.
  intros Hname.
  unfold Logging.appendLog, LogFs.ensureLogDir, LogFs.timestamp, LogFs.appendFileSync,
    bind, tryCatch, modify, gets, ensured, throw.
  rewrite Hname. destruct w as [sf lg pr nw tr ds]; destruct lg; reflexivity.
Qed.

Lemma appendLog_cases projectId type message w :
  (exists name,
     LogFs.getLogFilePath projectId type = LogFs.FileName name
     /\ Logging.appendLog projectId type message w
        = (Ok tt, appended name (logLine w message) w))
  \/ (LogFs.getLogFilePath projectId type = LogFs.NoFileName
      /\ Logging.appendLog projectId type message w = (Throw LogFs.ENOENT, ensured w)).
Proof.
  destruct (LogFs.getLogFilePath projectId type) as [name|] eqn:E.
  - left. exists name. split; [reflexivity | now apply appendLog_run].
  - right. split; [reflexivity | now apply appendLog_fails].
Qed.

(** The logger touches the log directory only. *)
Lemma appendLog_frame projectId type message w :
  let w' := (Logging.appendLog projectId type message w).2 in
  state_file w' = state_file w /\ procs w' = procs w /\ trace w' = trace w
  /\ now w' = now w /\ dirs w' = dirs w.
Proof.
  destruct (appendLog_cases projectId type message w) as [(name & _ & ->) | [_ ->]]; cbn.
  - repeat split.
  - unfold ensured. destruct (logs w); repeat split.
Qed.

Lemma isProcessAlive_run pid w :
  Os.isProcessAlive pid w = (Ok (alive w pid), probed pid w).
Proof.
  unfold Os.isProcessAlive, alive, probed.
  destruct pid as [| |n]; simpl; try reflexivity.
  destruct (n =? 0); simpl; [reflexivity|].
  unfold tryCatch, bind, Os.kill, ret.
  destruct (Os.deliverable n (procs w)); simpl; [|reflexivity].
  unfold set_procs, record; simpl. destruct w; reflexivity.
Qed.

Lemma alive_probed pid q w : alive (probed q w) pid = alive w pid.
Proof. unfold alive, probed. destruct (truthyZ q); reflexivity. Qed.


Lemma readable_probed q w : readable (probed q w) <-> readable w.
Proof. unfold probed. destruct (truthyZ q); reflexivity. Qed.

Lemma stored_probed q w projectId : stored (probed q w) projectId = stored w projectId.
Proof. unfold probed. destruct (truthyZ q); reflexivity. Qed.

Lemma state_file_probed q w : state_file (probed q w) = state_file w.
Proof. unfold probed. destruct (truthyZ q); reflexivity. Qed.

(** ** Read-only computations *)

Lemma sameStore_refl w : sameStore w w.
Proof. split; reflexivity. Qed.

Lemma sameStore_trans w1 w2 w3 :
  sameStore w1 w2 -> sameStore w2 w3 -> sameStore w1 w3.
Proof. intros [H1 H2] [H3 H4]; split; congruence. Qed.

Lemma sameStore_probed q w : sameStore w (probed q w).
Proof.
  unfold probed. destruct (truthyZ q); [|apply sameStore_refl].
  split; [reflexivity|]. cbn. rewrite List.filter_app. cbn. apply app_nil_r.
Qed.


Lemma readOnly_ret {A} (a : A) : readOnly (ret a).
Proof. intros w; apply sameStore_refl. Qed.

Lemma readOnly_throw {A} e : readOnly (@throw A e).
Proof. intros w; apply sameStore_refl. Qed.

Lemma readOnly_gets {A} (f : world -> A) : readOnly (gets f).
Proof. intros w; apply sameStore_refl. Qed.

Lemma readOnly_bind {A B} (c : IO A) (k : A -> IO B) :
  readOnly c -> (forall a, readOnly (k a)) -> readOnly (bind c k).
Proof.
  intros Hc Hk w. unfold bind. specialize (Hc w).
  destruct (c w) as [[a|e] w']; simpl in *; [|assumption].
  eapply sameStore_trans; [exact Hc | apply Hk].
Qed.

Lemma readOnly_tryCatch {A} (c : IO A) (h : exn -> IO A) :
  readOnly c -> (forall e, readOnly (h e)) -> readOnly (tryCatch c h).
Proof.
  intros Hc Hh w. unfold tryCatch. specialize (Hc w).
  destruct (c w) as [[a|e] w']; simpl in *; [assumption|].
  eapply sameStore_trans; [exact Hc | apply Hh].
Qed.

Lemma readOnly_if {A} (b : bool) (c1 c2 : IO A) :
  readOnly c1 -> readOnly c2 -> readOnly (if b then c1 else c2).
Proof. destruct b; auto. Qed.

Lemma readOnly_loadState : readOnly StateService.loadState.
Proof. intros w. rewrite loadState_world. apply sameStore_refl. Qed.

Lemma readOnly_getProjectState projectId :
  readOnly (StateService.getProjectState projectId).
Proof. intros w. rewrite getProjectState_world. apply sameStore_refl. Qed.

Lemma readOnly_isProcessAlive pid : readOnly (Os.isProcessAlive pid).
Proof. intros w. rewrite isProcessAlive_run. apply sameStore_probed. Qed.

#[local] Hint Resolve readOnly_ret readOnly_throw readOnly_gets readOnly_bind
  readOnly_tryCatch readOnly_if readOnly_loadState readOnly_getProjectState
  readOnly_isProcessAlive : readonly.

Lemma readOnly_isProjectRunning projectId :
  readOnly (ProjectLifecycle.isProjectRunning projectId).
Proof. unfold ProjectLifecycle.isProjectRunning. auto 10 with readonly. Qed.

Lemma readOnly_getProjectPid projectId :
  readOnly (ProjectLifecycle.getProjectPid projectId).
Proof.
  unfold ProjectLifecycle.getProjectPid.
  apply readOnly_if; [auto with readonly|].
  apply readOnly_bind; [auto with readonly|]. intros projectState. cbv zeta.
  apply readOnly_bind; [auto with readonly|]. intros [|]; auto with readonly.
Qed.

Lemma readOnly_isTunnelRunning projectId :
  readOnly (TunnelLifecycle.isTunnelRunning projectId).
Proof. unfold TunnelLifecycle.isTunnelRunning. auto 10 with readonly. Qed.

#[local] Hint Resolve readOnly_isProjectRunning readOnly_getProjectPid
  readOnly_isTunnelRunning : readonly.

Lemma readOnly_getTunnelUrl projectId :
  readOnly (TunnelLifecycle.getTunnelUrl projectId).
Proof.
  unfold TunnelLifecycle.getTunnelUrl.
  apply readOnly_if; [auto with readonly|].
  apply readOnly_bind; [auto with readonly|]. intros projectState.
  apply readOnly_bind; [auto with readonly|]. intros [|]; auto with readonly.
Qed.

#[local] Hint Resolve readOnly_getTunnelUrl : readonly.

Lemma readOnly_buildProjectStatus project :
  readOnly (Routes.buildProjectStatus project).
Proof.
  unfold Routes.buildProjectStatus. cbv zeta.
  apply readOnly_bind; [auto with readonly|]. intros projectState.
  apply readOnly_bind; [auto with readonly|]. intros running.
  apply readOnly_bind; [auto with readonly|]. intros tunnelRunning.
  apply readOnly_bind; [auto with readonly|]. intros tunnelUrl.
  auto with readonly.
Qed.

Lemma readOnly_appendLog projectId type message :
  readOnly (Logging.appendLog projectId type message).
Proof.
  intros w. destruct (appendLog_frame projectId type message w) as (Hf & _ & Ht & _).
  split; [exact Hf | now rewrite Ht].
Qed.

(** ** Liveness reads, step by step *)

Lemma isProjectRunning_run projectId w :
  projectId <> "" -> readable w ->
  ProjectLifecycle.isProjectRunning projectId w
  = (Ok (alive w (pid (stored w projectId))), probed (pid (stored w projectId)) w).
Proof.
  intros Hid Hr. unfold ProjectLifecycle.isProjectRunning.
  apply truthyS_true in Hid. rewrite Hid. cbn [negb].
  rewrite (bind_ok _ _ _ _ _ (getProjectState_readable projectId w Hr)).
  apply isProcessAlive_run.
Qed.

Lemma isTunnelRunning_run projectId w :
  projectId <> "" -> readable w ->
  TunnelLifecycle.isTunnelRunning projectId w
  = (Ok (alive w (tunnelPid (stored w projectId))),
     probed (tunnelPid (stored w projectId)) w).
Proof.
  intros Hid Hr. unfold TunnelLifecycle.isTunnelRunning.
  apply truthyS_true in Hid. rewrite Hid. cbn [negb].
  rewrite (bind_ok _ _ _ _ _ (getProjectState_readable projectId w Hr)).
  apply isProcessAlive_run.
Qed.

Lemma getTunnelUrl_run projectId w :
  projectId <> "" -> readable w ->
  TunnelLifecycle.getTunnelUrl projectId w
  = (Ok (if alive w (tunnelPid (stored w projectId))
         then orNullS (tunnelUrl (stored w projectId)) else None),
     probed (tunnelPid (stored w projectId)) w).
Proof.
  intros Hid Hr. unfold TunnelLifecycle.getTunnelUrl.
  rewrite (proj2 (truthyS_true projectId) Hid). cbn [negb].
  rewrite (bind_ok _ _ _ _ _ (getProjectState_readable projectId w Hr)).
  rewrite (bind_ok _ _ _ _ _ (isTunnelRunning_run projectId w Hid Hr)).
  destruct (alive w (tunnelPid (stored w projectId))); reflexivity.
Qed.

Lemma getProjectPid_run projectId w :
  projectId <> "" -> readable w ->
  ProjectLifecycle.getProjectPid projectId w
  = (Ok (if alive w (pid (stored w projectId))
         then orNullZ (pid (stored w projectId)) else None),
     probed (pid (stored w projectId)) w).
Proof.
  intros Hid Hr. unfold ProjectLifecycle.getProjectPid.
  rewrite (proj2 (truthyS_true projectId) Hid). cbn [negb].
  rewrite (bind_ok _ _ _ _ _ (getProjectState_readable projectId w Hr)).
  cbv zeta. rewrite (bind_ok _ _ _ _ _ (isProcessAlive_run _ w)).
  unfold alive.
  destruct (pid (stored w projectId)) as [| |n]; cbn; try reflexivity.
  destruct (n =? 0); cbn; [reflexivity|].
  destruct (Os.deliverable n (procs w)); reflexivity.
Qed.

(** * Runtime-state reads *)

(** C8. For a project identifier with no entry in the persisted state
    document, and also when the state file is absent, [getProjectState]
    returns the empty record (every field absent); it does not throw and
    leaves the world as it was. *)
Theorem getProjectState_unknown_is_empty (w : world) (projectId : string) :
  (state_file w = Missing
   \/ exists doc, state_file w = Json doc
                  /\ StateService.projectsOf doc !! projectId = None) ->
  StateService.getProjectState projectId w = (Ok emptyState, w)
  /\ pid emptyState = Undefined /\ startedAt emptyState = Undefined
  /\ tunnelPid emptyState = Undefined /\ tunnelStartedAt emptyState = Undefined
  /\ tunnelUrl emptyState = Undefined
  /\ tunnelUrlDiscoveredAt emptyState = Undefined.
Proof.
  intros H. split; [|repeat split].
  assert (Hr : readable w).
  { unfold readable. destruct H as [-> | (doc & -> & _)]; exact I. }
  rewrite (getProjectState_readable projectId w Hr). f_equal. f_equal.
  unfold stored, persisted, currentDoc.
  destruct H as [-> | (doc & -> & Hnone)].
  - reflexivity.
  - now rewrite Hnone.
Qed.

Lemma getProjectState_unknown_is_empty_witness :
  StateService.getProjectState "web"
    (mkWorld (Json (mkDoc (Some {[ "api" := mkState (Val 7) (Val 1) Null Null Null Null ]})))
       None ∅ 0 [])
  = (Ok emptyState,
     mkWorld (Json (mkDoc (Some {[ "api" := mkState (Val 7) (Val 1) Null Null Null Null ]})))
       None ∅ 0 []).
Proof.
  apply (getProjectState_unknown_is_empty _ "web").
  right. eexists. split; [reflexivity | vm_compute; reflexivity].
Defined.

(** C10. No read path writes the state document: [getProjectState] leaves
    the whole world untouched (the empty record it inserts lives in the
    loaded copy only), and [isProjectRunning], [getProjectPid],
    [isTunnelRunning], [getTunnelUrl] and [buildProjectStatus] end with the
    same state file and without any recorded write of it, whether they
    return or throw. *)
Theorem reads_do_not_write_state (w : world) (projectId : string) (project : Project) :
  (StateService.getProjectState projectId w).2 = w
  /\ (StateService.loadState w).2 = w
  /\ sameStore w (ProjectLifecycle.isProjectRunning projectId w).2
  /\ sameStore w (ProjectLifecycle.getProjectPid projectId w).2
  /\ sameStore w (TunnelLifecycle.isTunnelRunning projectId w).2
  /\ sameStore w (TunnelLifecycle.getTunnelUrl projectId w).2
  /\ sameStore w (Routes.buildProjectStatus project w).2.
Proof.
  split; [apply getProjectState_world|].
  split; [apply loadState_world|].
  split; [apply readOnly_isProjectRunning|].
  split; [apply readOnly_getProjectPid|].
  split; [apply readOnly_isTunnelRunning|].
  split; [apply readOnly_getTunnelUrl|].
  apply readOnly_buildProjectStatus.
Qed.

(** C3. For a non-empty project id, [getTunnelUrl] returns [null] whenever
    the stored [tunnelPid] is absent or not alive, whatever URL is stored;
    when the tunnel process is alive it returns the stored [tunnelUrl], or
    [null] when no URL is stored. *)
Theorem getTunnelUrl_only_for_live_tunnel (w : world) (projectId : string) :
  projectId <> "" -> readable w ->
  let st := stored w projectId in
  exists result w',
    TunnelLifecycle.getTunnelUrl projectId w = (Ok result, w')
    /\ (alive w (tunnelPid st) = false -> result = None)
    /\ (alive w (tunnelPid st) = true ->
        forall url, tunnelUrl st = Val url -> url <> "" -> result = Some url)
    /\ (alive w (tunnelPid st) = true ->
        (tunnelUrl st = Undefined \/ tunnelUrl st = Null \/ tunnelUrl st = Val "") ->
        result = None).
Proof.
  intros Hid Hr st. rewrite (getTunnelUrl_run projectId w Hid Hr). fold st.
  do 2 eexists. split; [reflexivity|].
  destruct (alive w (tunnelPid st)); repeat split; try congruence.
  - intros _ url -> Hne. cbn. now rewrite (proj2 (truthyS_true url) Hne).
  - intros _ [-> | [-> | ->]]; reflexivity.
Qed.

Lemma getTunnelUrl_only_for_live_tunnel_witness :
  exists result w',
    TunnelLifecycle.getTunnelUrl "web"
      (mkWorld
         (Json (mkDoc (Some {[ "web" := mkState Null Null (Val 41) (Val 5)
                                          (Val "https://a.trycloudflare.com") (Val 6) ]})))
         None ∅ 0 [])
    = (Ok result, w')
    /\ result = None.
Proof.
  destruct (getTunnelUrl_only_for_live_tunnel
              (mkWorld
                 (Json (mkDoc (Some {[ "web" := mkState Null Null (Val 41) (Val 5)
                                                  (Val "https://a.trycloudflare.com") (Val 6) ]})))
                 None ∅ 0 []) "web")
    as (result & w' & Hrun & Hdead & _).
  - discriminate.
  - exact I.
  - exists result, w'. split; [exact Hrun|]. apply Hdead. vm_compute. reflexivity.
Defined.

(** C9. In the status object of a project, [pid], [startedAt], [tunnelPid]
    and [tunnelStartedAt] are the stored values, turned into [null] only
    when falsy, with no liveness check.  A project whose recorded process
    is no longer alive is therefore reported with [running = false] and
    its stale pid, while [getProjectPid] answers [null] for it. *)
Theorem status_reports_stale_pid (w : world) (project : Project) :
  id project <> "" -> readable w ->
  let st := stored w (id project) in
  exists status w',
    Routes.buildProjectStatus project w = (Ok status, w')
    /\ Routes.st_pid status = orNullZ (pid st)
    /\ Routes.st_startedAt status = orNullZ (startedAt st)
    /\ Routes.st_tunnelPid status = orNullZ (tunnelPid st)
    /\ Routes.st_tunnelStartedAt status = orNullZ (tunnelStartedAt st)
    /\ Routes.st_running status = alive w (pid st)
    /\ (forall n, pid st = Val n -> n <> 0 -> alive w (pid st) = false ->
        Routes.st_running status = false
        /\ Routes.st_pid status = Some n
        /\ exists w'', ProjectLifecycle.getProjectPid (id project) w = (Ok None, w'')).
Proof.
  intros Hid Hr st. unfold Routes.buildProjectStatus. cbv zeta.
  rewrite (bind_ok _ _ _ _ _ (getProjectState_readable (id project) w Hr)).
  rewrite (bind_ok _ _ _ _ _ (isProjectRunning_run (id project) w Hid Hr)).
  fold st.
  set (w1 := probed (pid st) w).
  assert (Hr1 : readable w1) by (apply readable_probed; exact Hr).
  rewrite (bind_ok _ _ _ _ _ (isTunnelRunning_run (id project) w1 Hid Hr1)).
  set (w2 := probed (tunnelPid (stored w1 (id project))) w1).
  assert (Hr2 : readable w2) by (apply readable_probed; exact Hr1).
  rewrite (bind_ok _ _ _ _ _ (getTunnelUrl_run (id project) w2 Hid Hr2)).
  unfold ret. do 2 eexists. split; [reflexivity|]. cbn.
  do 5 (split; [reflexivity|]).
  intros n Hpid Hn Hdead.
  split; [exact Hdead|].
  split; [rewrite Hpid; cbn; now rewrite (proj2 (Z.eqb_neq n 0) Hn)|].
  rewrite (getProjectPid_run (id project) w Hid Hr). fold st. rewrite Hdead.
  eexists; reflexivity.
Qed.

Lemma status_reports_stale_pid_witness :
  exists status w',
    Routes.buildProjectStatus (mkProject "web" "Web" "web" "npm start" 3000 Undefined)
      (mkWorld
         (Json (mkDoc (Some {[ "web" := mkState (Val 4242) (Val 17) Null Null Null Null ]})))
         None ∅ 0 [])
    = (Ok status, w')
    /\ Routes.st_running status = false
    /\ Routes.st_pid status = Some 4242.
Proof.
  destruct (status_reports_stale_pid
              (mkWorld
                 (Json (mkDoc (Some {[ "web" := mkState (Val 4242) (Val 17) Null Null Null Null ]})))
                 None ∅ 0 [])
              (mkProject "web" "Web" "web" "npm start" 3000 Undefined))
    as (status & w' & Hrun & _ & _ & _ & _ & _ & Hstale).
  - discriminate.
  - exact I.
  - exists status, w'. split; [exact Hrun|].
    destruct (Hstale 4242) as (Hrunning & Hpid & _).
    + vm_compute. reflexivity.
    + discriminate.
    + vm_compute. reflexivity.
    + split; assumption.
Defined.

(** * Stopping and starting a project *)

Lemma kill_run target sig w :
  Os.kill target sig w
  = if Os.deliverable target (procs w)
    then (Ok tt,
          record (EvKill target sig true)
            (set_procs (match sig with
                        | Sig0 => procs w
                        | SIGTERM => Os.survivors target (procs w)
                        end) w))
    else (Throw (Os.killError target (procs w)), record (EvKill target sig false) w).
Proof. reflexivity. Qed.



Lemma assignable_same_file w w' projectId :
  state_file w' = state_file w -> assignable w projectId -> assignable w' projectId.
Proof.
  intros H [Hne | Hsome]; [now left | right].
  unfold persisted, currentDoc in *. now rewrite H.
Qed.




(** The claim C1 as it was stated, for every non-empty id, fails for an id
    with a path separator: [a/b.app.log] is not a file of the log
    directory, the first log line of [stopProject] throws, and the
    recorded process is neither signalled nor cleared from the state. *)
Lemma stopProject_unwritable_log_keeps_pid :
  let project := mkProject "a/b" "Web" "web" "npm start" 3000 Undefined in
  let w :=
    mkWorld
      (Json (mkDoc (Some {[ "a/b" := mkState (Val 4242) (Val 17) Null Null Null Null ]})))
      None {[ 4242 := mkProcess 4242 true ]} 0 [] in
  id project <> "" /\ readable w
  /\ truthyZ (pid (stored w (id project))) = true
  /\ exists e w',
       ProjectLifecycle.stopProject project w = (Throw e, w')
       /\ StateService.isENOENT e = true
       /\ pid (stored w' (id project)) = Val 4242
       /\ procs w' = procs w
       /\ trace w' = [].
Proof.
  intros project w. split; [discriminate|]. split; [exact I|].
  split; [reflexivity|].
  exists LogFs.ENOENT, (ensured w). repeat split.
Qed.




Lemma assignable_probed q w projectId :
  assignable w projectId -> assignable (probed q w) projectId.
Proof. apply assignable_same_file. apply state_file_probed. Qed.





(** The claim C2 as it was stated, for every valid project, fails for an
    id with a path separator: the recorded process is alive, and
    [startProject] throws at the log line instead of returning its pid. *)
Lemma startProject_unwritable_log_throws :
  let project := mkProject "a/b" "Web" "web" "npm start" 3000 Undefined in
  let w :=
    mkWorld
      (Json (mkDoc (Some {[ "a/b" := mkState (Val 4242) (Val 17) Null Null Null Null ]})))
      None {[ 4242 := mkProcess 4242 true ]} 0 [] in
  id project <> "" /\ start project <> "" /\ dir project <> "" /\ readable w
  /\ alive w (pid (stored w (id project))) = true
  /\ exists e w',
       ProjectLifecycle.startProject project w = (Throw e, w')
       /\ StateService.isENOENT e = true.
Proof.
  intros project w. repeat (split; [discriminate|]). split; [exact I|].
  split; [vm_compute; reflexivity|].
  eexists _, _. split; [vm_compute; reflexivity | reflexivity].
Qed.

(** * Capturing the tunnel URL *)







(** What [matchTunnelUrl] returns is an occurrence of the pattern. *)

Lemma string_app_cons (x : ascii) (a b : string) :
  String x a ++ b = String x (a ++ b).
Proof. reflexivity. Qed.

Lemma string_app_nil (b : string) : EmptyString ++ b = b.
Proof. reflexivity. Qed.

Lemma string_app_assoc (a b c : string) : (a ++ b) ++ c = a ++ (b ++ c).
Proof.
  induction a as [|x a IH]; [reflexivity|].
  now rewrite !string_app_cons, IH.
Qed.

Lemma stripPrefix_Some p : forall s r,
  TunnelLifecycle.stripPrefix p s = Some r -> s = p ++ r.
Proof.
  induction p as [|a p IH]; intros s r H; cbn in H.
  - now injection H as ->.
  - destruct s as [|b s]; [discriminate|].
    destruct (Ascii.eqb a b) eqn:E; [|discriminate].
    apply Ascii.eqb_eq in E. subst b. rewrite string_app_cons. f_equal. now apply IH.
Qed.

Lemma spanName_split s : forall run tail,
  TunnelLifecycle.spanName s = (run, tail) ->
  s = run ++ tail
  /\ Forall (fun c => TunnelLifecycle.isNameChar c = true) (list_ascii_of_string run).
Proof.
  induction s as [|c s IH]; intros run tail H; cbn in H.
  - injection H as <- <-. split; [reflexivity | constructor].
  - destruct (TunnelLifecycle.isNameChar c) eqn:Ec.
    + destruct (TunnelLifecycle.spanName s) as [run' tail'].
      injection H as <- <-. destruct (IH run' tail' eq_refl) as [-> Hall].
      split; [reflexivity | constructor; assumption].
    + injection H as <- <-. split; [reflexivity | constructor].
Qed.

Lemma matchHere_Some s url :
  TunnelLifecycle.matchHere s = Some url ->
  tunnelUrlForm url /\ exists post, s = url ++ post.
Proof.
  unfold TunnelLifecycle.matchHere.
  destruct (TunnelLifecycle.stripPrefix "https://" s) as [afterScheme|] eqn:Hs; [|discriminate].
  destruct (TunnelLifecycle.spanName afterScheme) as [run tail] eqn:Hspan.
  destruct (truthyS run) eqn:Hrun; [|discriminate]. cbn [andb].
  destruct (bool_decide _) eqn:Hdot; [|discriminate].
  intros H. injection H as <-.
  apply bool_decide_eq_true in Hdot. destruct Hdot as [post Hpost].
  apply stripPrefix_Some in Hs, Hpost.
  destruct (spanName_split _ _ _ Hspan) as [Hsplit Hall].
  split.
  - exists run. split; [reflexivity|]. split; [now apply truthyS_true | exact Hall].
  - exists post. rewrite Hs, Hsplit, Hpost.
    now rewrite !string_app_assoc.
Qed.

Lemma matchTunnelUrl_Some output : forall url,
  TunnelLifecycle.matchTunnelUrl output = Some url ->
  tunnelUrlForm url /\ exists pre post, output = pre ++ url ++ post.
Proof.
  induction output as [|c rest IH]; intros url H.
  - cbn in H. discriminate.
  - cbn [TunnelLifecycle.matchTunnelUrl] in H.
    destruct (TunnelLifecycle.matchHere (String c rest)) as [u|] eqn:Hhere.
    + injection H as ->. destruct (matchHere_Some _ _ Hhere) as [Hform [post Hpost]].
      split; [exact Hform|]. exists "", post. exact Hpost.
    + destruct (IH url H) as [Hform (pre & post & ->)].
      split; [exact Hform|]. exists (String c pre), post. reflexivity.
Qed.

(** The pattern is found wherever it occurs, and the leftmost occurrence
    is the one returned. *)

Lemma stripPrefix_app p r : TunnelLifecycle.stripPrefix p (p ++ r) = Some r.
Proof.
  induction p as [|a p IH]; [reflexivity|].
  rewrite string_app_cons. cbn. now rewrite Ascii.eqb_refl.
Qed.

Lemma spanName_run name tail :
  Forall (fun c => TunnelLifecycle.isNameChar c = true) (list_ascii_of_string name) ->
  TunnelLifecycle.spanName (name ++ String "." tail) = (name, String "." tail).
Proof.
  induction name as [|c name IH]; intros Hall.
  - reflexivity.
  - inversion Hall as [|? ? Hc Hrest]; subst.
    rewrite string_app_cons. cbn [TunnelLifecycle.spanName]. rewrite Hc.
    now rewrite (IH Hrest).
Qed.

Lemma matchHere_complete url post :
  tunnelUrlForm url -> TunnelLifecycle.matchHere (url ++ post) = Some url.
Proof.
  intros (name & -> & Hne & Hall). unfold TunnelLifecycle.matchHere.
  rewrite string_app_assoc, stripPrefix_app, string_app_assoc.
  change (".trycloudflare.com" ++ post) with (String "." ("trycloudflare.com" ++ post)).
  rewrite (spanName_run name _ Hall).
  rewrite (proj2 (truthyS_true name) Hne). cbn [andb].
  change (String "." ("trycloudflare.com" ++ post)) with (".trycloudflare.com" ++ post).
  rewrite stripPrefix_app. reflexivity.
Qed.

Lemma matchTunnelUrl_eq output :
  TunnelLifecycle.matchTunnelUrl output
  = match TunnelLifecycle.matchHere output with
    | Some url => Some url
    | None =>
        match output with
        | String _ rest => TunnelLifecycle.matchTunnelUrl rest
        | EmptyString => None
        end
    end.
Proof. destruct output; reflexivity. Qed.


Lemma matchTunnelUrl_leftmost output : forall url,
  TunnelLifecycle.matchTunnelUrl output = Some url -> firstUrl output url.
Proof.
  induction output as [|c rest IH]; intros url H.
  - cbn in H. discriminate.
  - rewrite matchTunnelUrl_eq in H.
    destruct (TunnelLifecycle.matchHere (String c rest)) as [found|] eqn:Hhere.
    + injection H as ->. destruct (matchHere_Some _ _ Hhere) as [Hform [post Hpost]].
      exists "". split; [split; [exact Hform | now exists post]|].
      intros pre' url' _. cbn. lia.
    + destruct (IH url H) as (pre & [Hform [post Hpost]] & Hmin).
      exists (String c pre). split.
      * split; [exact Hform|]. exists post. rewrite string_app_cons. now f_equal.
      * intros pre' url' [Hform' [post' Hpost']]. destruct pre' as [|c' pre'].
        -- rewrite string_app_nil in Hpost'.
           rewrite Hpost', (matchHere_complete url' post' Hform') in Hhere. discriminate.
        -- rewrite string_app_cons in Hpost'. injection Hpost' as _ Hrest.
           assert (Hle : (String.length pre <= String.length pre')%nat).
           { apply (Hmin pre' url'). split; [exact Hform' | now exists post']. }
           cbn. lia.
Qed.






(** The claim C4 as it was stated, for every project, fails for the id
    [__proto__] when the state file does not have that key: the listener
    matches the URL and sets its flag, but the assignment in
    [setProjectState] sets a prototype, and the state that is written has
    no record and no URL. *)
Lemma tunnel_url_lost_for_proto :
  let project := mkProject "__proto__" "Web" "web" "npm start" 3000 (Val 3000) in
  let w := mkWorld Missing None ∅ 1700000000123 [] in
  let result :=
    TunnelLifecycle.onStdoutStream project false ["https://abc.trycloudflare.com"] w in
  firstUrl "https://abc.trycloudflare.com" "https://abc.trycloudflare.com"
  /\ result.1 = Ok true
  /\ persisted result.2 "__proto__" = None
  /\ tunnelUrl (stored result.2 "__proto__") = Undefined.
Proof.
  intros project w result. split.
  - apply matchTunnelUrl_leftmost. vm_compute. reflexivity.
  - vm_compute. repeat split.
Qed.

(** * Log files *)




(** ** Decoding *)











(** ** Reading and appending *)



Lemma fileAt_ensured w name : fileAt (ensured w) name = fileAt w name.
Proof.
  unfold fileAt, ensured. destruct (logs w) eqn:E.
  - now rewrite E.
  - cbn. apply lookup_empty.
Qed.


Lemma state_file_ensured w : state_file (ensured w) = state_file w.
Proof. unfold ensured. now destruct (logs w). Qed.

Lemma trace_ensured w : trace (ensured w) = trace w.
Proof. unfold ensured. now destruct (logs w). Qed.

Lemma procs_ensured w : procs (ensured w) = procs w.
Proof. unfold ensured. now destruct (logs w). Qed.

Lemma ensured_ensured w : ensured (ensured w) = ensured w.
Proof. unfold ensured. destruct (logs w) eqn:E; [now rewrite E | reflexivity]. Qed.









(** The claim C6 as it was stated fails where the window starts inside a
    character: of the three bytes [61 C3 A9] the last one alone is not
    UTF-8, [readLog] with [maxBytes = 1] returns U+FFFD, and the result is
    three bytes long, not at most one, and is not the last byte of the
    file. *)
Lemma readLog_cut_character :
  let w := mkWorld Missing (Some {[ "web.app.log" := [x61; xc3; xa9] ]}) ∅ 0 [] in
  LogService.readLog "web" "app" (Some 1) w
  = (Ok (string_of_list_byte [xef; xbf; xbd]), w)
  /\ String.length (string_of_list_byte [xef; xbf; xbd]) = 3%nat
  /\ string_of_list_byte [xef; xbf; xbd] <> string_of_list_byte [xa9].
Proof.
  intros w. split; [vm_compute; reflexivity|].
  split; [reflexivity | vm_compute; discriminate].
Qed.

(** Newlines at the end of a string. *)

Lemma string_length_app (a b : string) :
  String.length (a ++ b) = (String.length a + String.length b)%nat.
Proof.
  induction a as [|x a IH]; [reflexivity|].
  rewrite string_app_cons. cbn. now rewrite IH.
Qed.


Lemma trailingNewlines_app_newline (s : string) :
  trailingNewlines (s ++ newline) = S (trailingNewlines s).
Proof.
  induction s as [|c s IH]; [reflexivity|].
  rewrite string_app_cons. cbn [trailingNewlines]. rewrite IH, string_length_app.
  cbn [String.length newline].
  replace (Nat.eqb (S (trailingNewlines s)) (String.length s + 1))
    with (Nat.eqb (trailingNewlines s) (String.length s)).
  - destruct (Ascii.eqb c "010" && Nat.eqb (trailingNewlines s) (String.length s));
      reflexivity.
  - destruct (Nat.eqb_spec (trailingNewlines s) (String.length s)) as [E|E];
      symmetry; [apply Nat.eqb_eq | apply Nat.eqb_neq]; lia.
Qed.


Lemma endsWithNewline_trailing (s : string) :
  endsWithNewline s = negb (Nat.eqb (trailingNewlines s) 0).
Proof.
  induction s as [|c s IH]; [reflexivity|].
  cbn [endsWithNewline trailingNewlines].
  destruct s as [|c' s'].
  - cbn. destruct (Ascii.eqb c "010"); reflexivity.
  - rewrite IH.
    destruct (Ascii.eqb c "010"
              && Nat.eqb (trailingNewlines (String c' s')) (String.length (String c' s')))
      eqn:E; [|reflexivity].
    apply andb_true_iff in E. destruct E as [_ E]. apply Nat.eqb_eq in E.
    rewrite E. reflexivity.
Qed.





Lemma fileAt_appended name content w :
  fileAt (appended name content w) name
  = Some (default [] (fileAt w name) ++ list_byte_of_string content)%list.
Proof.
  unfold fileAt, appended. cbn. rewrite lookup_insert_eq.
  destruct (logs w); reflexivity.
Qed.

Lemma fileAt_appended_ne name other content w :
  other <> name ->
  fileAt (appended name content w) other = fileAt w other.
Proof.
  intros Hne. unfold fileAt, appended. cbn. rewrite lookup_insert_ne by congruence.
  destruct (logs w); [reflexivity | apply lookup_empty].
Qed.

(** A plain name is its own path below the log directory. *)






(** * Configuration validation *)


Lemma badPort_false n : badPort n = false <-> validPort (VNumber n).
Proof.
  unfold validPort. destruct n as [z|shown]; cbn.
  - rewrite orb_false_iff, !Z.ltb_ge. split.
    + intros [H1 H2]. exists z. split; [reflexivity | lia].
    + intros (z' & Heq & Hrange). injection Heq as ->. lia.
  - split; [discriminate|]. intros (z & Heq & _). discriminate.
Qed.

Lemma notNonEmptyString_false v : notNonEmptyString v = false <-> nonEmptyString v.
Proof.
  unfold nonEmptyString. destruct v; cbn; split;
    try discriminate; try (intros (s' & Heq & _); discriminate).
  - intros H. now exists s.
  - intros (s' & Heq & H). now injection Heq as ->.
Qed.

Lemma checkRequired_Ok e index fields :
  checkRequired e index fields = Ok tt
  <-> Forall (fun f => get e f <> VUndefined) fields.
Proof.
  induction fields as [|f fields IH]; cbn.
  - split; [constructor | reflexivity].
  - destruct (get e f) eqn:E; cbn;
      try (rewrite IH; split;
           [intros H; constructor; [rewrite E; discriminate | exact H]
           | intros H; now inversion H]).
    split; [discriminate|]. intros H. inversion H as [|? ? Hf _]; subst.
    now rewrite E in Hf.
Qed.

Lemma checkRequired_Throw e index fields err :
  checkRequired e index fields = Throw err ->
  exists f, In f fields /\ get e f = VUndefined
            /\ err = Error (template (FieldMissing f) index "").
Proof.
  induction fields as [|f fields IH]; cbn; [discriminate|].
  destruct (isUndefined (get e f)) eqn:E.
  - intros H. injection H as <-. exists f. split; [now left|].
    split; [destruct (get e f); try discriminate; reflexivity | reflexivity].
  - intros H. destruct (IH H) as (g & Hin & Hg & Herr).
    exists g. split; [now right | split; assumption].
Qed.

Lemma checkString_cases e index f next :
  (notNonEmptyString (get e f) = true
   /\ checkString e index f next = Throw (Error (template (FieldNotString f) index "")))
  \/ (nonEmptyString (get e f) /\ checkString e index f next = next).
Proof.
  unfold checkString. destruct (notNonEmptyString (get e f)) eqn:E.
  - left. split; reflexivity.
  - right. split; [now apply notNonEmptyString_false | reflexivity].
Qed.

Lemma In_stringFields_required f : In f stringFields -> In f requiredFields.
Proof. cbn. intuition. Qed.

(** Every error of [validateProject] is one of the entry kinds, and the
    entry is malformed in that way. *)
Lemma validateProject_Throw e index err :
  validateProject e index = Throw err ->
  exists k detail,
    err = Error (template k index detail)
    /\ entryMalformed e k /\ aboutEntry k = true /\ knownField k.
Proof.
  unfold validateProject.
  destruct (falsy e || negb (String.eqb (typeof e) "object")) eqn:Hshape.
  { intros H. injection H as <-. exists EntryNotObject, "".
    split; [reflexivity|]. split; [|split; [reflexivity | exact I]].
    split; intros x ->; cbn in Hshape; discriminate. }
  destruct (checkRequired e index requiredFields) as [[]|err'] eqn:Hreq.
  2:{ intros H. injection H as <-.
      destruct (checkRequired_Throw _ _ _ _ Hreq) as (f & Hin & Hf & ->).
      exists (FieldMissing f), "". repeat split; assumption. }
  assert (Hbad : forall f next,
             In f stringFields -> notNonEmptyString (get e f) = true ->
             checkString e index f next = Throw err ->
             exists k detail,
               err = Error (template k index detail)
               /\ entryMalformed e k /\ aboutEntry k = true /\ knownField k).
  { intros f next Hin Hnot H.
    destruct (checkString_cases e index f next) as [[_ Hc] | [Hok _]].
    - rewrite Hc in H. injection H as <-.
      exists (FieldNotString f), "". split; [reflexivity|].
      split; [|split; [reflexivity | exact Hin]].
      split; [exact Hin|]. intros Hne. apply notNonEmptyString_false in Hne. congruence.
    - apply notNonEmptyString_false in Hok. congruence. }
  destruct (checkString_cases e index "id"
              (checkString e index "name" (checkString e index "dir"
                 (checkString e index "start"
                    match get e "port" with
                    | VNumber n =>
                        if badPort n
                        then Throw (Error (atIndex index ++ " " ++ quoted "port"
                                           ++ " must be a valid port number (0-65535), got "
                                           ++ showNumber n))
                        else Ok tt
                    | other =>
                        Throw (Error (atIndex index ++ " " ++ quoted "port"
                                      ++ " must be a number, got " ++ typeof other))
                    end)))) as [[Hn _] | [_ ->]];
    [apply Hbad; [cbn; tauto | exact Hn]|].
  match goal with |- checkString e index "name" ?next = _ -> _ =>
    destruct (checkString_cases e index "name" next) as [[Hn _] | [_ ->]];
      [apply Hbad; [cbn; tauto | exact Hn]|] end.
  match goal with |- checkString e index "dir" ?next = _ -> _ =>
    destruct (checkString_cases e index "dir" next) as [[Hn _] | [_ ->]];
      [apply Hbad; [cbn; tauto | exact Hn]|] end.
  match goal with |- checkString e index "start" ?next = _ -> _ =>
    destruct (checkString_cases e index "start" next) as [[Hn _] | [_ ->]];
      [apply Hbad; [cbn; tauto | exact Hn]|] end.
  destruct (get e "port") as [| | b | n | s | items | props] eqn:Hport;
    try (intros H; injection H as <-;
         exists EntryPortNotNumber, (typeof (get e "port")); rewrite Hport;
         split; [reflexivity|]; split; [|split; [reflexivity | exact I]];
         cbn; rewrite Hport; intros n'; discriminate).
  destruct (badPort n) eqn:Hbadport; [|discriminate].
  intros H. injection H as <-.
  exists EntryPortOutOfRange, (showNumber n). split; [reflexivity|].
  split; [|split; [reflexivity | exact I]].
  cbn. rewrite Hport. split; [now exists n|].
  intros Hv. apply badPort_false in Hv. congruence.
Qed.

Lemma validateProject_Ok e index :
  validateProject e index = Ok tt <-> validEntry e.
Proof.
  unfold validateProject, validEntry. split.
  - destruct (falsy e || negb (String.eqb (typeof e) "object")) eqn:Hshape; [discriminate|].
    destruct (checkRequired e index requiredFields) as [[]|err'] eqn:Hreq; [|discriminate].
    assert (Hobj : exists props, e = VObject props).
    { destruct e; cbn in Hshape; rewrite ?orb_true_r in Hshape;
        try discriminate. now eexists. }
    unfold checkString.
    destruct (notNonEmptyString (get e "id")) eqn:H1; [discriminate|].
    destruct (notNonEmptyString (get e "name")) eqn:H2; [discriminate|].
    destruct (notNonEmptyString (get e "dir")) eqn:H3; [discriminate|].
    destruct (notNonEmptyString (get e "start")) eqn:H4; [discriminate|].
    apply notNonEmptyString_false in H1, H2, H3, H4.
    destruct (get e "port") as [| | b | n | s | items | props] eqn:Hport; try discriminate.
    destruct (badPort n) eqn:Hbadport; [discriminate|].
    intros _. apply badPort_false in Hbadport. tauto.
  - intros ((props & ->) & H1 & H2 & H3 & H4 & Hp).
    cbn [falsy typeof orb negb]. change (String.eqb "object" "object") with true.
    cbn [negb].
    assert (Hreq : checkRequired (VObject props) index requiredFields = Ok tt).
    { apply checkRequired_Ok. unfold requiredFields.
      repeat constructor; intros Hu;
        [destruct H1 as (s & Hs & _) | destruct H2 as (s & Hs & _)
        | destruct H3 as (s & Hs & _) | destruct H4 as (s & Hs & _)
        | destruct Hp as (z & Hs & _)]; congruence. }
    rewrite Hreq. unfold checkString.
    apply notNonEmptyString_false in H1, H2, H3, H4.
    rewrite H1, H2, H3, H4.
    destruct Hp as (z & Hz & Hrange). rewrite Hz.
    assert (Hb : badPort (Integral z) = false)
      by (apply badPort_false; exists z; split; [reflexivity | exact Hrange]).
    now rewrite Hb.
Qed.

Lemma forEachProject_Ok items : forall base,
  forEachProject items base = Ok tt <-> Forall validEntry items.
Proof.
  induction items as [|e items IH]; intros base; cbn.
  - split; [constructor | reflexivity].
  - destruct (validateProject e base) as [[]|err] eqn:He.
    + rewrite IH. apply validateProject_Ok in He. split.
      * intros H. now constructor.
      * intros H. now inversion H.
    + split; [discriminate|]. intros H. inversion H as [|? ? Hv _]; subst.
      apply (validateProject_Ok e base) in Hv. congruence.
Qed.

(** The loop stops at the first entry that is not valid, with that
    entry's error and index. *)
Lemma forEachProject_Throw items : forall base err,
  forEachProject items base = Throw err ->
  exists good e rest,
    items = (good ++ e :: rest)%list
    /\ Forall validEntry good
    /\ validateProject e (base + List.length good)%nat = Throw err.
Proof.
  induction items as [|e items IH]; intros base err; cbn; [discriminate|].
  destruct (validateProject e base) as [[]|err'] eqn:He.
  - intros H. destruct (IH _ _ H) as (good & e' & rest & -> & Hgood & Hthrow).
    exists (e :: good), e', rest. split; [reflexivity|].
    split; [constructor; [now apply (validateProject_Ok e base) | exact Hgood]|].
    cbn [List.length]. now rewrite Nat.add_succ_r.
  - intros H. injection H as <-. exists [], e, items.
    split; [reflexivity|]. split; [constructor|].
    cbn [List.length]. now rewrite Nat.add_0_r.
Qed.

Lemma forEachProject_skip good : forall rest base,
  Forall validEntry good ->
  forEachProject (good ++ rest) base = forEachProject rest (base + List.length good)%nat.
Proof.
  induction good as [|e good IH]; intros rest base Hgood; cbn [app List.length].
  - now rewrite Nat.add_0_r.
  - inversion Hgood as [|? ? He Hgood']; subst.
    cbn [forEachProject].
    rewrite (proj2 (validateProject_Ok e base) He).
    rewrite (IH rest (S base) Hgood'). f_equal. lia.
Qed.

Lemma validateConfig_Ok c : validateConfig c = Ok tt <-> wellFormed c.
Proof.
  unfold validateConfig, wellFormed. split.
  - destruct c; try discriminate.
    destruct (get (VObject props) "port") as [| | b | n | s | items | props'] eqn:Hport;
      try discriminate.
    destruct (badPort n) eqn:Hbad; [discriminate|].
    destruct (get (VObject props) "projects") as [| | b | n' | s | items | props'] eqn:Hprojects;
      try discriminate.
    intros H. split; [now eexists|]. split; [now apply badPort_false|].
    exists items. split; [reflexivity|]. now apply (forEachProject_Ok items 0%nat).
  - intros ((props & ->) & Hport & items & Hprojects & Hall).
    destruct Hport as (z & Hz & Hrange). rewrite Hz.
    assert (Hb : badPort (Integral z) = false)
      by (apply badPort_false; exists z; split; [reflexivity | exact Hrange]).
    rewrite Hb, Hprojects. now apply forEachProject_Ok.
Qed.

Lemma validateConfig_Throw c err :
  validateConfig c = Throw err ->
  exists k index detail,
    err = Error (template k index detail) /\ malformed c k index /\ knownField k.
Proof.
  unfold validateConfig.
  destruct c;
    try (intros H; injection H as <-; exists ConfigNotObject, 0%nat, "";
         split; [reflexivity|]; split; [intros p0; discriminate | exact I]).
  destruct (get (VObject props) "port") as [| | b | n | s | items | props'] eqn:Hport;
    try (intros H; injection H as <-;
         exists PortNotNumber, 0%nat, (typeof (get (VObject props) "port"));
         rewrite Hport; split; [reflexivity|]; split; [|exact I];
         cbn [malformed]; rewrite Hport; split; [discriminate | intros n0; discriminate]).
  - intros H. injection H as <-. exists PortMissing, 0%nat, "".
    split; [reflexivity|]. split; [exact Hport | exact I].
  - destruct (badPort n) eqn:Hbad.
    + intros H. injection H as <-. exists PortOutOfRange, 0%nat, (showNumber n).
      split; [reflexivity|]. split; [|exact I]. cbn [malformed]. rewrite Hport.
      split; [now exists n|]. intros Hv. apply badPort_false in Hv. congruence.
    + destruct (get (VObject props) "projects")
        as [| | b | n' | s | items | props'] eqn:Hprojects;
        try (intros H; injection H as <-;
             exists ProjectsNotArray, 0%nat, (typeof (get (VObject props) "projects"));
             rewrite Hprojects; split; [reflexivity|]; split; [|exact I];
             cbn [malformed]; rewrite Hprojects; intros items0; discriminate).
      intros H.
      destruct (forEachProject_Throw items 0%nat err H)
        as (good & e & rest & -> & Hgood & Hthrow).
      destruct (validateProject_Throw e _ err Hthrow)
        as (k & detail & -> & Hmal & Habout & Hknown).
      exists k, (List.length good), detail. split; [reflexivity|]. split; [|exact Hknown].
      assert (Hentry : exists items e0,
                 get (VObject props) "projects" = VArray items
                 /\ items !! List.length good = Some e0 /\ entryMalformed e0 k).
      { exists (good ++ e :: rest)%list, e. split; [exact Hprojects|].
        split; [|exact Hmal]. now rewrite list_lookup_middle. }
      destruct k; try discriminate Habout; exact Hentry.
Qed.

Lemma string_cons_eq (a b : ascii) (s t : string) :
  String a s = String b t -> a = b /\ s = t.
Proof. intros H. now injection H. Qed.

Lemma digit_of_mod (n : Z) :
  isDigit (ascii_of_nat (48 + Z.to_nat (n mod 10))) = true.
Proof.
  pose proof (Z.mod_pos_bound n 10 ltac:(lia)) as Hb.
  unfold isDigit. rewrite nat_ascii_embedding by lia.
  apply andb_true_iff. split; apply Nat.leb_le; lia.
Qed.

Lemma showPos_fuel_digits fuel : forall n acc,
  allDigits acc = true -> allDigits (showPos_fuel fuel n acc) = true.
Proof.
  induction fuel as [|fuel IH]; intros n acc Hacc; cbn [showPos_fuel]; [exact Hacc|].
  assert (Hd : allDigits (String (ascii_of_nat (48 + Z.to_nat (n mod 10))) acc) = true).
  { cbn [allDigits]. now rewrite digit_of_mod, Hacc. }
  destruct (n <? 10); [exact Hd | now apply IH].
Qed.

Lemma showNat_digits (n : Z) : allDigits (showNat n) = true.
Proof. unfold showNat. now apply showPos_fuel_digits. Qed.

Lemma digits_split d1 : forall d2 r1 r2,
  allDigits d1 = true -> allDigits d2 = true ->
  headNotDigit r1 -> headNotDigit r2 ->
  d1 ++ r1 = d2 ++ r2 -> d1 = d2 /\ r1 = r2.
Proof.
  induction d1 as [|a d1 IH]; intros d2 r1 r2 H1 H2 Hr1 Hr2 Heq.
  - destruct d2 as [|b d2]; [now split|].
    rewrite string_app_nil, string_app_cons in Heq. subst r1.
    cbn in Hr1, H2. apply andb_true_iff in H2. destruct H2 as [H2 _]. congruence.
  - destruct d2 as [|b d2].
    + rewrite string_app_nil, string_app_cons in Heq. subst r2.
      cbn in Hr2, H1. apply andb_true_iff in H1. destruct H1 as [H1 _]. congruence.
    + rewrite !string_app_cons in Heq. apply string_cons_eq in Heq.
      destruct Heq as [-> Heq].
      cbn in H1, H2. apply andb_true_iff in H1, H2.
      destruct (IH d2 r1 r2 (proj2 H1) (proj2 H2) Hr1 Hr2 Heq) as [-> ->].
      now split.
Qed.

Lemma dq_char : dq = String (Ascii false true false false false true false false) EmptyString.
Proof. reflexivity. Qed.

Lemma template_entry k index detail :
  aboutEntry k = true ->
  template k index detail
  = "Invalid configuration: project at index "
      ++ showNat (Z.of_nat index) ++ entryRest k detail.
Proof.
  destruct k; try discriminate; intros _; cbn [template entryRest];
    now rewrite !string_app_assoc.
Qed.

Lemma entryRest_head k detail : aboutEntry k = true -> headNotDigit (entryRest k detail).
Proof. destruct k; try discriminate; intros _; reflexivity. Qed.

(** Strip equal leading characters from an equation between strings. *)
Ltac peel H :=
  repeat first
    [ discriminate H
    | rewrite string_app_cons in H
    | rewrite string_app_nil in H
    | let Hc := fresh "Hc" in
      apply string_cons_eq in H; destruct H as [Hc H];
      first [discriminate Hc | clear Hc] ].

Ltac known_fields :=
  repeat match goal with
    | H : knownField _ |- _ => cbn in H
    | H : _ \/ _ |- _ => destruct H as [H | H]
    | H : False |- _ => destruct H
    | H : _ = ?f |- _ => is_var f; subst f
    end.

Lemma entryRest_kind k1 k2 d1 d2 :
  aboutEntry k1 = true -> aboutEntry k2 = true ->
  knownField k1 -> knownField k2 ->
  entryRest k1 d1 = entryRest k2 d2 -> k1 = k2.
Proof.
  intros Ha1 Ha2 Hk1 Hk2 Heq.
  destruct k1; try discriminate Ha1; destruct k2; try discriminate Ha2;
    try reflexivity; known_fields; try reflexivity; exfalso;
    unfold entryRest, quoted in Heq; rewrite dq_char in Heq; peel Heq.
Qed.

Lemma string_app_nil_r (s : string) : s ++ "" = s.
Proof.
  induction s as [|c s IH]; [reflexivity|]. now rewrite string_app_cons, IH.
Qed.

Lemma string_app_inv_head (p a b : string) : p ++ a = p ++ b -> a = b.
Proof.
  induction p as [|c p IH]; [now rewrite !string_app_nil|].
  rewrite !string_app_cons. intros H. apply string_cons_eq in H. now apply IH.
Qed.

(** A message tells the kind of error it reports. *)
Lemma template_kind k1 k2 i1 i2 d1 d2 :
  knownField k1 -> knownField k2 ->
  template k1 i1 d1 = template k2 i2 d2 -> k1 = k2.
Proof.
  intros Hk1 Hk2 Heq.
  destruct (aboutEntry k1) eqn:Ha1, (aboutEntry k2) eqn:Ha2.
  - rewrite (template_entry k1 i1 d1 Ha1), (template_entry k2 i2 d2 Ha2) in Heq.
    apply string_app_inv_head in Heq.
    apply digits_split in Heq;
      [ | apply showNat_digits | apply showNat_digits
        | now apply entryRest_head | now apply entryRest_head ].
    destruct Heq as [_ Heq]. now apply (entryRest_kind k1 k2 d1 d2).
  - exfalso. rewrite (template_entry k1 i1 d1 Ha1) in Heq.
    destruct k2; try discriminate Ha2;
      unfold template, quoted in Heq; rewrite ?dq_char in Heq; peel Heq.
  - exfalso. rewrite (template_entry k2 i2 d2 Ha2) in Heq.
    destruct k1; try discriminate Ha1;
      unfold template, quoted in Heq; rewrite ?dq_char in Heq; peel Heq.
  - destruct k1; try discriminate Ha1; destruct k2; try discriminate Ha2;
      try reflexivity; exfalso;
      unfold template, quoted in Heq; rewrite ?dq_char in Heq; peel Heq.
Qed.

(** A message names the field it is about, between double quotes, and the
    index of the entry when it is about one. *)
Lemma template_names k index detail :
  (forall f, fieldOf k = Some f -> occursIn (quoted f) (template k index detail))
  /\ (aboutEntry k = true ->
      occursIn ("index " ++ showNat (Z.of_nat index) ++ " ") (template k index detail)).
Proof.
  split.
  - intros f Hf. unfold occursIn.
    destruct k; cbn in Hf; try discriminate; injection Hf as <-; cbn [template].
    + exists "Configuration missing required field: ", "". now rewrite string_app_nil_r.
    + exists "Invalid configuration: ", (" must be a number, got " ++ detail).
      reflexivity.
    + exists "Invalid configuration: ",
        (" must be a valid port number (0-65535), got " ++ detail). reflexivity.
    + exists "Invalid configuration: ", (" must be an array, got " ++ detail). reflexivity.
    + exists (("Invalid configuration: project at index " ++ showNat (Z.of_nat index))
              ++ " missing required field: "), "".
      now rewrite string_app_nil_r, !string_app_assoc.
    + exists (("Invalid configuration: project at index " ++ showNat (Z.of_nat index))
              ++ " "), " must be a non-empty string".
      now rewrite !string_app_assoc.
    + exists (("Invalid configuration: project at index " ++ showNat (Z.of_nat index))
              ++ " "), (" must be a number, got " ++ detail).
      now rewrite !string_app_assoc.
    + exists (("Invalid configuration: project at index " ++ showNat (Z.of_nat index))
              ++ " "), (" must be a valid port number (0-65535), got " ++ detail).
      now rewrite !string_app_assoc.
  - intros Ha. rewrite (template_entry k index detail Ha). unfold occursIn.
    assert (Hrest : exists post, entryRest k detail = " " ++ post).
    { destruct k; try discriminate Ha; cbn [entryRest]; eexists; reflexivity. }
    destruct Hrest as [post ->].
    exists "Invalid configuration: project at ", post.
    rewrite !string_app_assoc. reflexivity.
Qed.

(** C5. [validateConfig] accepts exactly the well-formed documents.  A
    document that is not well-formed raises an error whose message is the
    one of a kind of malformation the document really has; the message
    names the offending field between double quotes, and for an entry of
    [projects] the index of that entry.  In particular a missing [port], a
    [port] that is not a number, a [port] that is not an integer in
    0..65535 and a [projects] that is not an array each raise their own
    error about that field, and the first entry that is not valid raises an
    error about that entry.  Messages of different kinds (and of
    different fields) are different strings. *)
Theorem validateConfig_reports_offending_field (c : value) :
  (validateConfig c = Ok tt <-> wellFormed c)
  /\ (~ wellFormed c ->
      exists k index detail,
        validateConfig c = Throw (Error (template k index detail))
        /\ malformed c k index
        /\ knownField k
        /\ (forall f, fieldOf k = Some f -> occursIn (quoted f) (template k index detail))
        /\ (aboutEntry k = true ->
            occursIn ("index " ++ showNat (Z.of_nat index) ++ " ")
              (template k index detail)))
  /\ (forall props, c = VObject props ->
      (get c "port" = VUndefined ->
       validateConfig c = Throw (Error (template PortMissing 0 "")))
      /\ (get c "port" <> VUndefined -> (forall n, get c "port" <> VNumber n) ->
          validateConfig c
          = Throw (Error (template PortNotNumber 0 (typeof (get c "port")))))
      /\ (forall n, get c "port" = VNumber n -> ~ validPort (VNumber n) ->
          validateConfig c = Throw (Error (template PortOutOfRange 0 (showNumber n))))
      /\ (validPort (get c "port") -> (forall items, get c "projects" <> VArray items) ->
          validateConfig c
          = Throw (Error (template ProjectsNotArray 0 (typeof (get c "projects")))))
      /\ (forall good e rest,
            validPort (get c "port") ->
            get c "projects" = VArray (good ++ e :: rest) ->
            Forall validEntry good -> ~ validEntry e ->
            exists k detail,
              validateConfig c = Throw (Error (template k (List.length good) detail))
              /\ entryMalformed e k /\ aboutEntry k = true /\ knownField k))
  /\ (forall k1 k2 i1 i2 d1 d2,
        knownField k1 -> knownField k2 ->
        template k1 i1 d1 = template k2 i2 d2 -> k1 = k2).
Proof.
  split; [apply validateConfig_Ok|].
  split; [|split; [|intros; eapply template_kind; eassumption]].
  - intros Hnot. destruct (validateConfig c) as [[]|err] eqn:Hrun.
    + exfalso. apply Hnot. now apply validateConfig_Ok.
    + destruct (validateConfig_Throw c err Hrun) as (k & index & detail & -> & Hmal & Hknown).
      exists k, index, detail. split; [reflexivity|]. split; [exact Hmal|].
      split; [exact Hknown|]. apply template_names.
  - intros props ->. unfold validateConfig.
    split; [intros ->; reflexivity|].
    split.
    { intros Hdef Hnum.
      destruct (get (VObject props) "port"); try reflexivity;
        [now contradiction Hdef | now contradiction (Hnum n)]. }
    split.
    { intros n -> Hbad.
      destruct (badPort n) eqn:E; [reflexivity|].
      apply badPort_false in E. contradiction. }
    split.
    { intros (z & -> & Hrange) Hnot.
      assert (Hb : badPort (Integral z) = false)
        by (apply badPort_false; exists z; split; [reflexivity | exact Hrange]).
      rewrite Hb.
      destruct (get (VObject props) "projects"); try reflexivity.
      now contradiction (Hnot items). }
    intros good e rest (z & -> & Hrange) -> Hgood Hbad.
    assert (Hb : badPort (Integral z) = false)
      by (apply badPort_false; exists z; split; [reflexivity | exact Hrange]).
    rewrite Hb, (forEachProject_skip good (e :: rest) 0%nat Hgood).
    cbn [forEachProject Nat.add].
    destruct (validateProject e (List.length good)) as [[]|err] eqn:He.
    + exfalso. apply Hbad. now apply (validateProject_Ok e (List.length good)).
    + destruct (validateProject_Throw e _ err He) as (k & detail & -> & Hrest).
      exists k, detail. split; [reflexivity | exact Hrest].
Qed.

(** * More on the lifecycle managers *)

Lemma getProjectState_unreadable projectId text w :
  state_file w = NotJson text ->
  exists m,
    StateService.getProjectState projectId w
    = (Throw (Error ("Invalid JSON in state file: " ++ m)), w).
Proof.
  intros H. exists "Unexpected token".
  unfold StateService.getProjectState, bind, StateService.loadState, tryCatch,
    StateService.readAndParse.
  rewrite H. reflexivity.
Qed.

Lemma readable_or_not w : readable w \/ exists text, state_file w = NotJson text.
Proof.
  unfold readable. destruct (state_file w) eqn:E; [left; exact I | right | left; exact I].
  now eexists.
Qed.

Lemma persisted_written_ne projectId other s w :
  other <> projectId ->
  persisted (written projectId s w) other = persisted w other.
Proof.
  intros Hne.
  unfold persisted, written, currentDoc at 1, StateService.projectsOf at 1; cbn.
  now rewrite lookup_insert_ne by congruence.
Qed.

Lemma persisted_same_file w w' projectId :
  state_file w' = state_file w -> persisted w' projectId = persisted w projectId.
Proof. intros H. unfold persisted, currentDoc. now rewrite H. Qed.

Lemma stored_same_file w w' projectId :
  state_file w' = state_file w -> stored w' projectId = stored w projectId.
Proof. intros H. unfold stored. now rewrite (persisted_same_file w w'). Qed.

Lemma readable_same_file w w' :
  state_file w' = state_file w -> readable w -> readable w'.
Proof. intros H. unfold readable. now rewrite H. Qed.








Lemma filter_isSpawn_probed q w :
  List.filter isSpawn (trace (probed q w)) = List.filter isSpawn (trace w).
Proof.
  unfold probed. destruct (truthyZ q); [|reflexivity].
  cbn. rewrite List.filter_app. cbn. apply app_nil_r.
Qed.

Lemma procs_probed q w : procs (probed q w) = procs w.
Proof. unfold probed. destruct (truthyZ q); reflexivity. Qed.


Lemma filter_isKill_appended name content w :
  List.filter isKill (trace (appended name content w)) = List.filter isKill (trace w).
Proof. reflexivity. Qed.













(** ** After a stop *)






(** ** A state file that is not JSON *)

Lemma bind_getProjectState_unreadable {B} projectId text (k : ProjectRuntimeState -> IO B) w :
  state_file w = NotJson text ->
  exists e, corruptStateError e
            /\ bind (StateService.getProjectState projectId) k w = (Throw e, w).
Proof.
  intros H. destruct (getProjectState_unreadable projectId text w H) as [m Hm].
  exists (Error ("Invalid JSON in state file: " ++ m)). split; [now exists m|].
  now rewrite (bind_throw _ _ _ _ _ Hm).
Qed.

Lemma setProjectState_unreadable projectId s text w :
  state_file w = NotJson text ->
  exists e, corruptStateError e
            /\ StateService.setProjectState projectId s w = (Throw e, w).
Proof.
  intros H. exists (Error ("Invalid JSON in state file: " ++ "Unexpected token")).
  split; [now eexists|].
  unfold StateService.setProjectState, bind, StateService.loadState, tryCatch,
    StateService.readAndParse.
  rewrite H. reflexivity.
Qed.

Lemma startProject_unreadable project text w :
  state_file w = NotJson text ->
  id project <> "" -> start project <> "" -> dir project <> "" ->
  exists e, corruptStateError e
            /\ ProjectLifecycle.startProject project w = (Throw e, w).
Proof.
  intros Hbad Hid Hstart Hdir. unfold ProjectLifecycle.startProject.
  rewrite (proj2 (truthyS_true _) Hid), (proj2 (truthyS_true _) Hstart),
    (proj2 (truthyS_true _) Hdir).
  cbn [negb orb]. now apply (bind_getProjectState_unreadable _ text).
Qed.

Lemma stopProject_unreadable project text w :
  state_file w = NotJson text -> id project <> "" ->
  exists e, corruptStateError e
            /\ ProjectLifecycle.stopProject project w = (Throw e, w).
Proof.
  intros Hbad Hid. unfold ProjectLifecycle.stopProject.
  rewrite (proj2 (truthyS_true _) Hid). cbn [negb].
  now apply (bind_getProjectState_unreadable _ text).
Qed.


Lemma stopTunnel_unreadable project text w :
  state_file w = NotJson text -> id project <> "" ->
  exists e, corruptStateError e
            /\ TunnelLifecycle.stopTunnel project w = (Throw e, w).
Proof.
  intros Hbad Hid. unfold TunnelLifecycle.stopTunnel.
  rewrite (proj2 (truthyS_true _) Hid). cbn [negb].
  now apply (bind_getProjectState_unreadable _ text).
Qed.



(** ** Other projects' records *)

Lemma touchesOnly_refl projectId w : touchesOnly projectId w w.
Proof. intros other _. reflexivity. Qed.

Lemma touchesOnly_trans projectId w1 w2 w3 :
  touchesOnly projectId w1 w2 -> touchesOnly projectId w2 w3 ->
  touchesOnly projectId w1 w3.
Proof. intros H1 H2 other Hne. now rewrite (H2 other Hne), (H1 other Hne). Qed.

Lemma touchesOnly_same_file projectId w w' :
  state_file w' = state_file w -> touchesOnly projectId w w'.
Proof. intros H other _. now apply persisted_same_file. Qed.

Lemma touchesOnly_insert projectId s w w' :
  state_file w'
  = Json (mkDoc (Some (<[projectId := s]> (StateService.projectsOf (currentDoc w))))) ->
  touchesOnly projectId w w'.
Proof.
  intros H other Hne. unfold persisted at 1, currentDoc. rewrite H. cbn.
  now rewrite lookup_insert_ne by congruence.
Qed.

Section Framed.
Context {A B : Type} (projectId : string).

Lemma framed_same_file (c : IO A) :
  (forall w, state_file (c w).2 = state_file w) -> framed projectId c.
Proof. intros H w. apply touchesOnly_same_file, H. Qed.

Lemma framed_ret (a : A) : framed projectId (ret a).
Proof. intros w. apply touchesOnly_refl. Qed.

Lemma framed_throw e : framed projectId (@throw A e).
Proof. intros w. apply touchesOnly_refl. Qed.

Lemma framed_bind (c : IO A) (k : A -> IO B) :
  framed projectId c -> (forall a, framed projectId (k a)) -> framed projectId (bind c k).
Proof.
  intros Hc Hk w. unfold bind. specialize (Hc w).
  destruct (c w) as [[a|e] w']; cbn in *; [|exact Hc].
  eapply touchesOnly_trans; [exact Hc | apply Hk].
Qed.

Lemma framed_tryCatch (c : IO A) (h : exn -> IO A) :
  framed projectId c -> (forall e, framed projectId (h e)) ->
  framed projectId (tryCatch c h).
Proof.
  intros Hc Hh w. unfold tryCatch. specialize (Hc w).
  destruct (c w) as [[a|e] w']; cbn in *; [exact Hc|].
  eapply touchesOnly_trans; [exact Hc | apply Hh].
Qed.

Lemma framed_attempt (c : IO A) : framed projectId c -> framed projectId (attempt c).
Proof.
  intros Hc w. unfold attempt. specialize (Hc w). now destruct (c w) as [r w'].
Qed.

Lemma framed_if (b : bool) (c1 c2 : IO A) :
  framed projectId c1 -> framed projectId c2 -> framed projectId (if b then c1 else c2).
Proof. destruct b; auto. Qed.
End Framed.

Lemma framed_appendLog projectId id type message :
  framed projectId (Logging.appendLog id type message).
Proof.
  apply framed_same_file. intros w.
  now destruct (appendLog_frame id type message w) as [H _].
Qed.

Lemma framed_kill projectId target sig : framed projectId (Os.kill target sig).
Proof.
  apply framed_same_file. intros w. rewrite kill_run.
  destruct (Os.deliverable target (procs w)); reflexivity.
Qed.

Lemma framed_spawn projectId command args cwd :
  framed projectId (Os.spawn command args cwd).
Proof.
  apply framed_same_file. intros w. unfold Os.spawn.
  destruct (from_option (dirs w) IsDirectory cwd); reflexivity.
Qed.

Lemma framed_dateNow projectId : framed projectId Os.dateNow.
Proof. now apply framed_same_file. Qed.

Lemma framed_isProcessAlive projectId pid : framed projectId (Os.isProcessAlive pid).
Proof.
  apply framed_same_file. intros w. rewrite isProcessAlive_run. apply state_file_probed.
Qed.

Lemma framed_getProjectState projectId id :
  framed projectId (StateService.getProjectState id).
Proof. apply framed_same_file. intros w. now rewrite getProjectState_world. Qed.

(** [setProjectState] changes the record of its project only. *)
Lemma framed_setProjectState projectId s :
  framed projectId (StateService.setProjectState projectId s).
Proof.
  intros w. destruct (readable_or_not w) as [Hr | [text Hbad]].
  - rewrite (setProjectState_run projectId s w Hr).
    intros other Hne. unfold saved, persisted at 1, currentDoc at 1. cbn.
    unfold StateService.assign.
    destruct (String.eqb projectId "__proto__" && bool_decide _); [reflexivity|].
    now rewrite lookup_insert_ne by congruence.
  - destruct (setProjectState_unreadable projectId s text w Hbad) as (e & _ & ->).
    apply touchesOnly_refl.
Qed.

Create HintDb framed.
#[local] Hint Resolve framed_ret framed_throw framed_bind framed_tryCatch framed_attempt
  framed_if framed_appendLog framed_kill framed_spawn framed_dateNow
  framed_isProcessAlive framed_getProjectState framed_setProjectState : framed.

Lemma framed_killGroupThenProcess projectId id logType groupMsg processMsg failMsg n :
  framed projectId
    (ProjectLifecycle.killGroupThenProcess id logType groupMsg processMsg failMsg n).
Proof.
  unfold ProjectLifecycle.killGroupThenProcess. cbv zeta.
  assert (Hfallback : forall killed,
            framed projectId
              (let* signalled := attempt (Os.kill n SIGTERM) in
               match signalled with
               | Ok _ =>
                   let* logged := attempt (Logging.appendLog id logType processMsg) in
                   match logged with
                   | Ok _ => ret true
                   | Throw err =>
                       Logging.appendLog id logType (failMsg ++ message err) ;; ret true
                   end
               | Throw err =>
                   Logging.appendLog id logType (failMsg ++ message err) ;; ret killed
               end)).
  { intros killed. apply framed_bind; [auto with framed|].
    intros [u|err]; [|auto with framed].
    apply framed_bind; [auto with framed|]. intros [u'|err]; auto with framed. }
  apply framed_bind; [auto with framed|].
  intros [u|err]; [|apply Hfallback].
  apply framed_bind; [auto with framed|]. intros [u'|err]; [auto with framed|].
  apply Hfallback.
Qed.

#[local] Hint Resolve framed_killGroupThenProcess : framed.

Lemma touchesOnly_startProject project w :
  touchesOnly (id project) w (ProjectLifecycle.startProject project w).2.
Proof.
  revert w. change (framed (id project) (ProjectLifecycle.startProject project)).
  unfold ProjectLifecycle.startProject.
  apply framed_if; [auto with framed|].
  apply framed_bind; [auto with framed|]. intros projectState.
  apply framed_bind; [auto with framed|]. intros [|]; [auto with framed|].
  apply framed_bind; [auto with framed|]. intros _.
  apply framed_bind; [auto with framed|]. intros child.
  apply framed_bind; [auto with framed|]. intros startedAt.
  apply framed_bind; [auto with framed|]. intros old.
  auto 10 with framed.
Qed.

Lemma touchesOnly_stopProject project w :
  touchesOnly (id project) w (ProjectLifecycle.stopProject project w).2.
Proof.
  revert w. change (framed (id project) (ProjectLifecycle.stopProject project)).
  unfold ProjectLifecycle.stopProject.
  apply framed_if; [auto with framed|].
  apply framed_bind; [auto with framed|]. intros projectState. cbv zeta.
  apply framed_if; [auto with framed|].
  apply framed_bind; [auto with framed|]. intros _.
  apply framed_bind; [auto with framed|]. intros killed.
  apply framed_bind; [auto with framed|]. intros old.
  auto 10 with framed.
Qed.

Lemma touchesOnly_startTunnel project w :
  touchesOnly (id project) w (TunnelLifecycle.startTunnel project w).2.
Proof.
  revert w. change (framed (id project) (TunnelLifecycle.startTunnel project)).
  unfold TunnelLifecycle.startTunnel.
  apply framed_if; [auto with framed|].
  apply framed_bind; [auto with framed|]. intros projectState.
  apply framed_bind; [auto with framed|]. intros [|]; [auto with framed|].
  apply framed_bind; [auto with framed|]. intros _.
  apply framed_bind; [auto with framed|]. intros child.
  apply framed_bind; [auto with framed|]. intros old.
  apply framed_bind; [auto with framed|]. intros startedAt.
  auto 10 with framed.
Qed.

Lemma touchesOnly_stopTunnel project w :
  touchesOnly (id project) w (TunnelLifecycle.stopTunnel project w).2.
Proof.
  revert w. change (framed (id project) (TunnelLifecycle.stopTunnel project)).
  unfold TunnelLifecycle.stopTunnel.
  apply framed_if; [auto with framed|].
  apply framed_bind; [auto with framed|]. intros projectState. cbv zeta.
  apply framed_if; [auto with framed|].
  apply framed_bind; [auto with framed|]. intros _.
  apply framed_bind; [auto with framed|]. intros killed.
  apply framed_bind; [auto with framed|]. intros old.
  auto 10 with framed.
Qed.

Lemma touchesOnly_onStdoutData project captured output w :
  touchesOnly (id project) w (TunnelLifecycle.onStdoutData project captured output w).2.
Proof.
  revert w.
  change (framed (id project) (TunnelLifecycle.onStdoutData project captured output)).
  unfold TunnelLifecycle.onStdoutData.
  apply framed_bind; [auto with framed|]. intros _.
  apply framed_if; [|auto with framed].
  destruct (TunnelLifecycle.matchTunnelUrl output) as [url|]; [|auto with framed].
  apply framed_bind; [auto with framed|]. intros _.
  apply framed_bind; [auto with framed|]. intros old.
  apply framed_bind; [auto with framed|]. intros discoveredAt.
  auto 10 with framed.
Qed.

(** X8. Whatever the world and the arguments, and whether they return or
    throw, [startProject], [stopProject], [startTunnel], [stopTunnel] and
    the tunnel's output listener change no record of the state document
    but the one of the project they are called for. *)
Theorem lifecycle_touches_only_its_project (w : world) (project : Project)
    (other : string) (captured : bool) (output : string) :
  other <> id project ->
  persisted (ProjectLifecycle.startProject project w).2 other = persisted w other
  /\ persisted (ProjectLifecycle.stopProject project w).2 other = persisted w other
  /\ persisted (TunnelLifecycle.startTunnel project w).2 other = persisted w other
  /\ persisted (TunnelLifecycle.stopTunnel project w).2 other = persisted w other
  /\ persisted (TunnelLifecycle.onStdoutData project captured output w).2 other
     = persisted w other.
Proof.
  intros Hne.
  split; [now apply touchesOnly_startProject|].
  split; [now apply touchesOnly_stopProject|].
  split; [now apply touchesOnly_startTunnel|].
  split; [now apply touchesOnly_stopTunnel|].
  now apply touchesOnly_onStdoutData.
Qed.

Lemma lifecycle_touches_only_its_project_witness :
  persisted
    (ProjectLifecycle.stopProject (mkProject "web" "Web" "web" "npm start" 3000 Undefined)
       (mkWorld
          (Json (mkDoc (Some {[ "web" := mkState (Val 7) (Val 1) Null Null Null Null;
                                "api" := mkState (Val 8) (Val 2) Null Null Null Null ]})))
          None ∅ 0 [])).2 "api"
  = Some (mkState (Val 8) (Val 2) Null Null Null Null).
Proof.
  destruct (lifecycle_touches_only_its_project
              (mkWorld
                 (Json (mkDoc (Some {[ "web" := mkState (Val 7) (Val 1) Null Null Null Null;
                                       "api" := mkState (Val 8) (Val 2) Null Null Null Null ]})))
                 None ∅ 0 [])
              (mkProject "web" "Web" "web" "npm start" 3000 Undefined)
              "api" false "") as (_ & Hstop & _).
  - discriminate.
  - rewrite Hstop. vm_compute. reflexivity.
Defined.

(** * More on the state store *)



(** * More on the log files *)












(** ** Reading back what was appended *)
















(** X14. The [appendLog] of [utils/logging.js], which the lifecycle
    managers use, has no argument check: an empty id, type or message is
    written like any other.  It creates the log directory when needed.
    When its log path names a file of the log directory, it appends the
    line, which ends with a newline, to that file and to no other.  When
    the path names no such file and does not lead out of the directory,
    it throws the error of the write, and no file changes.  In both cases
    it leaves the state file, the process table and the trace alone.  For
    non-empty arguments it does what the [appendLog] of [logService.js]
    does, which throws for an empty message. *)
Theorem utils_appendLog_unchecked (w : world) (projectId type message : string) :
  (forall name, logsTo projectId type name ->
     exists w',
       Logging.appendLog projectId type message w = (Ok tt, w')
       /\ fileAt w' name
          = Some (default [] (fileAt w name)
                  ++ list_byte_of_string (logLine w message))%list
       /\ (forall other, other <> name -> fileAt w' other = fileAt w other)
       /\ endsWithNewline (logLine w message) = true
       /\ state_file w' = state_file w /\ procs w' = procs w /\ trace w' = trace w)
  /\ (LogFs.getLogFilePath projectId type = LogFs.NoFileName ->
      insideLogDir projectId type ->
      exists e w',
        Logging.appendLog projectId type message w = (Throw e, w')
        /\ logs w' <> None
        /\ (forall other, fileAt w' other = fileAt w other)
        /\ state_file w' = state_file w /\ procs w' = procs w /\ trace w' = trace w)
  /\ (projectId <> "" -> type <> "" -> message <> "" ->
      LogService.appendLog projectId type message w
      = Logging.appendLog projectId type message w)
  /\ (message = "" ->
      LogService.appendLog projectId type message w
      = (Throw (Error "projectId, logType, and message are required"), w)).
Proof.
  split; [|split; [|split]].
  - intros name Hname. rewrite (appendLog_run projectId type message name w Hname).
    eexists. split; [reflexivity|].
    split; [apply fileAt_appended|].
    split; [intros other Hne; now apply fileAt_appended_ne|].
    split; [|repeat split].
    unfold logLine.
    destruct (endsWithNewline ("[" ++ IsoDate.toISOString (now w) ++ "] " ++ message)) eqn:E;
      [exact E|].
    rewrite endsWithNewline_trailing, trailingNewlines_app_newline. reflexivity.
  - intros Hpath _. rewrite (appendLog_fails projectId type message w Hpath).
    eexists _, _. split; [reflexivity|].
    split; [unfold ensured; destruct (logs w) eqn:E; [now rewrite E | discriminate]|].
    split; [intros other; apply fileAt_ensured|].
    split; [apply state_file_ensured|]. split; [apply procs_ensured | apply trace_ensured].
  - intros Hid Hty Hmsg. unfold LogService.appendLog, Logging.appendLog.
    now rewrite (proj2 (truthyS_true _) Hid), (proj2 (truthyS_true _) Hty),
      (proj2 (truthyS_true _) Hmsg).
  - intros ->. unfold LogService.appendLog.
    destruct projectId, type; reflexivity.
Qed.

Lemma utils_appendLog_unchecked_witness :
  exists w',
    Logging.appendLog "" "app" "" (mkWorld Missing None ∅ 0 []) = (Ok tt, w')
    /\ fileAt w' ".app.log"
       = Some (list_byte_of_string ("[1970-01-01T00:00:00.000Z] " ++ newline)).
Proof.
  destruct (utils_appendLog_unchecked (mkWorld Missing None ∅ 0 []) "" "app" "")
    as (Hok & _).
  destruct (Hok ".app.log" eq_refl) as (w' & Hrun & Hfile & _).
  exists w'. split; [exact Hrun | exact Hfile].
Defined.

(** * The configuration service *)

Lemma validateConfig_throws_Error c e :
  validateConfig c = Throw e -> exists m, e = Error m.
Proof.
  intros H. destruct (validateConfig_Throw c e H) as (k & i & d & -> & _).
  now eexists.
Qed.

Lemma loadConfig_value s :
  ConfigService.loadConfig s
  = match ConfigService.config_file s with
    | ConfigService.NoFile =>
        (Throw (Error ("Configuration file not found at " ++ ConfigService.config_path s)), s)
    | ConfigService.NotJsonFile _ =>
        (Throw (Error ("Invalid JSON in configuration file: " ++ "Unexpected token")), s)
    | ConfigService.JsonFile document =>
        match validateConfig document with
        | Ok _ => (Ok document, ConfigService.set_cachedConfig document s)
        | Throw e => (Throw e, ConfigService.set_cachedConfig document s)
        end
    end.
Proof.
  unfold ConfigService.loadConfig, ConfigService.ctryCatch, ConfigService.cbind,
    ConfigService.readAndParse, ConfigService.validate.
  destruct (ConfigService.config_file s) as [|text|document] eqn:Hfile; try reflexivity.
  destruct (validateConfig document) as [[]|e] eqn:Hv; [reflexivity|].
  destruct (validateConfig_throws_Error _ _ Hv) as [m ->]. reflexivity.
Qed.

(** X15. [loadConfig] fails in three ways that the caller can tell apart by
    the message: a missing file ([Configuration file not found at] the
    path), a file that is not JSON ([Invalid JSON in configuration file]),
    and a document that is not well-formed (the validator's message for a
    malformation the document has).  In the first two the cache is left as
    it was.  A well-formed document is returned and cached; a document
    that is not well-formed is stored in the cache all the same, before
    the error is raised. *)
Theorem loadConfig_outcomes (s : ConfigService.service) :
  (ConfigService.config_file s = ConfigService.NoFile ->
   ConfigService.loadConfig s
   = (Throw (Error ("Configuration file not found at " ++ ConfigService.config_path s)), s))
  /\ (forall text, ConfigService.config_file s = ConfigService.NotJsonFile text ->
      exists m,
        ConfigService.loadConfig s
        = (Throw (Error ("Invalid JSON in configuration file: " ++ m)), s))
  /\ (forall document, ConfigService.config_file s = ConfigService.JsonFile document ->
      wellFormed document ->
      ConfigService.loadConfig s
      = (Ok document, ConfigService.set_cachedConfig document s))
  /\ (forall document, ConfigService.config_file s = ConfigService.JsonFile document ->
      ~ wellFormed document ->
      exists k index detail,
        knownField k /\ malformed document k index
        /\ ConfigService.loadConfig s
           = (Throw (Error (template k index detail)),
              ConfigService.set_cachedConfig document s))
  /\ (forall path m k index detail,
        "Configuration file not found at " ++ path
        <> "Invalid JSON in configuration file: " ++ m
        /\ "Configuration file not found at " ++ path <> template k index detail
        /\ "Invalid JSON in configuration file: " ++ m <> template k index detail).
Proof.
  rewrite loadConfig_value.
  split; [intros ->; reflexivity|].
  split; [intros text ->; eexists; reflexivity|].
  split.
  { intros document -> Hwf. now rewrite (proj2 (validateConfig_Ok document) Hwf). }
  split.
  { intros document -> Hnot.
    destruct (validateConfig document) as [[]|e] eqn:Hv.
    - exfalso. apply Hnot. now apply validateConfig_Ok.
    - destruct (validateConfig_Throw document e Hv) as (k & i & d & -> & Hmal & Hknown).
      exists k, i, d. split; [exact Hknown|]. split; [exact Hmal | reflexivity]. }
  intros path m k index detail.
  split; [intros H; peel H|].
  split; intros H.
  - destruct (aboutEntry k) eqn:Ha.
    + rewrite (template_entry k index detail Ha) in H. peel H.
    + destruct k; try discriminate Ha;
        unfold template, quoted in H; rewrite ?dq_char in H; peel H.
  - destruct (aboutEntry k) eqn:Ha.
    + rewrite (template_entry k index detail Ha) in H. peel H.
    + destruct k; try discriminate Ha;
        unfold template, quoted in H; rewrite ?dq_char in H; peel H.
Qed.

Lemma ensureLoaded_cached s :
  falsy (ConfigService.cachedConfig s) = false ->
  ConfigService.ensureLoaded s = (Ok tt, s).
Proof. intros H. unfold ConfigService.ensureLoaded. now rewrite H. Qed.

Lemma getAllProjects_cached s :
  falsy (ConfigService.cachedConfig s) = false ->
  ConfigService.getAllProjects s = (Ok (entriesOf (ConfigService.cachedConfig s)), s).
Proof.
  intros H. unfold ConfigService.getAllProjects, ConfigService.cbind.
  rewrite (ensureLoaded_cached s H). unfold entriesOf.
  destruct (get (ConfigService.cachedConfig s) "projects"); reflexivity.
Qed.

Lemma getProject_cached id s :
  falsy (ConfigService.cachedConfig s) = false ->
  ConfigService.getProject id s
  = match ConfigService.find id (entriesOf (ConfigService.cachedConfig s)) with
    | Ok found => (Ok found, s)
    | Throw e => (Throw e, s)
    end.
Proof.
  intros H. unfold ConfigService.getProject, ConfigService.cbind.
  rewrite (ensureLoaded_cached s H). unfold entriesOf.
  destruct (get (ConfigService.cachedConfig s) "projects"); reflexivity.
Qed.

(** On entries that are objects, [find] returns the first with the id. *)
Lemma find_firstMatch id projects :
  Forall (fun p => exists props, p = VObject props) projects ->
  exists result, ConfigService.find id projects = Ok result /\ firstMatch id projects result.
Proof.
  induction projects as [|p projects IH]; intros Hobj.
  - exists None. split; [reflexivity|]. left. split; [reflexivity | constructor].
  - inversion Hobj as [|? ? [props ->] Hrest]; subst.
    destruct (IH Hrest) as (r & Hfind & Hfirst).
    cbn [ConfigService.find].
    destruct (get (VObject props) "id") as [| | b | n | s | items | props'] eqn:Hid;
      try (exists r; split; [exact Hfind|];
           destruct Hfirst as [[-> Hall] | (before & q & after & -> & -> & Hq & Hbefore)];
           [left; split; [reflexivity|]; constructor; [rewrite Hid; discriminate | exact Hall]
           | right; exists (VObject props :: before), q, after;
             split; [reflexivity|]; split; [reflexivity|]; split; [exact Hq|];
             constructor; [rewrite Hid; discriminate | exact Hbefore]]).
    destruct (String.eqb s id) eqn:E.
    + apply String.eqb_eq in E. subst s.
      exists (Some (VObject props)). split; [reflexivity|].
      right. exists [], (VObject props), projects.
      split; [reflexivity|]. split; [reflexivity|]. split; [exact Hid | constructor].
    + apply String.eqb_neq in E.
      exists r. split; [exact Hfind|].
      destruct Hfirst as [[-> Hall] | (before & q & after & -> & -> & Hq & Hbefore)].
      * left. split; [reflexivity|]. constructor; [rewrite Hid; congruence | exact Hall].
      * right. exists (VObject props :: before), q, after.
        split; [reflexivity|]. split; [reflexivity|]. split; [exact Hq|].
        constructor; [rewrite Hid; congruence | exact Hbefore].
Qed.

Lemma validEntry_object items :
  Forall validEntry items -> Forall (fun p => exists props, p = VObject props) items.
Proof.
  induction 1 as [|p items [Hobj _] _ IH]; constructor; [exact Hobj | exact IH].
Qed.

Lemma wellFormed_truthy document : wellFormed document -> falsy document = false.
Proof. intros [[props ->] _]. reflexivity. Qed.

Lemma wellFormed_entries document :
  wellFormed document ->
  get document "projects" = VArray (entriesOf document)
  /\ Forall validEntry (entriesOf document).
Proof.
  intros (_ & _ & items & Hitems & Hall). unfold entriesOf. rewrite Hitems.
  split; [reflexivity | exact Hall].
Qed.

(** X16. A document that fails validation stays in the cache: after
    [loadConfig] has thrown for a truthy document that is not well-formed,
    [getAllProjects] and [getProject] no longer load or validate anything;
    they answer from the rejected document, without an error as long as
    its entries are objects. *)
Theorem rejected_config_is_served (s : ConfigService.service) (document : value) (id : string) :
  ConfigService.config_file s = ConfigService.JsonFile document ->
  ~ wellFormed document ->
  falsy document = false ->
  exists e s',
    ConfigService.loadConfig s = (Throw e, s')
    /\ ConfigService.cachedConfig s' = document
    /\ ConfigService.getAllProjects s' = (Ok (entriesOf document), s')
    /\ (Forall (fun p => exists props, p = VObject props) (entriesOf document) ->
        exists result,
          ConfigService.getProject id s' = (Ok result, s')
          /\ firstMatch id (entriesOf document) result).
Proof.
  intros Hfile Hnot Htruthy. rewrite loadConfig_value, Hfile.
  destruct (validateConfig document) as [[]|e] eqn:Hv.
  { exfalso. apply Hnot. now apply validateConfig_Ok. }
  exists e, (ConfigService.set_cachedConfig document s).
  split; [reflexivity|]. split; [reflexivity|].
  split; [now rewrite getAllProjects_cached|].
  intros Hobj. rewrite getProject_cached by exact Htruthy.
  cbn [ConfigService.cachedConfig ConfigService.set_cachedConfig].
  destruct (find_firstMatch id (entriesOf document) Hobj) as (r & -> & Hfirst).
  exists r. split; [reflexivity | exact Hfirst].
Qed.

Lemma rejected_config_is_served_witness :
  exists e s',
    ConfigService.loadConfig
      (ConfigService.mkService "dashboard.config.json"
         (ConfigService.JsonFile
            (VObject {[ "port" := VString "3000";
                        "projects" := VArray [VObject {[ "id" := VString "web" ]}] ]}))
         VNull)
    = (Throw e, s')
    /\ ConfigService.getAllProjects s' = (Ok [VObject {[ "id" := VString "web" ]}], s').
Proof.
  destruct (rejected_config_is_served
              (ConfigService.mkService "dashboard.config.json"
                 (ConfigService.JsonFile
                    (VObject {[ "port" := VString "3000";
                                "projects" := VArray [VObject {[ "id" := VString "web" ]}] ]}))
                 VNull)
              (VObject {[ "port" := VString "3000";
                          "projects" := VArray [VObject {[ "id" := VString "web" ]}] ]})
              "web") as (e & s' & Hload & _ & Hall & _).
  - reflexivity.
  - intros Hwf. apply validateConfig_Ok in Hwf. vm_compute in Hwf. discriminate Hwf.
  - reflexivity.
  - exists e, s'. split; [exact Hload|]. rewrite Hall. vm_compute. reflexivity.
Defined.

(** X17. With an empty cache and a well-formed configuration file,
    [getProject] loads and caches the document and returns the first entry
    whose [id] is the requested one, or [null] when there is none (a
    repeated id is not rejected by the validator).  From then on the file
    is not read again: whatever becomes of it, [getProject] and
    [getAllProjects] answer from the cache, until [reloadConfig] replaces
    the cache by the file's new content. *)
Theorem getProject_loads_once (s : ConfigService.service) (document : value) (id : string) :
  falsy (ConfigService.cachedConfig s) = true ->
  ConfigService.config_file s = ConfigService.JsonFile document ->
  wellFormed document ->
  let s1 := ConfigService.set_cachedConfig document s in
  exists result,
    ConfigService.getProject id s = (Ok result, s1)
    /\ firstMatch id (entriesOf document) result
    /\ (forall file',
          ConfigService.getProject id (ConfigService.set_config_file file' s1)
          = (Ok result, ConfigService.set_config_file file' s1)
          /\ ConfigService.getAllProjects (ConfigService.set_config_file file' s1)
             = (Ok (entriesOf document), ConfigService.set_config_file file' s1))
    /\ (forall document',
          wellFormed document' ->
          ConfigService.reloadConfig
            (ConfigService.set_config_file (ConfigService.JsonFile document') s1)
          = (Ok document',
             ConfigService.set_cachedConfig document'
               (ConfigService.set_config_file (ConfigService.JsonFile document') s1))).
Proof.
  intros Hempty Hfile Hwf s1.
  destruct (wellFormed_entries document Hwf) as [Hentries Hvalid].
  destruct (find_firstMatch id (entriesOf document) (validEntry_object _ Hvalid))
    as (r & Hfind & Hfirst).
  exists r.
  assert (Htruthy : falsy document = false) by now apply wellFormed_truthy.
  split.
  { unfold ConfigService.getProject, ConfigService.cbind at 1, ConfigService.ensureLoaded.
    rewrite Hempty. unfold ConfigService.cbind at 1.
    rewrite loadConfig_value, Hfile, (proj2 (validateConfig_Ok document) Hwf).
    unfold ConfigService.cret. fold s1.
    cbn [ConfigService.cachedConfig ConfigService.set_cachedConfig s1].
    unfold s1. cbn [ConfigService.cachedConfig ConfigService.set_cachedConfig].
    rewrite Hentries, Hfind. reflexivity. }
  split; [exact Hfirst|].
  split.
  { intros file'. split.
    - rewrite getProject_cached by exact Htruthy.
      cbn [ConfigService.cachedConfig ConfigService.set_config_file
             ConfigService.set_cachedConfig s1].
      now rewrite Hfind.
    - now rewrite getAllProjects_cached by exact Htruthy. }
  intros document' Hwf'.
  unfold ConfigService.reloadConfig, ConfigService.cbind.
  rewrite loadConfig_value.
  cbn [ConfigService.config_file ConfigService.set_cachedConfig ConfigService.set_config_file].
  rewrite (proj2 (validateConfig_Ok document') Hwf'). reflexivity.
Qed.

Lemma getProject_loads_once_witness :
  exists result,
    ConfigService.getProject "web"
      (ConfigService.mkService "dashboard.config.json"
         (ConfigService.JsonFile
            (VObject
               {[ "port" := VNumber (Integral 3000);
                  "projects" :=
                    VArray
                      [VObject {[ "id" := VString "web"; "name" := VString "Web";
                                  "dir" := VString "web"; "start" := VString "npm start";
                                  "port" := VNumber (Integral 8000) ]}] ]}))
         VNull)
    = (Ok result,
       ConfigService.set_cachedConfig
         (VObject
            {[ "port" := VNumber (Integral 3000);
               "projects" :=
                 VArray
                   [VObject {[ "id" := VString "web"; "name" := VString "Web";
                               "dir" := VString "web"; "start" := VString "npm start";
                               "port" := VNumber (Integral 8000) ]}] ]})
         (ConfigService.mkService "dashboard.config.json"
            (ConfigService.JsonFile
               (VObject
                  {[ "port" := VNumber (Integral 3000);
                     "projects" :=
                       VArray
                         [VObject {[ "id" := VString "web"; "name" := VString "Web";
                                     "dir" := VString "web"; "start" := VString "npm start";
                                     "port" := VNumber (Integral 8000) ]}] ]}))
            VNull)).
Proof.
  destruct (getProject_loads_once
              (ConfigService.mkService "dashboard.config.json"
                 (ConfigService.JsonFile
                    (VObject
                       {[ "port" := VNumber (Integral 3000);
                          "projects" :=
                            VArray
                              [VObject {[ "id" := VString "web"; "name" := VString "Web";
                                          "dir" := VString "web"; "start" := VString "npm start";
                                          "port" := VNumber (Integral 8000) ]}] ]}))
                 VNull)
              (VObject
                 {[ "port" := VNumber (Integral 3000);
                    "projects" :=
                      VArray
                        [VObject {[ "id" := VString "web"; "name" := VString "Web";
                                    "dir" := VString "web"; "start" := VString "npm start";
                                    "port" := VNumber (Integral 8000) ]}] ]})
              "web") as (result & Hrun & _).
  - reflexivity.
  - reflexivity.
  - apply validateConfig_Ok. vm_compute. reflexivity.
  - exists result. exact Hrun.
Defined.

(** * More on the validator *)

Lemma checkRequired_first e index before : forall f after,
  Forall (fun g => get e g <> VUndefined) before ->
  get e f = VUndefined ->
  checkRequired e index (before ++ f :: after)
  = Throw (Error (template (FieldMissing f) index "")).
Proof.
  induction before as [|g before IH]; intros f after Hbefore Hf; cbn [app checkRequired].
  - now rewrite Hf.
  - inversion Hbefore as [|? ? Hg Hrest]; subst.
    destruct (get e g) eqn:E; try contradiction; cbn [isUndefined]; now apply IH.
Qed.

(** X18. [validateProject] reports a missing field before any ill-typed
    one: for an entry that is an object (or an array), if a required field
    is absent, the error is the [missing required field] one for the first
    absent field in the order id, name, dir, start, port, whatever the
    values of the other fields are.  A field that is present with the
    value [null] is not missing: it is reported as ill-typed. *)
Theorem validateProject_missing_field_first (e : value) (index : nat)
    (before : list string) (f : string) (after : list string) :
  ((exists props, e = VObject props) \/ (exists items, e = VArray items)) ->
  requiredFields = (before ++ f :: after)%list ->
  Forall (fun g => get e g <> VUndefined) before ->
  get e f = VUndefined ->
  validateProject e index = Throw (Error (template (FieldMissing f) index ""))
  /\ (forall props index',
        Forall (fun g => get (VObject (<[ "id" := VNull ]> props)) g <> VUndefined)
          requiredFields ->
        validateProject (VObject (<[ "id" := VNull ]> props)) index'
        = Throw (Error (template (FieldNotString "id") index' ""))).
Proof.
  intros Hshape Hsplit Hbefore Hf. split.
  - unfold validateProject.
    assert (Hs : falsy e || negb (String.eqb (typeof e) "object") = false)
      by (destruct Hshape as [[props ->] | [items ->]]; reflexivity).
    rewrite Hs, Hsplit. now rewrite (checkRequired_first e index before f after Hbefore Hf).
  - intros props index' Hall. unfold validateProject.
    cbn [falsy typeof orb negb]. change (String.eqb "object" "object") with true.
    cbn [negb].
    rewrite (proj2 (checkRequired_Ok _ index' requiredFields) Hall).
    unfold checkString at 1.
    assert (Hid : get (VObject (<[ "id" := VNull ]> props)) "id" = VNull)
      by (cbn [get]; now rewrite lookup_insert_eq).
    rewrite Hid. reflexivity.
Qed.

Lemma validateProject_missing_field_first_witness :
  validateProject
    (VObject {[ "id" := VString ""; "name" := VNumber (Integral 5);
                "start" := VString "npm start"; "port" := VString "x" ]}) 3
  = Throw (Error ("Invalid configuration: project at index 3 missing required field: "
                  ++ quoted "dir")).
Proof.
  apply (validateProject_missing_field_first _ 3 ["id"; "name"] "dir" ["start"; "port"]).
  - left. eexists. reflexivity.
  - reflexivity.
  - repeat constructor; vm_compute; discriminate.
  - vm_compute. reflexivity.
Defined.

(** X19. The validator looks at nothing but the fields it requires: two
    entries that agree on id, name, dir, start and port get the same
    verdict, and so do two documents that agree on port and projects.
    Unknown keys are neither rejected nor reported. *)
Theorem validator_ignores_other_keys (props props' : gmap string value) (index : nat) :
  ((forall f, In f requiredFields -> props !! f = props' !! f) ->
   validateProject (VObject props) index = validateProject (VObject props') index)
  /\ (props !! "port" = props' !! "port" ->
      props !! "projects" = props' !! "projects" ->
      validateConfig (VObject props) = validateConfig (VObject props')).
Proof.
  split.
  - intros H.
    assert (Hget : forall f, In f requiredFields ->
              get (VObject props) f = get (VObject props') f).
    { intros f Hf. cbn [get]. now rewrite (H f Hf). }
    unfold validateProject, checkString.
    cbn [falsy typeof orb negb requiredFields checkRequired].
    rewrite (Hget "id"), (Hget "name"), (Hget "dir"), (Hget "start"), (Hget "port");
      cbn; tauto.
  - intros Hport Hprojects. unfold validateConfig. cbn [get].
    now rewrite Hport, Hprojects.
Qed.


(** ** [getPort] *)

(** X20. [getPort] always returns a port the configuration schema accepts
    (an integer from 0 to 65535), and a result other than 3000 is the
    integer [parseInt] read at the head of [PORT]. *)
Theorem getPort_in_range (envPort : option string) :
  validPort (VNumber (Integral (Parse.getPort envPort)))
  /\ (Parse.getPort envPort <> 3000 ->
      exists port, envPort = Some port /\ port <> ""
                   /\ Parse.parseInt10 port = Some (Parse.getPort envPort)).
Proof.
  unfold Parse.getPort. destruct envPort as [port|].
  - destruct port as [|c port]; cbn [truthyS].
    + split; [exists 3000; split; [reflexivity | lia] | now intros H].
    + destruct (Parse.parseInt10 (String c port)) as [parsed|] eqn:Hparse.
      * destruct ((parsed <? 0) || (65535 <? parsed)) eqn:Hrange.
        -- split; [exists 3000; split; [reflexivity | lia] | now intros H].
        -- apply orb_false_iff in Hrange. destruct Hrange as [H1 H2].
           apply Z.ltb_ge in H1, H2.
           split; [exists parsed; split; [reflexivity | lia]|].
           intros _. exists (String c port). repeat split; [discriminate | exact Hparse].
      * split; [exists 3000; split; [reflexivity | lia] | now intros H].
  - split; [exists 3000; split; [reflexivity | lia] | now intros H].
Qed.


(** ** The routes *)

Lemma blank_nonempty s : blank s = false -> s <> "".
Proof. intros H ->. discriminate H. Qed.

Lemma find_app id before p after :
  Forall (fun q => exists props, q = VObject props) before ->
  Forall (fun q => get q "id" <> VString id) before ->
  (exists props, p = VObject props) -> get p "id" = VString id ->
  ConfigService.find id (before ++ p :: after) = Ok (Some p).
Proof.
  intros Hobj Hne [props ->] Hid.
  induction before as [|q before IH]; cbn [app ConfigService.find].
  - rewrite Hid, String.eqb_refl. reflexivity.
  - inversion Hobj as [|? ? [qprops ->] Hobj']; subst.
    inversion Hne as [|? ? Hq Hne']; subst.
    destruct (get (VObject qprops) "id") eqn:E; try (now apply IH).
    destruct (String.eqb s id) eqn:Es; [|now apply IH].
    apply String.eqb_eq in Es. subst. now contradiction Hq.
Qed.

Lemma find_unknown id projects :
  Forall (fun q => exists props, q = VObject props) projects ->
  Forall (fun q => get q "id" <> VString id) projects ->
  ConfigService.find id projects = Ok None.
Proof.
  intros Hobj Hne. induction projects as [|q projects IH]; [reflexivity|].
  inversion Hobj as [|? ? [qprops ->] Hobj']; subst.
  inversion Hne as [|? ? Hq Hne']; subst. cbn [ConfigService.find].
  destruct (get (VObject qprops) "id") eqn:E; try (now apply IH).
  destruct (String.eqb s id) eqn:Es; [|now apply IH].
  apply String.eqb_eq in Es. subst. now contradiction Hq.
Qed.

Lemma set_cachedConfig_same c :
  ConfigService.set_cachedConfig (ConfigService.cachedConfig c) c = c.
Proof. now destruct c. Qed.

Lemma getProject_configured s document id :
  configured s document ->
  ConfigService.getProject id (Handlers.cfg s)
  = match ConfigService.find id (entriesOf document) with
    | Ok found => (Ok found, ConfigService.set_cachedConfig document (Handlers.cfg s))
    | Throw e => (Throw e, ConfigService.set_cachedConfig document (Handlers.cfg s))
    end.
Proof.
  intros [Hwf [Hc | [Hf Hfile]]].
  - subst document. rewrite set_cachedConfig_same.
    apply getProject_cached. now apply wellFormed_truthy.
  - unfold ConfigService.getProject, ConfigService.cbind, ConfigService.ensureLoaded.
    rewrite Hf. unfold ConfigService.cbind. rewrite loadConfig_value, Hfile.
    rewrite (proj2 (validateConfig_Ok document) Hwf). cbn.
    rewrite (proj1 (wellFormed_entries document Hwf)).
    destruct (ConfigService.find id (entriesOf document)); reflexivity.
Qed.

Lemma getAllProjects_configured s document :
  configured s document ->
  ConfigService.getAllProjects (Handlers.cfg s)
  = (Ok (entriesOf document), ConfigService.set_cachedConfig document (Handlers.cfg s)).
Proof.
  intros [Hwf [Hc | [Hf Hfile]]].
  - subst document. rewrite set_cachedConfig_same.
    apply getAllProjects_cached. now apply wellFormed_truthy.
  - unfold ConfigService.getAllProjects, ConfigService.cbind, ConfigService.ensureLoaded.
    rewrite Hf. unfold ConfigService.cbind. rewrite loadConfig_value, Hfile.
    rewrite (proj2 (validateConfig_Ok document) Hwf). cbn.
    now rewrite (proj1 (wellFormed_entries document Hwf)).
Qed.

Lemma getProject_unknown s document id :
  configured s document -> unknownIn document id ->
  Handlers.inConfig (ConfigService.getProject id) s
  = (Ok None, serving document (Handlers.env s) s).
Proof.
  intros Hconf Hun. unfold Handlers.inConfig.
  rewrite (getProject_configured s document id Hconf).
  rewrite (find_unknown id (entriesOf document)); [reflexivity | | exact Hun].
  apply validEntry_object. apply wellFormed_entries. apply Hconf.
Qed.

Lemma entryOf_valid document id entry :
  wellFormed document -> entryOf document id entry ->
  validEntry entry /\ get entry "id" = VString id.
Proof.
  intros Hwf [[Hnone _] | (before & p & after & Heq & Hsplit & Hid & _)]; [discriminate|].
  injection Heq as ->.
  pose proof (proj2 (wellFormed_entries document Hwf)) as Hall.
  rewrite Hsplit in Hall. apply Forall_app in Hall. destruct Hall as [_ Hall].
  inversion Hall; subst. now split.
Qed.

Lemma getProject_entry s document id entry :
  configured s document -> entryOf document id entry ->
  Handlers.inConfig (ConfigService.getProject id) s
  = (Ok (Some entry), serving document (Handlers.env s) s).
Proof.
  intros Hconf Hentry. unfold Handlers.inConfig.
  rewrite (getProject_configured s document id Hconf).
  pose proof (proj2 (wellFormed_entries document (proj1 Hconf))) as Hall.
  destruct Hentry as [[Hnone _] | (before & p & after & Heq & Hsplit & Hid & Hbefore)];
    [discriminate|].
  injection Heq as ->. rewrite Hsplit in *.
  apply Forall_app in Hall. destruct Hall as [Hb Ha].
  rewrite (find_app id before p after); [reflexivity | | exact Hbefore | | exact Hid].
  - now apply validEntry_object.
  - inversion Ha as [|? ? [Hobj _] _]; subst. exact Hobj.
Qed.

Lemma onProject_unknown id action error s s' :
  Handlers.inConfig (ConfigService.getProject id) s = (Ok None, s') ->
  Handlers.onProject id action error s = (Handlers.notFound, s').
Proof.
  intros H. unfold Handlers.onProject, Handlers.respond, Handlers.hbind.
  now rewrite H.
Qed.

Lemma onProject_found id action error entry s s' :
  Handlers.inConfig (ConfigService.getProject id) s = (Ok (Some entry), s') ->
  Handlers.onProject id action error s
  = match action (Handlers.toProject entry) (Handlers.env s') with
    | (Ok _, w1) =>
        match Routes.buildProjectStatus (Handlers.toProject entry) w1 with
        | (Ok projectStatus, w2) =>
            (Handlers.mkResponse 200 (Handlers.ProjectBody projectStatus),
             Handlers.mkServer (Handlers.cfg s') w2)
        | (Throw e, w2) =>
            (Handlers.mkResponse 500 (Handlers.ErrorBody error (Some (message e))),
             Handlers.mkServer (Handlers.cfg s') w2)
        end
    | (Throw e, w1) =>
        (Handlers.mkResponse 500 (Handlers.ErrorBody error (Some (message e))),
         Handlers.mkServer (Handlers.cfg s') w1)
    end.
Proof.
  intros H. unfold Handlers.onProject, Handlers.respond, Handlers.hbind at 1.
  rewrite H. unfold Handlers.hbind, Handlers.inWorld, Handlers.hret.
  destruct (action (Handlers.toProject entry) (Handlers.env s')) as [[u|e] w1];
    [|reflexivity].
  cbn [Handlers.env Handlers.cfg].
  destruct (Routes.buildProjectStatus (Handlers.toProject entry) w1) as [[st|e] w2];
    reflexivity.
Qed.

(** X21. For an id that no entry of the configuration has, every route on
    one project answers 404 with [Project not found]: nothing is read from
    the state file, nothing is logged, no process is touched, and the log
    route answers so before it looks at [type] or [maxBytes]. *)
Theorem unknown_project_is_404 (s : Handlers.server) (document : value) (id : string)
    (type maxBytes : option string) :
  configured s document -> unknownIn document id ->
  let answer := (Handlers.mkResponse 404 (Handlers.ErrorBody "Project not found" None),
                 serving document (Handlers.env s) s) in
  Handlers.getOne id s = answer
  /\ Handlers.postStart id s = answer
  /\ Handlers.postStop id s = answer
  /\ Handlers.postTunnelStart id s = answer
  /\ Handlers.postTunnelStop id s = answer
  /\ Handlers.getLogs id type maxBytes s = answer.
Proof.
  intros Hconf Hun answer.
  pose proof (getProject_unknown s document id Hconf Hun) as Hget.
  repeat split; try (now apply onProject_unknown).
  unfold Handlers.getLogs, Handlers.respond, Handlers.hbind. now rewrite Hget.
Qed.

Lemma unknown_project_is_404_witness :
  let document := VObject (<["port" := VNumber (Integral 3000)]>
                            (<["projects" := VArray []]> ∅)) in
  let s := Handlers.mkServer
             (ConfigService.mkService "dashboard.config.json"
                (ConfigService.JsonFile document) VNull)
             (mkWorld Missing None ∅ 0 []) in
  Handlers.postStop "shop" s
  = (Handlers.mkResponse 404 (Handlers.ErrorBody "Project not found" None),
     serving document (Handlers.env s) s).
Proof.
  intros document s.
  refine (proj1 (proj2 (proj2 (unknown_project_is_404 s document "shop" None None _ _)))).
  - split.
    + split; [now eexists|]. split.
      * exists 3000. split; [reflexivity | lia].
      * exists []. split; [reflexivity | constructor].
    + right. split; reflexivity.
  - constructor.
Defined.


Lemma buildProjectStatus_run project w :
  id project <> "" -> readable w ->
  Routes.buildProjectStatus project w
  = (Ok (statusOf project w), inspected (id project) w).
Proof.
  intros Hid Hr. unfold Routes.buildProjectStatus. cbv zeta.
  rewrite (bind_ok _ _ _ _ _ (getProjectState_readable (id project) w Hr)).
  rewrite (bind_ok _ _ _ _ _ (isProjectRunning_run (id project) w Hid Hr)).
  set (w1 := probed (pid (stored w (id project))) w).
  assert (Hr1 : readable w1) by now apply readable_probed.
  rewrite (bind_ok _ _ _ _ _ (isTunnelRunning_run (id project) w1 Hid Hr1)).
  set (w2 := probed (tunnelPid (stored w1 (id project))) w1).
  assert (Hr2 : readable w2) by now apply readable_probed.
  rewrite (bind_ok _ _ _ _ _ (getTunnelUrl_run (id project) w2 Hid Hr2)).
  unfold ret, statusOf, inspected, w2. cbv zeta.
  rewrite !stored_probed, !alive_probed. unfold w1.
  rewrite !stored_probed, !alive_probed. reflexivity.
Qed.

Lemma state_file_inspected projectId w :
  state_file (inspected projectId w) = state_file w.
Proof. unfold inspected. cbv zeta. now rewrite !state_file_probed. Qed.

Lemma toProject_valid entry projectId :
  validEntry entry -> get entry "id" = VString projectId ->
  id (Handlers.toProject entry) = projectId
  /\ projectId <> ""
  /\ start (Handlers.toProject entry) <> ""
  /\ dir (Handlers.toProject entry) <> "".
Proof.
  intros (_ & (i & Hi & Hbi) & _ & (d & Hd & Hbd) & (c & Hc & Hbc) & _) Hid.
  unfold Handlers.toProject. cbn [id start dir].
  rewrite Hi, Hd, Hc. cbn [Handlers.stringOf].
  rewrite Hid in Hi. injection Hi as <-.
  repeat split; now apply blank_nonempty.
Qed.




Lemma action_throw {A} (c : IO A) e w w' :
  c w = (Throw e, w') -> (c ;; ret tt) w = (Throw e, w').
Proof. intros H. now rewrite (bind_throw _ _ _ _ _ H). Qed.



Ltac sample_configured :=
  split;
  [ split; [now eexists|];
    split; [eexists; split; [reflexivity | lia]|];
    eexists; split; [reflexivity|];
    constructor; [|constructor];
    split; [now eexists|];
    repeat (split; [eexists; split; reflexivity|]);
    eexists; split; [reflexivity | lia]
  | right; split; reflexivity ].

Ltac sample_entryOf port :=
  right; exists [], (sampleEntry port), []; repeat split; constructor.






Lemma integerOf_falsy v : falsy v = true -> truthyZ (Handlers.integerOf v) = false.
Proof.
  destruct v as [| | b | [z|shown] | str | items | props]; try reflexivity.
  cbn. intros ->. reflexivity.
Qed.

(** X24. A project whose [port] is 0, which the schema accepts, and which
    has no truthy [tunnelPort] can never get a tunnel: the tunnel-start
    route answers 500 with the message of the invalid project object, and
    nothing is read, logged or spawned. *)
Theorem tunnel_start_needs_nonzero_port (s : Handlers.server) (document entry : value)
    (projectId : string) :
  configured s document -> entryOf document projectId entry ->
  get entry "port" = VNumber (Integral 0) ->
  falsy (get entry "tunnelPort") = true ->
  Handlers.postTunnelStart projectId s
  = (Handlers.mkResponse 500
       (Handlers.ErrorBody "Failed to start tunnel"
          (Some "Invalid project object: missing id or tunnelPort")),
     serving document (Handlers.env s) s).
Proof.
  intros Hconf Hentry Hport Htunnel.
  unfold Handlers.postTunnelStart.
  rewrite (onProject_found _ _ _ entry s _
             (getProject_entry s document projectId entry Hconf Hentry)).
  cbn [serving Handlers.env Handlers.cfg].
  assert (Hthrow : TunnelLifecycle.startTunnel
                     (Handlers.withTunnelPort (Handlers.toProject entry)) (Handlers.env s)
                   = (Throw (Error "Invalid project object: missing id or tunnelPort"),
                      Handlers.env s)).
  { unfold TunnelLifecycle.startTunnel, Handlers.withTunnelPort, Handlers.toProject.
    cbn [id port tunnelPort]. rewrite Hport. cbn [Handlers.integerOf Os.numberOf Z.eqb].
    rewrite (integerOf_falsy _ Htunnel). cbn [negb]. rewrite orb_true_r. reflexivity. }
  now rewrite (action_throw _ _ _ _ Hthrow).
Qed.

Lemma tunnel_start_needs_nonzero_port_witness :
  Handlers.postTunnelStart "web" (sampleServer 0 (mkWorld Missing None ∅ 2000 []))
  = (Handlers.mkResponse 500
       (Handlers.ErrorBody "Failed to start tunnel"
          (Some "Invalid project object: missing id or tunnelPort")),
     serving (sampleDocument 0) (mkWorld Missing None ∅ 2000 [])
       (sampleServer 0 (mkWorld Missing None ∅ 2000 []))).
Proof.
  refine (tunnel_start_needs_nonzero_port
            (sampleServer 0 (mkWorld Missing None ∅ 2000 []))
            (sampleDocument 0) (sampleEntry 0) "web" _ _ _ _).
  - sample_configured.
  - sample_entryOf 0.
  - reflexivity.
  - reflexivity.
Defined.

Lemma filter_isSpawn_inspected projectId w :
  List.filter isSpawn (trace (inspected projectId w)) = List.filter isSpawn (trace w).
Proof. unfold inspected. cbv zeta. now rewrite !filter_isSpawn_probed. Qed.




Lemma procs_inspected projectId w : procs (inspected projectId w) = procs w.
Proof. unfold inspected. cbv zeta. now rewrite !procs_probed. Qed.

Lemma statusOf_same project w w' :
  state_file w' = state_file w -> procs w' = procs w ->
  statusOf project w' = statusOf project w.
Proof.
  intros Hfile Hprocs. unfold statusOf. cbv zeta.
  rewrite (stored_same_file w w' _ Hfile). unfold alive. now rewrite Hprocs.
Qed.

Lemma validEntry_id entry :
  validEntry entry -> id (Handlers.toProject entry) <> "".
Proof.
  intros Hvalid. pose proof Hvalid as (_ & (i & Hi & _) & _).
  destruct (toProject_valid entry i Hvalid Hi) as (-> & Hne & _). exact Hne.
Qed.

(** The statuses of a list of entries are those of the first world: the
    probes in between change nothing a status depends on. *)
Lemma buildAll_run entries : forall w,
  Forall validEntry entries -> readable w ->
  exists w',
    Handlers.buildAll entries w
    = (Ok (map (fun entry => statusOf (Handlers.toProject entry) w) entries), w')
    /\ state_file w' = state_file w
    /\ procs w' = procs w
    /\ List.filter isSpawn (trace w') = List.filter isSpawn (trace w).
Proof.
  induction entries as [|entry entries IH]; intros w Hall Hr.
  - exists w. repeat split.
  - inversion Hall as [|? ? Hvalid Hrest]; subst.
    cbn [Handlers.buildAll].
    pose proof (validEntry_id entry Hvalid) as Hne.
    rewrite (bind_ok _ _ _ _ _ (buildProjectStatus_run (Handlers.toProject entry) w Hne Hr)).
    set (w1 := inspected (id (Handlers.toProject entry)) w).
    assert (Hfile : state_file w1 = state_file w) by apply state_file_inspected.
    assert (Hprocs : procs w1 = procs w) by apply procs_inspected.
    destruct (IH w1 Hrest (readable_same_file w w1 Hfile Hr))
      as (w' & Hrun & Hfile' & Hprocs' & Hspawn').
    rewrite (bind_ok _ _ _ _ _ Hrun). exists w'. split.
    + unfold ret. cbn [map]. f_equal. f_equal. f_equal.
      apply map_ext. intros e. now apply statusOf_same.
    + split; [congruence|]. split; [congruence|].
      rewrite Hspawn'. apply filter_isSpawn_inspected.
Qed.

(** X26. With a readable state file the list route answers 200 with one
    status per entry of the configuration, in the order of the file, each
    the status of that entry in the world before the request; the route of
    one project answers with the status of the first entry that has the
    id.  Neither changes the state file or the processes, or spawns
    anything. *)
Theorem status_routes_agree (s : Handlers.server) (document : value) :
  configured s document -> readable (Handlers.env s) ->
  let w := Handlers.env s in
  (exists w',
     Handlers.listProjects s
     = (Handlers.mkResponse 200
          (Handlers.ProjectsBody
             (map (fun entry => statusOf (Handlers.toProject entry) w) (entriesOf document))),
        serving document w' s)
     /\ state_file w' = state_file w /\ procs w' = procs w
     /\ List.filter isSpawn (trace w') = List.filter isSpawn (trace w))
  /\ (forall projectId entry, entryOf document projectId entry ->
      exists w',
        Handlers.getOne projectId s
        = (Handlers.mkResponse 200
             (Handlers.ProjectBody (statusOf (Handlers.toProject entry) w)),
           serving document w' s)
        /\ state_file w' = state_file w /\ procs w' = procs w
        /\ List.filter isSpawn (trace w') = List.filter isSpawn (trace w)).
Proof.
  intros Hconf Hr w. split.
  - unfold Handlers.listProjects, Handlers.respond, Handlers.hbind, Handlers.inConfig.
    rewrite (getAllProjects_configured s document Hconf).
    unfold Handlers.inWorld, Handlers.hret. cbn [Handlers.env Handlers.cfg].
    destruct (buildAll_run (entriesOf document) w
                (proj2 (wellFormed_entries document (proj1 Hconf))) Hr)
      as (w' & Hrun & Hfacts).
    fold w. rewrite Hrun. exists w'. split; [reflexivity | exact Hfacts].
  - intros projectId entry Hentry.
    destruct (entryOf_valid document projectId entry (proj1 Hconf) Hentry) as [Hvalid _].
    unfold Handlers.getOne.
    rewrite (onProject_found _ _ _ entry s _
               (getProject_entry s document projectId entry Hconf Hentry)).
    cbn [serving Handlers.env Handlers.cfg ret]. fold w.
    rewrite (buildProjectStatus_run _ w (validEntry_id entry Hvalid) Hr).
    eexists. split; [reflexivity|].
    split; [apply state_file_inspected|]. split; [apply procs_inspected|].
    apply filter_isSpawn_inspected.
Qed.

Lemma status_routes_agree_witness :
  exists w',
    Handlers.listProjects (sampleServer 8000 (mkWorld Missing None ∅ 2000 []))
    = (Handlers.mkResponse 200
         (Handlers.ProjectsBody
            [Routes.mkStatus "web" "Web" "apps/web" "npm start" 8000 8000
               false None None false None None None]),
       serving (sampleDocument 8000) w'
         (sampleServer 8000 (mkWorld Missing None ∅ 2000 []))).
Proof.
  destruct (status_routes_agree (sampleServer 8000 (mkWorld Missing None ∅ 2000 []))
              (sampleDocument 8000))
    as [(w' & Hrun & _) _].
  - sample_configured.
  - exact I.
  - exists w'. exact Hrun.
Defined.

Lemma onProject_throws projectId action error entry s s' e :
  Handlers.inConfig (ConfigService.getProject projectId) s = (Ok (Some entry), s') ->
  action (Handlers.toProject entry) (Handlers.env s') = (Throw e, Handlers.env s') ->
  Handlers.onProject projectId action error s
  = (Handlers.mkResponse 500 (Handlers.ErrorBody error (Some (message e))),
     Handlers.mkServer (Handlers.cfg s') (Handlers.env s')).
Proof.
  intros Hget Hthrow. rewrite (onProject_found _ _ _ entry s s' Hget).
  now rewrite Hthrow.
Qed.

Lemma buildProjectStatus_unreadable project text w :
  state_file w = NotJson text ->
  exists e, corruptStateError e
            /\ Routes.buildProjectStatus project w = (Throw e, w).
Proof.
  intros Hbad. unfold Routes.buildProjectStatus. cbv zeta.
  now apply (bind_getProjectState_unreadable _ text).
Qed.

Lemma stateFailure_answer error e :
  corruptStateError e ->
  stateFailure error (Handlers.mkResponse 500 (Handlers.ErrorBody error (Some (message e)))).
Proof. intros [m ->]. split; [reflexivity | now exists m]. Qed.

(** X27. When the state file is not JSON, the routes that read it answer
    500 for every configured project, with the message of [loadState]
    under the route's own label, and change nothing: the route of one
    project, start, stop and tunnel-stop, and the list route as a whole as
    soon as one project is configured. *)
Theorem routes_fail_on_corrupt_state (s : Handlers.server) (document entry : value)
    (projectId text : string) :
  configured s document -> entryOf document projectId entry ->
  state_file (Handlers.env s) = NotJson text ->
  let failed (error : string) (route : Handlers.server -> Handlers.response * Handlers.server) :=
    exists answer,
      route s = (answer, serving document (Handlers.env s) s)
      /\ stateFailure error answer in
  failed "Failed to load projects" Handlers.listProjects
  /\ failed "Failed to load project" (Handlers.getOne projectId)
  /\ failed "Failed to start project" (Handlers.postStart projectId)
  /\ failed "Failed to stop project" (Handlers.postStop projectId)
  /\ failed "Failed to stop tunnel" (Handlers.postTunnelStop projectId).
Proof.
  intros Hconf Hentry Hbad failed. unfold failed.
  destruct (entryOf_valid document projectId entry (proj1 Hconf) Hentry) as [Hvalid Hid].
  destruct (toProject_valid entry projectId Hvalid Hid) as (Hpid & Hne & Hstart & Hdir).
  pose proof (getProject_entry s document projectId entry Hconf Hentry) as Hget.
  assert (Hne' : id (Handlers.toProject entry) <> "") by now rewrite Hpid.
  split; [|split; [|split; [|split]]].
  - unfold Handlers.listProjects, Handlers.respond, Handlers.hbind, Handlers.inConfig.
    rewrite (getAllProjects_configured s document Hconf).
    unfold Handlers.inWorld, Handlers.hret. cbn [Handlers.env Handlers.cfg].
    destruct (entriesOf document) as [|first rest] eqn:Hentries.
    + destruct Hentry as [[Hnone _] | (before & p & after & _ & Hsplit & _)];
        [discriminate|].
      unfold entriesOf in Hentries. fold (entriesOf document) in Hentries.
      rewrite Hentries in Hsplit. now destruct before.
    + cbn [Handlers.buildAll].
      destruct (buildProjectStatus_unreadable (Handlers.toProject first) text
                  (Handlers.env s) Hbad) as (e & He & Hthrow).
      rewrite (bind_throw _ _ _ _ _ Hthrow).
      eexists. split; [reflexivity | now apply stateFailure_answer].
  - unfold Handlers.getOne.
    rewrite (onProject_found _ _ _ entry s _ Hget).
    cbn [serving Handlers.env Handlers.cfg ret].
    destruct (buildProjectStatus_unreadable (Handlers.toProject entry) text
                (Handlers.env s) Hbad) as (e & He & Hthrow).
    rewrite Hthrow. eexists. split; [reflexivity | now apply stateFailure_answer].
  - destruct (startProject_unreadable (Handlers.toProject entry) text (Handlers.env s)
                Hbad Hne' Hstart Hdir) as (e & He & Hthrow).
    unfold Handlers.postStart.
    rewrite (onProject_throws _ _ _ entry s _ e Hget);
      [|now apply action_throw].
    eexists. split; [reflexivity | now apply stateFailure_answer].
  - destruct (stopProject_unreadable (Handlers.toProject entry) text (Handlers.env s)
                Hbad Hne') as (e & He & Hthrow).
    unfold Handlers.postStop.
    rewrite (onProject_throws _ _ _ entry s _ e Hget);
      [|now apply action_throw].
    eexists. split; [reflexivity | now apply stateFailure_answer].
  - destruct (stopTunnel_unreadable (Handlers.toProject entry) text (Handlers.env s)
                Hbad Hne') as (e & He & Hthrow).
    unfold Handlers.postTunnelStop.
    rewrite (onProject_throws _ _ _ entry s _ e Hget);
      [|now apply action_throw].
    eexists. split; [reflexivity | now apply stateFailure_answer].
Qed.

Lemma routes_fail_on_corrupt_state_witness :
  exists answer,
    Handlers.listProjects (sampleServer 8000 (mkWorld (NotJson "{") None ∅ 2000 []))
    = (answer,
       serving (sampleDocument 8000) (mkWorld (NotJson "{") None ∅ 2000 [])
         (sampleServer 8000 (mkWorld (NotJson "{") None ∅ 2000 [])))
    /\ stateFailure "Failed to load projects" answer.
Proof.
  refine (proj1 (routes_fail_on_corrupt_state
                   (sampleServer 8000 (mkWorld (NotJson "{") None ∅ 2000 []))
                   (sampleDocument 8000) (sampleEntry 8000) "web" "{" _ _ _)).
  - sample_configured.
  - sample_entryOf 8000.
  - reflexivity.
Defined.
